(** * UMaT Finance: the ledger schema, its triggers and the status-change request

    A shallow embedding of [supabase/migrations/20250329153105_soft_waterfall.sql]
    (tables, CHECK / NOT NULL / UNIQUE / FOREIGN KEY constraints, row-level
    security policies, the [log_activity] and [update_account_balance] trigger
    functions and the three triggers) together with the requests the pages
    send to it ([handleStatusChange] and [handleNewTransaction] in
    [src/pages/Transactions.tsx], [createTransaction] in [src/lib/store.ts]),
    the queries of the pages and of the store, and the Settings page.

    Conventions.
    - [decimal(10,2)] values are integers counting hundredths: 100.00 is
      [10000].  A value fits the column when its absolute value is below
      [10 ^ 10] hundredths; otherwise the assignment raises
      [numeric_value_out_of_range].
    - A nullable column is an [option]; [None] is SQL NULL.
    - A statement either returns the new database or raises an error, in
      which case the statement is rolled back: the caller keeps the old
      database.
    - [uuid] values are 128-bit numbers; [timestamptz] values are numbers.
    - An amount reaches the database already rounded to hundredths; the
      parsing of the form field ([parseFloat]) is outside the model.
    - A request of the application runs under row-level security
      ([bypassrls] is false); the service role and the owner of the tables
      bypass it.  Before a statement under row-level security runs, the
      policies of its table are expanded into it, and so are the policies
      of every table a policy reads; a table met again while its own
      policies are being expanded is the error 42P17. *)

From Stdlib Require Import ZArith List String Bool Lia.
From Stdlib Require Import Sorting.Permutation Sorting.Sorted.
Import ListNotations.

Local Open Scope string_scope.
Local Open Scope list_scope.
Local Open Scope Z_scope.

(** ** Scalar types *)

Definition uuid := N.
Definition timestamptz := Z.
Bind Scope N_scope with uuid.

(** [CREATE TYPE user_role AS ENUM ('admin', 'staff', 'student')] *)
Inductive user_role := admin | staff | student.

(** [CREATE TYPE transaction_type AS ENUM ('payment', 'fee', 'fine')] *)
Inductive transaction_type := payment | fee | fine.

(** [CREATE TYPE transaction_status AS ENUM ('pending', 'approved', 'rejected')] *)
Inductive transaction_status := pending | approved | rejected.

Definition user_role_eqb (a b : user_role) : bool :=
  match a, b with
  | admin, admin | staff, staff | student, student => true
  | _, _ => false
  end.

Definition transaction_type_eqb (a b : transaction_type) : bool :=
  match a, b with
  | payment, payment | fee, fee | fine, fine => true
  | _, _ => false
  end.

Definition transaction_status_eqb (a b : transaction_status) : bool :=
  match a, b with
  | pending, pending | approved, approved | rejected, rejected => true
  | _, _ => false
  end.

(** Enum input function: the label a client sends is cast to the enum. *)
Definition transaction_status_in (label : string) : option transaction_status :=
  if String.eqb label "pending" then Some pending
  else if String.eqb label "approved" then Some approved
  else if String.eqb label "rejected" then Some rejected
  else None.

(** ** Rows *)

Module users.
Record row := mk {
  id : uuid;                       (* PRIMARY KEY *)
  role : user_role;                (* NOT NULL *)
  full_name : string;              (* NOT NULL *)
  student_id : option string;
  department : option string;
  created_at : option timestamptz
}.
End users.

Module transactions.
Record row := mk {
  id : uuid;                       (* PRIMARY KEY *)
  user_id : uuid;                  (* REFERENCES users NOT NULL *)
  type : transaction_type;         (* NOT NULL *)
  amount : Z;                      (* decimal(10,2) NOT NULL *)
  description : string;            (* NOT NULL *)
  status : option transaction_status;   (* DEFAULT 'pending' *)
  approved_by : option uuid;       (* REFERENCES users *)
  created_at : option timestamptz
}.
End transactions.

Module accounts.
Record row := mk {
  id : uuid;                       (* PRIMARY KEY *)
  user_id : uuid;                  (* REFERENCES users NOT NULL UNIQUE *)
  balance : option Z;              (* decimal(10,2) DEFAULT 0.00 *)
  last_updated : option timestamptz;
  created_at : option timestamptz
}.
End accounts.

(** A row with its [status] column replaced. *)
Definition set_status (t : transactions.row)
    (st : option transaction_status) : transactions.row :=
  transactions.mk (transactions.id t) (transactions.user_id t)
    (transactions.type t) (transactions.amount t)
    (transactions.description t) st
    (transactions.approved_by t) (transactions.created_at t).

(** A row with its [balance] and [last_updated] columns replaced. *)
Definition set_balance (a : accounts.row) (b : option Z)
    (at_time : option timestamptz) : accounts.row :=
  accounts.mk (accounts.id a) (accounts.user_id a) b at_time
    (accounts.created_at a).

(** The value of [NEW] and [OLD] in a row trigger, and what [row_to_json]
    makes of it: every column of the row. *)
Inductive record :=
| transactions_record (r : transactions.row)
| accounts_record (r : accounts.row).

Inductive TG_OP := INSERT | UPDATE | DELETE.

Definition TG_OP_text (op : TG_OP) : string :=
  match op with INSERT => "INSERT" | UPDATE => "UPDATE" | DELETE => "DELETE" end.

Module activity_logs.
(** The [details] object built by [jsonb_build_object]. *)
Record jsonb := mk_details {
  table : string;
  operation : string;
  record_id : option uuid;
  new_data : option record;
  old_data : option record
}.
(** The [id] column (a fresh random uuid per row) is not kept: a log row
    is identified by its position in the table. *)
Record row := mk {
  user_id : uuid;                  (* REFERENCES users NOT NULL *)
  action : string;                 (* NOT NULL *)
  details : jsonb;
  created_at : option timestamptz
}.
End activity_logs.

(** ** The database *)

Record database := mk_database {
  tbl_users : list users.row;
  tbl_transactions : list transactions.row;
  tbl_accounts : list accounts.row;
  tbl_activity_logs : list activity_logs.row
}.

(** The session a statement runs in: [auth.uid()] (NULL for a request
    without a signed-in user), whether row-level security is bypassed
    (the table owner, hence every SECURITY DEFINER function; the service
    role), and the value of [now()]. *)
Record session := mk_session {
  auth_uid : option uuid;
  bypassrls : bool;
  now : timestamptz
}.

(** ** Errors *)

Inductive pg_error :=
| invalid_text_representation (value : string)  (* bad enum label *)
| numeric_value_out_of_range
| not_null_violation (column : string)
| check_violation (constraint : string)
| unique_violation (constraint : string)
| foreign_key_violation (constraint : string)
| insufficient_privilege (table : string)       (* row-level security *)
| infinite_recursion (relation : string).       (* 42P17, in a policy *)

Definition result (A : Type) : Type := (pg_error + A)%type.

Definition Ok {A} (a : A) : result A := inr a.
Definition Raise {A} (e : pg_error) : result A := inl e.

Definition bind {A B} (m : result A) (k : A -> result B) : result B :=
  match m with
  | inl e => inl e
  | inr a => k a
  end.

Notation "x <- m ;; k" := (bind m (fun x => k))
  (at level 61, m at next level, right associativity).
Notation "m ;;; k" := (bind m (fun _ => k))
  (at level 61, right associativity).


(** ** Column types and table constraints *)

(** Assignment to a [decimal(10,2)] column. *)
Definition decimal_10_2 (v : Z) : result Z :=
  if Z.abs v <? 10 ^ 10 then Ok v else Raise numeric_value_out_of_range.

Definition is_not_null {A} (v : option A) : bool :=
  match v with Some _ => true | None => false end.

(** [CONSTRAINT student_id_required CHECK (
      (role = 'student' AND student_id IS NOT NULL) OR (role != 'student'))] *)
Definition student_id_required (u : users.row) : bool :=
  (user_role_eqb (users.role u) student && is_not_null (users.student_id u))
  || negb (user_role_eqb (users.role u) student).

(** [CONSTRAINT positive_amount CHECK (amount > 0)] *)
Definition positive_amount (t : transactions.row) : bool :=
  0 <? transactions.amount t.

(** [CONSTRAINT valid_balance CHECK (balance >= 0)].  A CHECK is violated
    only when its expression is false; on a NULL balance it is unknown. *)
Definition valid_balance (a : accounts.row) : bool :=
  match accounts.balance a with
  | None => true
  | Some b => 0 <=? b
  end.

Definition users_has (db : database) (uid : uuid) : bool :=
  existsb (fun u => N.eqb (users.id u) uid) (tbl_users db).

Definition references_users (db : database) (uid : option uuid) : bool :=
  match uid with
  | None => true
  | Some u => users_has db u
  end.

Fixpoint unique (keys : list uuid) : bool :=
  match keys with
  | [] => true
  | k :: rest => negb (existsb (N.eqb k) rest) && unique rest
  end.

(** Every declared constraint holds of the stored rows. *)
Definition consistent (db : database) : bool :=
  unique (map users.id (tbl_users db))
  && forallb student_id_required (tbl_users db)
  && unique (map transactions.id (tbl_transactions db))
  && forallb (fun t => users_has db (transactions.user_id t)
                       && references_users db (transactions.approved_by t)
                       && (Z.abs (transactions.amount t) <? 10 ^ 10)
                       && positive_amount t) (tbl_transactions db)
  && unique (map accounts.id (tbl_accounts db))
  && unique (map accounts.user_id (tbl_accounts db))
  && forallb (fun a => users_has db (accounts.user_id a)
                       && match accounts.balance a with
                          | None => true
                          | Some b => Z.abs b <? 10 ^ 10
                          end
                       && valid_balance a) (tbl_accounts db)
  && forallb (fun l => users_has db (activity_logs.user_id l))
             (tbl_activity_logs db).

(** ** Row-level security

    Row-level security is enabled on the five tables.  A policy is
    modelled by the value of its expression in the current database and
    by the tables its expression reads.  Policies of one command are
    alternatives; a session that bypasses row-level security sees every
    row. *)

(** The tables of the schema and the commands a policy is declared for. *)
Inductive relname :=
| on_users | on_transactions | on_accounts | on_activity_logs | on_settings.

Inductive command := FOR_SELECT | FOR_INSERT | FOR_UPDATE | FOR_DELETE.

Definition relname_eqb (a b : relname) : bool :=
  match a, b with
  | on_users, on_users | on_transactions, on_transactions
  | on_accounts, on_accounts | on_activity_logs, on_activity_logs
  | on_settings, on_settings => true
  | _, _ => false
  end.

Definition relname_text (r : relname) : string :=
  match r with
  | on_users => "users"
  | on_transactions => "transactions"
  | on_accounts => "accounts"
  | on_activity_logs => "activity_logs"
  | on_settings => "settings"
  end.

(** The tables read by the sub-selects of the policies of a table, command
    by command: every [EXISTS (SELECT 1 FROM users WHERE ...)] of the
    migration.  A policy FOR ALL counts for each command. *)
Definition policy_subselects (rel : relname) (cmd : command) : list relname :=
  match rel, cmd with
  | on_users, FOR_SELECT => [on_users]         (* Admins can view all users *)
  | on_transactions, FOR_SELECT => [on_users]  (* Admins and staff can view all transactions *)
  | on_transactions, FOR_UPDATE => [on_users]  (* Admins and staff can approve transactions *)
  | on_accounts, FOR_SELECT => [on_users]      (* Admins and staff can view all accounts *)
  | on_activity_logs, FOR_SELECT => [on_users] (* Admins can view all logs *)
  | on_settings, _ => [on_users]               (* Only admins can manage settings *)
  | _, _ => []
  end.

(** The expansion of the policies of [rel] for the commands [cmds] into a
    statement: each table a policy reads has its SELECT policies expanded
    in turn, with [rel] marked as being expanded; a table that is met while
    it is being expanded is refused.  The marked tables are distinct, so
    the nesting never exceeds the number of tables, which [depth] counts
    down from. *)
Fixpoint expand_policies (depth : nat) (active : list relname)
    (rel : relname) (cmds : list command) : result unit :=
  if existsb (relname_eqb rel) active then
    Raise (infinite_recursion (relname_text rel))
  else
    match depth with
    | O => Ok tt
    | S depth' =>
        fold_right
          (fun sub rest =>
             expand_policies depth' (rel :: active) sub [FOR_SELECT] ;;; rest)
          (Ok tt)
          (flat_map (policy_subselects rel) cmds)
    end.

(** What the server does with a statement on [rel] before it runs:
    [cmds] are the command of the statement and, when the statement reads
    the rows it works on (a WHERE clause or RETURNING), FOR_SELECT. *)
Definition row_security (s : session) (rel : relname) (cmds : list command)
    : result unit :=
  if bypassrls s then Ok tt else expand_policies 5 [] rel cmds.

(** [EXISTS (SELECT 1 FROM users WHERE users.id = auth.uid()
            AND users.role IN (...))] *)
Definition exists_user_with_role (roles : list user_role)
    (s : session) (db : database) : bool :=
  match auth_uid s with
  | None => false
  | Some uid =>
      existsb (fun u => N.eqb (users.id u) uid
                        && existsb (user_role_eqb (users.role u)) roles)
              (tbl_users db)
  end.

Definition is_auth_uid (s : session) (uid : uuid) : bool :=
  match auth_uid s with
  | None => false
  | Some me => N.eqb uid me
  end.

(** "Users can view their own transactions" and
    "Admins and staff can view all transactions", FOR SELECT. *)
Definition transactions_select_policy (s : session) (db : database)
    (t : transactions.row) : bool :=
  is_auth_uid s (transactions.user_id t)
  || exists_user_with_role [admin; staff] s db.

(** "Users can create their own transactions", FOR INSERT WITH CHECK. *)
Definition transactions_insert_policy (s : session) (db : database)
    (t : transactions.row) : bool :=
  bypassrls s || is_auth_uid s (transactions.user_id t).

(** "Admins and staff can approve transactions", FOR UPDATE USING.  The
    statement's WHERE clause reads the row, so the SELECT policies apply as
    well.  The policy has no WITH CHECK of its own: the USING expression is
    applied to the new row too, and it does not depend on the row. *)
Definition transactions_update_policy (s : session) (db : database)
    (t : transactions.row) : bool :=
  bypassrls s
  || (exists_user_with_role [admin; staff] s db
      && transactions_select_policy s db t).

(** No policy FOR DELETE on transactions, and none FOR INSERT, UPDATE or
    DELETE on accounts: only a session that bypasses row-level security
    reaches those rows. *)
Definition transactions_delete_policy (s : session) : bool := bypassrls s.
Definition accounts_write_policy (s : session) : bool := bypassrls s.

(** A SECURITY DEFINER function runs as its owner, the owner of the
    tables; [auth.uid()] and [now()] are those of the calling request. *)
Definition SECURITY_DEFINER (s : session) : session :=
  {| auth_uid := auth_uid s; bypassrls := true; now := now s |}.

(** ** Statements over rows *)

(** The rows of [tbl] selected by [target] are replaced by what [assign]
    computes; the result is the new table and the (OLD, NEW) pairs. *)
Fixpoint update_rows {R : Type} (target : R -> bool) (assign : R -> result R)
    (tbl : list R) : result (list R * list (R * R)) :=
  match tbl with
  | [] => Ok ([], [])
  | r :: rest =>
      if target r then
        r' <- assign r ;;
        p <- update_rows target assign rest ;;
        Ok (r' :: fst p, (r, r') :: snd p)
      else
        p <- update_rows target assign rest ;;
        Ok (r :: fst p, snd p)
  end.

(** AFTER ... FOR EACH ROW: the trigger runs once per affected row, in
    order, when the statement has changed the table. *)
Fixpoint for_each_row {R : Type} (fire : R -> database -> result database)
    (rows : list R) (db : database) : result database :=
  match rows with
  | [] => Ok db
  | r :: rest => db1 <- fire r db ;; for_each_row fire rest db1
  end.

Definition set_transactions (db : database) (tbl : list transactions.row)
    : database :=
  {| tbl_users := tbl_users db; tbl_transactions := tbl;
     tbl_accounts := tbl_accounts db;
     tbl_activity_logs := tbl_activity_logs db |}.

Definition set_accounts (db : database) (tbl : list accounts.row)
    : database :=
  {| tbl_users := tbl_users db; tbl_transactions := tbl_transactions db;
     tbl_accounts := tbl;
     tbl_activity_logs := tbl_activity_logs db |}.

Definition set_activity_logs (db : database) (tbl : list activity_logs.row)
    : database :=
  {| tbl_users := tbl_users db; tbl_transactions := tbl_transactions db;
     tbl_accounts := tbl_accounts db;
     tbl_activity_logs := tbl |}.

(** ** [log_activity] *)

Definition record_id (r : record) : uuid :=
  match r with
  | transactions_record t => transactions.id t
  | accounts_record a => accounts.id a
  end.

Definition record_user_id (r : record) : uuid :=
  match r with
  | transactions_record t => transactions.user_id t
  | accounts_record a => accounts.user_id a
  end.

Definition COALESCE {A} (a b : option A) : option A :=
  match a with
  | Some _ => a
  | None => b
  end.

(** [INSERT INTO activity_logs (user_id, action, details) VALUES (...)];
    [created_at] takes its default [now()]. *)
Definition INSERT_INTO_activity_logs (s : session) (user_id : option uuid)
    (action : string) (details : activity_logs.jsonb) (db : database)
    : result database :=
  match user_id with
  | None => Raise (not_null_violation "user_id")
  | Some uid =>
      if users_has db uid then
        Ok (set_activity_logs db
              (tbl_activity_logs db ++
               [activity_logs.mk uid action details (Some (now s))]))
      else Raise (foreign_key_violation "activity_logs_user_id_fkey")
  end.

(** [log_activity()], a row trigger function.  [NEW] is NULL in a DELETE
    trigger and [OLD] is NULL in an INSERT trigger; a field of a NULL
    record is NULL and so is its [row_to_json]. *)
Definition log_activity (s : session) (TG_TABLE_NAME : string) (op : TG_OP)
    (NEW OLD : option record) (db : database) : result database :=
  INSERT_INTO_activity_logs (SECURITY_DEFINER s)
    (COALESCE (option_map record_user_id NEW) (auth_uid s))
    (TG_TABLE_NAME ++ "_" ++ TG_OP_text op)%string
    (activity_logs.mk_details
       TG_TABLE_NAME
       (TG_OP_text op)
       (COALESCE (option_map record_id NEW) (option_map record_id OLD))
       NEW
       OLD)
    db.

(** ** Triggers and statements on [accounts] *)

(** [log_accounts_trigger AFTER INSERT OR UPDATE OR DELETE ON accounts
    FOR EACH ROW EXECUTE FUNCTION log_activity()] is the only trigger of
    the table. *)
Definition accounts_after_row (s : session) (op : TG_OP)
    (NEW OLD : option accounts.row) (db : database) : result database :=
  log_activity s "accounts" op
    (option_map accounts_record NEW) (option_map accounts_record OLD) db.

(** The SET clause [balance = <expr over balance>, last_updated = now()]
    applied to one row, followed by the table's CHECK. *)
Definition accounts_assign_balance (s : session) (expr : option Z -> option Z)
    (a : accounts.row) : result accounts.row :=
  b <- match expr (accounts.balance a) with
       | None => Ok None
       | Some v => v' <- decimal_10_2 v ;; Ok (Some v')
       end ;;
  let a' := set_balance a b (Some (now s)) in
  if valid_balance a' then Ok a' else Raise (check_violation "valid_balance").

(** [UPDATE accounts SET balance = <expr>, last_updated = now() WHERE ...] *)
Definition UPDATE_accounts_SET_balance (s : session)
    (expr : option Z -> option Z) (WHERE : accounts.row -> bool)
    (db : database) : result database :=
  row_security s on_accounts [FOR_UPDATE; FOR_SELECT] ;;;
  p <- update_rows (fun a => WHERE a && accounts_write_policy s)
         (accounts_assign_balance s expr) (tbl_accounts db) ;;
  for_each_row
    (fun on => accounts_after_row s UPDATE (Some (snd on)) (Some (fst on)))
    (snd p) (set_accounts db (fst p)).

(** [INSERT INTO accounts VALUES (...)], as the table owner or the service
    role issues it; no page of the application does. *)
Definition INSERT_INTO_accounts (s : session) (a : accounts.row)
    (db : database) : result database :=
  row_security s on_accounts [FOR_INSERT] ;;;
  match accounts.balance a with
  | None => Ok 0
  | Some v => decimal_10_2 v
  end ;;;
  if negb (accounts_write_policy s) then
    Raise (insufficient_privilege "accounts")
  else if negb (valid_balance a) then Raise (check_violation "valid_balance")
  else if existsb (N.eqb (accounts.id a)) (map accounts.id (tbl_accounts db))
  then Raise (unique_violation "accounts_pkey")
  else if existsb (N.eqb (accounts.user_id a))
            (map accounts.user_id (tbl_accounts db))
  then Raise (unique_violation "accounts_user_id_key")
  else if negb (users_has db (accounts.user_id a))
  then Raise (foreign_key_violation "accounts_user_id_fkey")
  else accounts_after_row s INSERT (Some a) None
         (set_accounts db (tbl_accounts db ++ [a])).

(** [DELETE FROM accounts WHERE ...], likewise. *)
Definition DELETE_FROM_accounts (s : session) (WHERE : accounts.row -> bool)
    (db : database) : result database :=
  row_security s on_accounts [FOR_DELETE; FOR_SELECT] ;;;
  let target := fun a => WHERE a && accounts_write_policy s in
  for_each_row (fun old => accounts_after_row s DELETE None (Some old))
    (filter target (tbl_accounts db))
    (set_accounts db (filter (fun a => negb (target a)) (tbl_accounts db))).

(** ** Triggers and statements on [transactions] *)

(** [status = 'approved'] as a condition: true only on a non-NULL status
    equal to the label. *)
Definition status_is (st : option transaction_status)
    (label : transaction_status) : bool :=
  match st with
  | None => false
  | Some v => transaction_status_eqb v label
  end.

(** [update_account_balance()], SECURITY DEFINER. *)
Definition update_account_balance (s : session) (NEW OLD : transactions.row)
    (db : database) : result database :=
  if status_is (transactions.status NEW) approved
     && status_is (transactions.status OLD) pending
  then
    if transaction_type_eqb (transactions.type NEW) payment then
      UPDATE_accounts_SET_balance (SECURITY_DEFINER s)
        (option_map (fun balance => balance + transactions.amount NEW))
        (fun a => N.eqb (accounts.user_id a) (transactions.user_id NEW))
        db
    else if existsb (transaction_type_eqb (transactions.type NEW)) [fee; fine]
    then
      UPDATE_accounts_SET_balance (SECURITY_DEFINER s)
        (option_map (fun balance => balance - transactions.amount NEW))
        (fun a => N.eqb (accounts.user_id a) (transactions.user_id NEW))
        db
    else Ok db
  else Ok db.

(** The row triggers of [transactions], fired in the order of their names:
    - [log_transactions_trigger AFTER INSERT OR UPDATE OR DELETE];
    - [update_balance_trigger AFTER UPDATE
         WHEN (NEW.status = 'approved' AND OLD.status = 'pending')]. *)
Definition transactions_after_row (s : session) (op : TG_OP)
    (NEW OLD : option transactions.row) (db : database) : result database :=
  db1 <- log_activity s "transactions" op
           (option_map transactions_record NEW)
           (option_map transactions_record OLD) db ;;
  match op, NEW, OLD with
  | UPDATE, Some new, Some old =>
      if status_is (transactions.status new) approved
         && status_is (transactions.status old) pending
      then update_account_balance s new old db1
      else Ok db1
  | _, _, _ => Ok db1
  end.

(** The SET clause [status = <value>] applied to one row; the row's CHECK
    is evaluated on the new row. *)
Definition transactions_assign_status (st : option transaction_status)
    (t : transactions.row) : result transactions.row :=
  let t' := set_status t st in
  if positive_amount t' then Ok t'
  else Raise (check_violation "positive_amount").

(** [UPDATE transactions SET status = <value> WHERE ...].  The value is
    computed when the statement runs, after the policies have been
    expanded into it. *)
Definition UPDATE_transactions_SET_status (s : session)
    (value : result (option transaction_status))
    (WHERE : transactions.row -> bool)
    (db : database) : result database :=
  row_security s on_transactions [FOR_UPDATE; FOR_SELECT] ;;;
  st <- value ;;
  p <- update_rows (fun t => WHERE t && transactions_update_policy s db t)
         (transactions_assign_status st) (tbl_transactions db) ;;
  for_each_row
    (fun on => transactions_after_row s UPDATE (Some (snd on)) (Some (fst on)))
    (snd p) (set_transactions db (fst p)).

(** [INSERT INTO transactions VALUES (...)] of a complete row (defaults
    already filled in). *)
Definition INSERT_INTO_transactions (s : session) (t : transactions.row)
    (db : database) : result database :=
  row_security s on_transactions [FOR_INSERT] ;;;
  decimal_10_2 (transactions.amount t) ;;;
  if negb (transactions_insert_policy s db t) then
    Raise (insufficient_privilege "transactions")
  else if negb (positive_amount t) then
    Raise (check_violation "positive_amount")
  else if existsb (N.eqb (transactions.id t))
            (map transactions.id (tbl_transactions db))
  then Raise (unique_violation "transactions_pkey")
  else if negb (users_has db (transactions.user_id t))
  then Raise (foreign_key_violation "transactions_user_id_fkey")
  else if negb (references_users db (transactions.approved_by t))
  then Raise (foreign_key_violation "transactions_approved_by_fkey")
  else transactions_after_row s INSERT (Some t) None
         (set_transactions db (tbl_transactions db ++ [t])).

(** [INSERT INTO transactions VALUES (...) RETURNING *]: the new row is
    read back, so the SELECT policies are expanded into the statement as
    well, and the row has to be one the session may see. *)
Definition INSERT_INTO_transactions_RETURNING (s : session)
    (t : transactions.row) (db : database) : result database :=
  row_security s on_transactions [FOR_INSERT; FOR_SELECT] ;;;
  db' <- INSERT_INTO_transactions s t db ;;
  if bypassrls s || transactions_select_policy s db' t then Ok db'
  else Raise (insufficient_privilege "transactions").

(** [DELETE FROM transactions WHERE ...], as the table owner or the service
    role issues it; no page of the application does. *)
Definition DELETE_FROM_transactions (s : session)
    (WHERE : transactions.row -> bool) (db : database) : result database :=
  row_security s on_transactions [FOR_DELETE; FOR_SELECT] ;;;
  let target := fun t => WHERE t && transactions_delete_policy s in
  for_each_row (fun old => transactions_after_row s DELETE None (Some old))
    (filter target (tbl_transactions db))
    (set_transactions db
       (filter (fun t => negb (target t)) (tbl_transactions db))).

(** ** Requests of the application *)

(** The cast of a label of the request body to the enum. *)
Definition to_transaction_status (label : string)
    : result (option transaction_status) :=
  match transaction_status_in label with
  | None => Raise (invalid_text_representation label)
  | Some st => Ok (Some st)
  end.

(** [handleStatusChange] (Transactions.tsx):
    [supabase.from('transactions').update({ status: newStatus })
       .eq('id', transactionId)]. *)
Definition update_status_request (s : session) (transactionId : uuid)
    (newStatus : string) (db : database) : result database :=
  UPDATE_transactions_SET_status s (to_transaction_status newStatus)
    (fun t => N.eqb (transactions.id t) transactionId) db.

(** The Transactions page: the rows it shows and what it wrote to the
    console. *)
Record page := mk_page {
  page_transactions : list transactions.row;
  console_error : list pg_error
}.

(** [handleStatusChange(transactionId, newStatus)]: on an error the page
    logs it and keeps its rows; otherwise it rewrites the status of the row
    it shows. *)
Definition handleStatusChange (s : session) (transactionId : uuid)
    (newStatus : string) (st : page * database) : page * database :=
  let (pg, db) := st in
  match update_status_request s transactionId newStatus db with
  | inl error =>
      (mk_page (page_transactions pg) (console_error pg ++ [error]), db)
  | inr db' =>
      (mk_page
         (map (fun t =>
                 if N.eqb (transactions.id t) transactionId
                 then set_status t (transaction_status_in newStatus)
                 else t)
              (page_transactions pg))
         (console_error pg),
       db')
  end.

(** [handleNewTransaction] (Transactions.tsx): without a signed-in user
    nothing is sent; otherwise one row is inserted for that user with
    status 'pending' and read back ([.insert([...]).select()]).  [id] is
    the uuid the column default draws, [amount] the entered amount in
    hundredths. *)
Definition handleNewTransaction (s : session) (id : uuid)
    (type : transaction_type) (amount : Z) (description : string)
    (db : database) : result database :=
  match auth_uid s with
  | None => Ok db
  | Some user_id =>
      INSERT_INTO_transactions_RETURNING s
        (transactions.mk id user_id type amount description (Some pending)
           None (Some (now s)))
        db
  end.

(** [createTransaction] (store.ts): the row is inserted as given, without
    [id], [created_at] and [status], which take their defaults, and is not
    read back ([.insert([transaction])]). *)
Definition createTransaction (s : session) (id : uuid) (user_id : uuid)
    (type : transaction_type) (amount : Z) (description : string)
    (approved_by : option uuid) (db : database) : result database :=
  INSERT_INTO_transactions s
    (transactions.mk id user_id type amount description (Some pending)
       approved_by (Some (now s)))
    db.

(** ** Sequences of operations

    The operations a ledger goes through: a user files a transaction, on
    the Transactions page or through the store, an approver approves or
    rejects one.  A statement that raises an error is rolled back, so the
    database is the one before it. *)

Inductive operation :=
| create (s : session) (id : uuid) (type : transaction_type) (amount : Z)
         (description : string)
| file (s : session) (id : uuid) (user_id : uuid) (type : transaction_type)
       (amount : Z) (description : string) (approved_by : option uuid)
| approve (s : session) (transactionId : uuid)
| reject (s : session) (transactionId : uuid).

Definition step (op : operation) (db : database) : result database :=
  match op with
  | create s id type amount description =>
      handleNewTransaction s id type amount description db
  | file s id user_id type amount description approved_by =>
      createTransaction s id user_id type amount description approved_by db
  | approve s transactionId =>
      update_status_request s transactionId "approved" db
  | reject s transactionId =>
      update_status_request s transactionId "rejected" db
  end.

Definition apply_operation (db : database) (op : operation) : database :=
  match step op db with
  | inr db' => db'
  | inl _ => db
  end.

Definition run (ops : list operation) (db : database) : database :=
  fold_left apply_operation ops db.

(** ** Vocabulary of the statements below *)

(** The session passes the expression of the UPDATE policy of
    [transactions]: it bypasses row-level security or its user is an
    admin or a member of staff. *)
Definition may_update (s : session) (db : database) : bool :=
  bypassrls s || exists_user_with_role [admin; staff] s db.

(** The log row [l] audits one row operation: it names the table and the
    operation and carries the two snapshots. *)
Definition audits (l : activity_logs.row) (tbl : string) (op : TG_OP)
    (before after : option record) : Prop :=
  activity_logs.action l = (tbl ++ "_" ++ TG_OP_text op)%string
  /\ activity_logs.table (activity_logs.details l) = tbl
  /\ activity_logs.operation (activity_logs.details l) = TG_OP_text op
  /\ activity_logs.old_data (activity_logs.details l) = before
  /\ activity_logs.new_data (activity_logs.details l) = after.

(** The amount an approved transaction adds to its owner's balance. *)
Definition signed_amount (t : transactions.row) : Z :=
  match transactions.type t with
  | payment => transactions.amount t
  | fee | fine => - transactions.amount t
  end.

(** [a'] is the account [a] once the approval of [t] at time [ts] has been
    applied to it: the owner's row has the new balance, which passed the
    table's CHECK, and the time of the update; any other row is as it was. *)
Definition credited (t : transactions.row) (ts : timestamptz)
    (a a' : accounts.row) : Prop :=
  if N.eqb (accounts.user_id a) (transactions.user_id t) then
    a' = set_balance a
           (option_map (fun b => b + signed_amount t) (accounts.balance a))
           (Some ts)
    /\ valid_balance a' = true
  else a' = a.

(** [t'] is the row [t] with, possibly, another status. *)
Definition same_but_status (t t' : transactions.row) : Prop :=
  t' = set_status t (transactions.status t').

(** [a'] is the account [a] with, possibly, another balance and time of
    update; a new balance fits the column and passed the table's CHECK. *)
Definition same_but_balance (a a' : accounts.row) : Prop :=
  accounts.id a' = accounts.id a
  /\ accounts.user_id a' = accounts.user_id a
  /\ (a' = a
      \/ (valid_balance a' = true
          /\ forall b, accounts.balance a' = Some b -> Z.abs b < 10 ^ 10)).

(** What the status-change request can do to a database: the users stay,
    each transaction keeps all but its status, each account all but its
    balance and time of update, and the log grows by rows of known users. *)
Definition evolves (db db' : database) : Prop :=
  tbl_users db' = tbl_users db
  /\ Forall2 same_but_status (tbl_transactions db) (tbl_transactions db')
  /\ Forall2 same_but_balance (tbl_accounts db) (tbl_accounts db')
  /\ exists ls,
       tbl_activity_logs db' = tbl_activity_logs db ++ ls
       /\ Forall (fun l => users_has db (activity_logs.user_id l) = true) ls.

(** ** A small ledger used in the examples *)

Definition ama : users.row := users.mk 1 admin "Ama" None None None.
Definition kofi : users.row := users.mk 2 student "Kofi" (Some "S-0002") None None.
Definition esi : users.row := users.mk 3 staff "Esi" (Some "S-0003") None None.
Definition yaw : users.row := users.mk 4 student "Yaw" (Some "S-0004") None None.

Definition tuition : transactions.row :=
  transactions.mk 10 2 payment 10000 "tuition" (Some pending) None None.
Definition lab_fee : transactions.row :=
  transactions.mk 11 2 fee 3000 "lab fee" (Some pending) None None.
Definition late_fine : transactions.row :=
  transactions.mk 12 2 fine 999999 "late fine" (Some pending) None None.
Definition refund : transactions.row :=
  transactions.mk 13 2 payment 100 "refund" (Some approved) None None.
Definition deposit : transactions.row :=
  transactions.mk 14 4 payment 2500 "deposit" (Some pending) None None.

Definition kofi_account : accounts.row :=
  accounts.mk 20 2 (Some 5000) None None.
Definition ama_account : accounts.row :=
  accounts.mk 21 1 (Some 0) None None.

Definition ledger : database :=
  mk_database [ama; kofi; esi; yaw]
    [tuition; lab_fee; late_fine; refund; deposit]
    [kofi_account; ama_account] [].

Definition as_ama : session := mk_session (Some 1%N) false 1000.
Definition as_kofi : session := mk_session (Some 2%N) false 1001.
Definition as_owner : session := mk_session (Some 1%N) true 1002.
Definition as_service : session := mk_session None true 1003.

(** A day at the ledger, as the pages send it. *)
Definition ledger_day : list operation :=
  [create as_kofi 15 fee 250 "library card";
   approve as_ama 10;
   reject as_ama 11].

(** The same day with the transaction filed through the store and the
    decisions taken with the service role. *)
Definition service_day : list operation :=
  [file as_kofi 15 2 fee 250 "library card" None;
   approve as_service 10;
   reject as_service 11].

(** The transaction Kofi files on that day, as the INSERT stores it. *)
Definition library_card : transactions.row :=
  transactions.mk 15 2 fee 250 "library card" (Some pending) None (Some 1001).

(** A ledger whose one account is close to the top of the column range. *)
Definition rich_account : accounts.row :=
  accounts.mk 20 2 (Some 9999995000) None None.
Definition rich_ledger : database :=
  mk_database [ama; kofi; esi; yaw] [tuition] [rich_account] [].

(** ** Reading: SELECT policies and the queries of the pages *)

(** "Users can view their own data" and "Admins can view all users",
    FOR SELECT ON users. *)
Definition users_select_policy (s : session) (db : database)
    (u : users.row) : bool :=
  is_auth_uid s (users.id u) || exists_user_with_role [admin] s db.

(** "Users can view their own account" and
    "Admins and staff can view all accounts", FOR SELECT ON accounts. *)
Definition accounts_select_policy (s : session) (db : database)
    (a : accounts.row) : bool :=
  is_auth_uid s (accounts.user_id a)
  || exists_user_with_role [admin; staff] s db.

(** [SELECT * FROM <table> WHERE ...]: once the policies have been
    expanded into the query, the rows the session may see that satisfy the
    condition.  Without ORDER BY the order of the result is not specified;
    the queries below that rely on an order state it. *)
Definition SELECT_FROM_users (s : session) (WHERE : users.row -> bool)
    (db : database) : result (list users.row) :=
  row_security s on_users [FOR_SELECT] ;;;
  Ok (filter (fun u => WHERE u && (bypassrls s || users_select_policy s db u))
        (tbl_users db)).

Definition SELECT_FROM_transactions (s : session)
    (WHERE : transactions.row -> bool) (db : database)
    : result (list transactions.row) :=
  row_security s on_transactions [FOR_SELECT] ;;;
  Ok (filter (fun t => WHERE t
                       && (bypassrls s || transactions_select_policy s db t))
        (tbl_transactions db)).

Definition SELECT_FROM_accounts (s : session) (WHERE : accounts.row -> bool)
    (db : database) : result (list accounts.row) :=
  row_security s on_accounts [FOR_SELECT] ;;;
  Ok (filter (fun a => WHERE a
                       && (bypassrls s || accounts_select_policy s db a))
        (tbl_accounts db)).

(** [created_at DESC]: NULL sorts first, then the later time. *)
Definition created_at_DESC (x y : option timestamptz) : Prop :=
  match x, y with
  | None, _ => True
  | Some _, None => False
  | Some a, Some b => b <= a
  end.

(** [.order('created_at', { ascending: false })]: the result is some
    arrangement of the rows in which no row comes before a row that
    [created_at DESC] puts first; the order of equal rows is not
    specified. *)
Definition ORDER_BY_created_at_DESC (rows out : list transactions.row)
    : Prop :=
  Permutation rows out
  /\ StronglySorted
       (fun t u => created_at_DESC (transactions.created_at t)
                     (transactions.created_at u))
       out.

(** [.single()]: the data is the one row of the result; an error of the
    query comes back as no data, and so do no row and several rows (the
    error PGRST116). *)
Definition single {R : Type} (response : result (list R)) : option R :=
  match response with
  | inr [r] => Some r
  | _ => None
  end.

Definition is_admin_or_staff (userDetails : option users.row) : bool :=
  match userDetails with
  | None => false
  | Some u => existsb (user_role_eqb (users.role u)) [admin; staff]
  end.

(** The state of the Transactions page that its query reads and writes. *)
Record transactions_view := mk_transactions_view {
  view_userDetails : option users.row;
  view_transactions : list transactions.row;
  view_filter : string;
  view_loading : bool
}.

(** The query [fetchData] builds (Transactions.tsx): own rows only unless
    the page knows the user as admin or staff, one status unless the
    filter is 'all'.  The filter is cast to the enum when the query runs. *)
Definition fetchData_query (s : session) (user_id : uuid)
    (userDetails : option users.row) (filter : string) (db : database)
    : result (list transactions.row) :=
  row_security s on_transactions [FOR_SELECT] ;;;
  let own := fun t : transactions.row =>
    if is_admin_or_staff userDetails then true
    else N.eqb (transactions.user_id t) user_id in
  if String.eqb filter "all" then SELECT_FROM_transactions s own db
  else
    match transaction_status_in filter with
    | None => Raise (invalid_text_representation filter)
    | Some st =>
        SELECT_FROM_transactions s
          (fun t => own t && status_is (transactions.status t) st) db
    end.

(** [fetchData] (Transactions.tsx): nothing without a signed-in user;
    otherwise the user's row is fetched and kept when there is one, and
    the transactions are replaced by the ordered result of the query,
    built with the details the page had before; on an error they stay. *)
Definition fetchData (s : session) (db : database)
    (v v' : transactions_view) : Prop :=
  match auth_uid s with
  | None => v' = v
  | Some uid =>
      let userDetails' :=
        match single (SELECT_FROM_users s
                        (fun u => N.eqb (users.id u) uid) db) with
        | Some userData => Some userData
        | None => view_userDetails v
        end in
      match fetchData_query s uid (view_userDetails v) (view_filter v) db with
      | inl _ =>
          v' = mk_transactions_view userDetails' (view_transactions v)
                 (view_filter v) false
      | inr rows =>
          exists out,
            ORDER_BY_created_at_DESC rows out
            /\ v' = mk_transactions_view userDetails' out (view_filter v)
                      false
      end
  end.

(** The Actions column of the Transactions page: the status changes the
    page offers on a row. *)
Definition row_actions (userDetails : option users.row)
    (t : transactions.row) : list string :=
  if is_admin_or_staff userDetails
     && status_is (transactions.status t) pending
  then ["approved"; "rejected"]
  else [].

(** The store (store.ts). *)
Record AppState := mk_AppState {
  state_transactions : list transactions.row;
  state_account : option accounts.row;
  state_loading : bool;
  state_error : option string
}.

(** [fetchAccount] (store.ts): [from('accounts').select('*').single()];
    any error is shown as 'Failed to fetch account'. *)
Definition fetchAccount (s : session) (db : database) (st : AppState)
    : AppState :=
  match single (SELECT_FROM_accounts s (fun _ => true) db) with
  | Some data =>
      mk_AppState (state_transactions st) (Some data) false None
  | None =>
      mk_AppState (state_transactions st) (state_account st) false
        (Some "Failed to fetch account")
  end.

(** [fetchTransactions] (store.ts): every row the session may see,
    latest first; on an error the rows stay and the error is shown as
    'Failed to fetch transactions'. *)
Definition fetchTransactions (s : session) (db : database)
    (st st' : AppState) : Prop :=
  match SELECT_FROM_transactions s (fun _ => true) db with
  | inl _ =>
      st' = mk_AppState (state_transactions st) (state_account st) false
              (Some "Failed to fetch transactions")
  | inr rows =>
      exists out,
        ORDER_BY_created_at_DESC rows out
        /\ st' = mk_AppState out (state_account st) false None
  end.

(** The state of the Dashboard page. *)
Record dashboard_view := mk_dashboard_view {
  dashboard_account : option accounts.row;
  dashboard_transactions : list transactions.row;
  dashboard_userDetails : option users.row;
  dashboard_loading : bool
}.

(** [fetchDashboardData] (Dashboard.tsx): the user's row, the user's
    account and the user's five latest transactions; each is kept as it
    was when the query brings no data, which is also what an error of the
    query does: the page reads [data] only. *)
Definition fetchDashboardData (s : session) (db : database)
    (v v' : dashboard_view) : Prop :=
  match auth_uid s with
  | None => v' = v
  | Some uid =>
      let account' :=
        match single (SELECT_FROM_accounts s
                        (fun a => N.eqb (accounts.user_id a) uid) db) with
        | Some accountData => Some accountData
        | None => dashboard_account v
        end in
      let userDetails' :=
        match single (SELECT_FROM_users s
                        (fun u => N.eqb (users.id u) uid) db) with
        | Some userData => Some userData
        | None => dashboard_userDetails v
        end in
      match SELECT_FROM_transactions s
              (fun t => N.eqb (transactions.user_id t) uid) db with
      | inl _ =>
          v' = mk_dashboard_view account' (dashboard_transactions v)
                 userDetails' false
      | inr rows =>
          exists sorted,
            ORDER_BY_created_at_DESC rows sorted
            /\ v' = mk_dashboard_view account' (firstn 5 sorted)
                      userDetails' false
      end
  end.

(** "Users can view their own logs" and "Admins can view all logs",
    FOR SELECT ON activity_logs. *)
Definition activity_logs_select_policy (s : session) (db : database)
    (l : activity_logs.row) : bool :=
  is_auth_uid s (activity_logs.user_id l) || exists_user_with_role [admin] s db.

Definition SELECT_FROM_activity_logs (s : session)
    (WHERE : activity_logs.row -> bool) (db : database)
    : result (list activity_logs.row) :=
  row_security s on_activity_logs [FOR_SELECT] ;;;
  Ok (filter (fun l => WHERE l
                       && (bypassrls s || activity_logs_select_policy s db l))
        (tbl_activity_logs db)).

(** One arrangement that [created_at DESC] allows: insertion, row by row,
    before the first row that does not have to come first. *)
Definition created_at_DESC_b (x y : option timestamptz) : bool :=
  match x, y with
  | None, _ => true
  | Some _, None => false
  | Some a, Some b => b <=? a
  end.

Fixpoint insert_created_at_DESC (t : transactions.row)
    (l : list transactions.row) : list transactions.row :=
  match l with
  | [] => [t]
  | u :: rest =>
      if created_at_DESC_b (transactions.created_at t)
           (transactions.created_at u)
      then t :: l
      else u :: insert_created_at_DESC t rest
  end.

Definition sort_created_at_DESC (l : list transactions.row)
    : list transactions.row :=
  fold_right insert_created_at_DESC [] l.

(** ** The settings table and the Settings page *)

Module settings.
Record row (V : Type) := mk {
  id : uuid;                       (* PRIMARY KEY *)
  key : string;                    (* UNIQUE NOT NULL *)
  value : V;                       (* jsonb NOT NULL *)
  created_at : option timestamptz;
  updated_at : option timestamptz
}.
Arguments mk {V}.
Arguments id {V}.
Arguments key {V}.
Arguments value {V}.
Arguments created_at {V}.
Arguments updated_at {V}.
End settings.

(** The Settings page: the rows it shows and its two messages. *)
Record settings_view (V : Type) := mk_settings_view {
  view_settings : list (settings.row V);
  view_saving : bool;
  view_error : string;
  view_success : string
}.
Arguments mk_settings_view {V}.
Arguments view_settings {V}.
Arguments view_saving {V}.
Arguments view_error {V}.
Arguments view_success {V}.

Section Settings.

(** The JSON values a setting can hold, and which of them is [null]: a
    [null] in the request body is stored as SQL NULL. *)
Variable V : Type.
Variable is_json_null : V -> bool.

Definition set_value (r : settings.row V) (v : V) : settings.row V :=
  settings.mk (settings.id r) (settings.key r) v (settings.created_at r)
    (settings.updated_at r).

(** "Only admins can manage settings", FOR ALL. *)
Definition settings_policy (s : session) (db : database) : bool :=
  bypassrls s || exists_user_with_role [admin] s db.

(** [UPDATE settings SET value = <value> WHERE ...]; the table has no
    trigger. *)
Definition UPDATE_settings_SET_value (s : session) (newValue : V)
    (WHERE : settings.row V -> bool) (db : database)
    (tbl : list (settings.row V)) : result (list (settings.row V)) :=
  row_security s on_settings [FOR_UPDATE; FOR_SELECT] ;;;
  p <- update_rows (fun r => WHERE r && settings_policy s db)
         (fun r => if is_json_null newValue
                   then Raise (not_null_violation "value")
                   else Ok (set_value r newValue))
         tbl ;;
  Ok (fst p).

(** [handleSettingUpdate(settingId, newValue)] (Settings.tsx). *)
Definition handleSettingUpdate (s : session) (settingId : uuid) (newValue : V)
    (db : database) (st : settings_view V * list (settings.row V))
    : settings_view V * list (settings.row V) :=
  let (pg, tbl) := st in
  match UPDATE_settings_SET_value s newValue
          (fun r => N.eqb (settings.id r) settingId) db tbl with
  | inl _ =>
      (mk_settings_view (view_settings pg) false
         "Failed to update settings" "",
       tbl)
  | inr tbl' =>
      (mk_settings_view
         (map (fun r => if N.eqb (settings.id r) settingId
                        then set_value r newValue else r)
              (view_settings pg))
         false "" "Settings updated successfully",
       tbl')
  end.

End Settings.

(** * Proofs *)

(** ** The error monad *)

Lemma bind_inr {A B} (m : result A) (k : A -> result B) (b : B) :
  bind m k = inr b -> exists a, m = inr a /\ k a = inr b.
Proof.
  destruct m as [e | a]; simpl; intro H; [discriminate | eauto].
Qed.

Lemma bind_Ok_r {A} (m : result A) : bind m Ok = m.
Proof. destruct m; reflexivity. Qed.

Lemma bind_Ok_l {A B} (a : A) (k : A -> result B) : bind (Ok a) k = k a.
Proof. reflexivity. Qed.

Ltac inv_bind H :=
  let a := fresh "x" in
  let Hm := fresh "Hm" in
  apply bind_inr in H; destruct H as (a & Hm & H).

(** ** Row-level security *)

(** Every sub-select of a policy reads [users]. *)
Lemma policy_subselects_users rel cmds sub :
  In sub (flat_map (policy_subselects rel) cmds) -> sub = on_users.
Proof.
  rewrite in_flat_map. intros (cmd & _ & H).
  destruct rel, cmd; simpl in H; intuition.
Qed.

(** The expansion does not depend on the depth it is given, from two on:
    a statement on a table one of whose policies has a sub-select is
    refused, for [users] is met again while its policies are expanded. *)
Lemma expand_policies_eq n rel cmds :
  expand_policies (S (S n)) [] rel cmds
  = match flat_map (policy_subselects rel) cmds with
    | [] => Ok tt
    | _ :: _ => Raise (infinite_recursion "users")
    end.
Proof.
  change (expand_policies (S (S n)) [] rel cmds)
    with (fold_right
            (fun sub rest =>
               expand_policies (S n) [rel] sub [FOR_SELECT] ;;; rest)
            (Ok tt) (flat_map (policy_subselects rel) cmds)).
  pose proof (policy_subselects_users rel cmds) as H.
  destruct (flat_map (policy_subselects rel) cmds) as [| sub subs];
    [reflexivity |].
  rewrite (H sub (or_introl eq_refl)).
  cbn [fold_right]. destruct rel, n; reflexivity.
Qed.

Lemma row_security_bypass s rel cmds :
  bypassrls s = true -> row_security s rel cmds = Ok tt.
Proof. unfold row_security. now intros ->. Qed.

Lemma row_security_SECURITY_DEFINER s rel cmds :
  row_security (SECURITY_DEFINER s) rel cmds = Ok tt.
Proof. reflexivity. Qed.

(** A statement whose policies have no sub-select passes. *)
Lemma row_security_plain s rel cmds :
  flat_map (policy_subselects rel) cmds = [] ->
  row_security s rel cmds = Ok tt.
Proof.
  unfold row_security. intro H. destruct (bypassrls s); [reflexivity |].
  now rewrite (expand_policies_eq 3), H.
Qed.

(** Under row-level security a statement one of whose policies has a
    sub-select is refused. *)
Lemma row_security_refused s rel cmds :
  bypassrls s = false ->
  flat_map (policy_subselects rel) cmds <> [] ->
  row_security s rel cmds = Raise (infinite_recursion "users").
Proof.
  unfold row_security. intros -> H. rewrite (expand_policies_eq 3).
  destruct (flat_map _ _); [contradiction | reflexivity].
Qed.

Lemma row_security_inr s rel cmds u :
  row_security s rel cmds = inr u ->
  bypassrls s = true \/ flat_map (policy_subselects rel) cmds = [].
Proof.
  destruct (bypassrls s) eqn:B; [now left | right].
  destruct (flat_map (policy_subselects rel) cmds) eqn:E; [reflexivity |].
  rewrite row_security_refused in H; [discriminate | assumption |].
  rewrite E. discriminate.
Qed.

(** ** Enumerations *)

Lemma transaction_status_eqb_eq a b :
  transaction_status_eqb a b = true <-> a = b.
Proof. destruct a, b; simpl; split; congruence. Qed.

Lemma user_role_eqb_eq a b : user_role_eqb a b = true <-> a = b.
Proof. destruct a, b; simpl; split; congruence. Qed.

Lemma transaction_status_in_approved :
  transaction_status_in "approved" = Some approved.
Proof. reflexivity. Qed.

Lemma transaction_status_in_rejected :
  transaction_status_in "rejected" = Some rejected.
Proof. reflexivity. Qed.

(** ** Unique keys *)

Section Keys.
Context {R : Type} (key : R -> uuid).

Lemma existsb_key_false (k : uuid) (tbl : list R) :
  existsb (N.eqb k) (map key tbl) = false ->
  forall x, In x tbl -> N.eqb (key x) k = false.
Proof.
  induction tbl as [| r tbl IH]; simpl; intros H x Hx; [contradiction |].
  apply orb_false_iff in H. destruct H as [H1 H2].
  destruct Hx as [<- | Hx]; [now rewrite N.eqb_sym | auto].
Qed.

Lemma unique_split (tbl : list R) (r : R) :
  unique (map key tbl) = true -> In r tbl ->
  exists l1 l2,
    tbl = l1 ++ r :: l2
    /\ (forall x, In x l1 -> N.eqb (key x) (key r) = false)
    /\ (forall x, In x l2 -> N.eqb (key x) (key r) = false).
Proof.
  induction tbl as [| a tbl IH]; simpl; intros U Hin; [contradiction |].
  apply andb_true_iff in U. destruct U as [Ua U].
  apply negb_true_iff in Ua.
  destruct Hin as [-> | Hin].
  - exists [], tbl. repeat split; [intros x [] |].
    now apply existsb_key_false.
  - destruct (IH U Hin) as (l1 & l2 & -> & H1 & H2).
    exists (a :: l1), l2. repeat split; auto.
    intros x [<- | Hx]; auto.
    rewrite N.eqb_sym.
    apply (existsb_key_false _ _ Ua). apply in_or_app. right. now left.
Qed.

Lemma unique_injective (tbl : list R) (x y : R) :
  unique (map key tbl) = true -> In x tbl -> In y tbl ->
  key x = key y -> x = y.
Proof.
  intros U Hx Hy E.
  destruct (unique_split tbl x U Hx) as (l1 & l2 & -> & H1 & H2).
  apply in_app_or in Hy. destruct Hy as [Hy | [Hy | Hy]]; auto.
  - apply H1 in Hy. rewrite E, N.eqb_refl in Hy. discriminate.
  - apply H2 in Hy. rewrite E, N.eqb_refl in Hy. discriminate.
Qed.
End Keys.

(** ** [update_rows] *)

Section UpdateRows.
Context {R : Type} (target : R -> bool) (assign : R -> result R).

Lemma update_rows_untouched (tbl : list R) :
  (forall r, In r tbl -> target r = false) ->
  update_rows target assign tbl = Ok (tbl, []).
Proof.
  induction tbl as [| r tbl IH]; simpl; intro H; [reflexivity |].
  rewrite (H r (or_introl eq_refl)), IH by auto. reflexivity.
Qed.

Lemma update_rows_ext (target' : R -> bool) (tbl : list R) :
  (forall r, In r tbl -> target' r = target r) ->
  update_rows target' assign tbl = update_rows target assign tbl.
Proof.
  induction tbl as [| r tbl IH]; simpl; intro H; [reflexivity |].
  rewrite (H r (or_introl eq_refl)), IH by auto. reflexivity.
Qed.

(** Exactly one row is selected. *)
Lemma update_rows_single (l1 l2 : list R) (r : R) :
  (forall x, In x l1 -> target x = false) ->
  (forall x, In x l2 -> target x = false) ->
  target r = true ->
  update_rows target assign (l1 ++ r :: l2) =
  (r' <- assign r ;; Ok (l1 ++ r' :: l2, [(r, r')])).
Proof.
  intros H1 H2 Hr.
  induction l1 as [| a l1 IH]; simpl.
  - rewrite Hr, (update_rows_untouched l2 H2).
    destruct (assign r); reflexivity.
  - rewrite (H1 a (or_introl eq_refl)), IH by (intros; apply H1; now right).
    destruct (assign r); reflexivity.
Qed.

(** What a successful update leaves in the table, row by row. *)
Lemma update_rows_Forall2 (tbl tbl' : list R) (pairs : list (R * R)) :
  update_rows target assign tbl = inr (tbl', pairs) ->
  Forall2 (fun r r' => if target r then assign r = inr r' else r' = r)
          tbl tbl'.
Proof.
  revert tbl' pairs.
  induction tbl as [| r tbl IH]; simpl; intros tbl' pairs H.
  - injection H as <- <-. constructor.
  - destruct (target r) eqn:T.
    + inv_bind H. inv_bind H. destruct x0 as [t p]. simpl in H.
      injection H as <- <-. constructor; [now rewrite T | eauto].
    + inv_bind H. destruct x as [t p]. simpl in H.
      injection H as <- <-. constructor; [now rewrite T | eauto].
Qed.

(** The (OLD, NEW) pairs handed to the row triggers are the selected
    rows, each with the row that replaced it. *)
Lemma update_rows_pairs (tbl tbl' : list R) (pairs : list (R * R)) :
  update_rows target assign tbl = inr (tbl', pairs) ->
  pairs = filter (fun on => target (fst on)) (combine tbl tbl').
Proof.
  revert tbl' pairs.
  induction tbl as [| r tbl IH]; simpl; intros tbl' pairs H.
  - injection H as <- <-. reflexivity.
  - destruct (target r) eqn:T.
    + inv_bind H. inv_bind H. destruct x0 as [t p]. simpl in H.
      injection H as <- <-. simpl. rewrite T. f_equal. eauto.
    + inv_bind H. destruct x as [t p]. simpl in H.
      injection H as <- <-. simpl. rewrite T. eauto.
Qed.
End UpdateRows.

(** ** [for_each_row] *)

Lemma for_each_row_invariant {R : Type} (P : database -> Prop)
    (fire : R -> database -> result database) (rows : list R)
    (db db' : database) :
  (forall r d d', In r rows -> P d -> fire r d = inr d' -> P d') ->
  P db -> for_each_row fire rows db = inr db' -> P db'.
Proof.
  revert db. induction rows as [| r rows IH]; simpl; intros db Hstep HP H.
  - injection H as <-. exact HP.
  - inv_bind H. apply (IH x); eauto.
Qed.

Lemma for_each_row_single {R : Type}
    (fire : R -> database -> result database) (r : R) (db : database) :
  for_each_row fire [r] db = fire r db.
Proof. simpl. apply bind_Ok_r. Qed.

(** ** [log_activity] *)

Lemma users_has_frame (db db' : database) (uid : uuid) :
  tbl_users db' = tbl_users db -> users_has db' uid = users_has db uid.
Proof. unfold users_has. now intros ->. Qed.

(** A successful call appends exactly one row, which audits the
    operation with [OLD] and [NEW] as snapshots, and touches nothing else. *)
Lemma log_activity_inr s tbl op NEW OLD db db' :
  log_activity s tbl op NEW OLD db = inr db' ->
  exists l,
    db' = set_activity_logs db (tbl_activity_logs db ++ [l])
    /\ audits l tbl op OLD NEW
    /\ users_has db (activity_logs.user_id l) = true.
Proof.
  unfold log_activity, INSERT_INTO_activity_logs.
  destruct (COALESCE _ _) as [uid |]; [| discriminate].
  destruct (users_has db uid) eqn:U; [| discriminate].
  intro H. injection H as <-.
  eexists. split; [reflexivity |]. split; [| exact U].
  repeat split.
Qed.

(** On a row whose owner is a user the call succeeds. *)
Lemma log_activity_NEW s tbl op r OLD db :
  users_has db (record_user_id r) = true ->
  exists l,
    log_activity s tbl op (Some r) OLD db
    = inr (set_activity_logs db (tbl_activity_logs db ++ [l]))
    /\ audits l tbl op OLD (Some r).
Proof.
  intro U. unfold log_activity, INSERT_INTO_activity_logs. simpl.
  rewrite U. eexists. split; [reflexivity |]. repeat split.
Qed.

Lemma for_each_row_log {R : Type} s tbl op (NEW OLD : R -> option record)
    (rows : list R) (db db' : database) :
  for_each_row (fun r => log_activity s tbl op (NEW r) (OLD r)) rows db
  = inr db' ->
  tbl_users db' = tbl_users db
  /\ tbl_transactions db' = tbl_transactions db
  /\ tbl_accounts db' = tbl_accounts db
  /\ exists ls,
       tbl_activity_logs db' = tbl_activity_logs db ++ ls
       /\ Forall2 (fun r l => audits l tbl op (OLD r) (NEW r)) rows ls.
Proof.
  revert db. induction rows as [| r rows IH]; simpl; intros db H.
  - injection H as <-. repeat split. exists []. now rewrite app_nil_r.
  - inv_bind H. apply log_activity_inr in Hm.
    destruct Hm as (l & -> & Hl & _).
    destruct (IH _ H) as (Hu & Ht & Ha & ls & Hls & HF).
    repeat split; try assumption.
    exists (l :: ls). split; [| now constructor].
    rewrite Hls. simpl. now rewrite <- app_assoc.
Qed.

(** ** The UPDATE of [accounts] *)

Lemma decimal_10_2_inr v v' :
  decimal_10_2 v = inr v' -> v' = v /\ Z.abs v < 10 ^ 10.
Proof.
  unfold decimal_10_2. destruct (Z.abs v <? 10 ^ 10) eqn:E; [| discriminate].
  intro H. injection H as <-. split; [reflexivity | now apply Z.ltb_lt].
Qed.

Lemma accounts_assign_balance_inr s expr a a' :
  accounts_assign_balance s expr a = inr a' ->
  a' = set_balance a (expr (accounts.balance a)) (Some (now s))
  /\ valid_balance a' = true.
Proof.
  unfold accounts_assign_balance. intro H. inv_bind H.
  assert (x = expr (accounts.balance a)) as ->.
  { destruct (expr (accounts.balance a)) as [v |].
    - inv_bind Hm. apply decimal_10_2_inr in Hm0. destruct Hm0 as [-> _].
      now injection Hm as <-.
    - now injection Hm as <-. }
  destruct (valid_balance _) eqn:V; [| discriminate].
  injection H as <-. now split.
Qed.

Lemma UPDATE_accounts_SET_balance_inr s expr WHERE db db' :
  UPDATE_accounts_SET_balance s expr WHERE db = inr db' ->
  tbl_users db' = tbl_users db
  /\ tbl_transactions db' = tbl_transactions db
  /\ Forall2 (fun a a' =>
                if WHERE a && accounts_write_policy s
                then accounts_assign_balance s expr a = inr a'
                else a' = a)
             (tbl_accounts db) (tbl_accounts db')
  /\ exists ls,
       tbl_activity_logs db' = tbl_activity_logs db ++ ls
       /\ Forall2 (fun on l =>
                     audits l "accounts" UPDATE
                       (Some (accounts_record (fst on)))
                       (Some (accounts_record (snd on))))
            (filter (fun on => WHERE (fst on) && accounts_write_policy s)
                    (combine (tbl_accounts db) (tbl_accounts db')))
            ls.
Proof.
  unfold UPDATE_accounts_SET_balance. intro H.
  inv_bind H. clear x Hm. inv_bind H.
  destruct x as [tbl' pairs]. simpl in H.
  pose proof (update_rows_Forall2 _ _ _ _ _ Hm) as HF.
  pose proof (update_rows_pairs _ _ _ _ _ Hm) as HP.
  apply (for_each_row_log s "accounts" UPDATE
           (fun on => Some (accounts_record (snd on)))
           (fun on => Some (accounts_record (fst on)))) in H.
  destruct H as (Hu & Ht & Ha & ls & Hls & HA). simpl in *.
  rewrite Ha. repeat split; try assumption.
  exists ls. split; [assumption |]. now rewrite <- HP.
Qed.

(** ** [update_account_balance] *)

Lemma status_is_eq st label : status_is st label = true <-> st = Some label.
Proof.
  destruct st as [v |]; simpl; [| split; discriminate].
  rewrite transaction_status_eqb_eq. split; congruence.
Qed.

(** One call of the UPDATE inside the trigger function, for the amount
    [d] added to the balance. *)
Lemma UPDATE_accounts_for_owner s (t : transactions.row) (d : Z) db db' :
  UPDATE_accounts_SET_balance (SECURITY_DEFINER s)
    (option_map (fun balance => balance + d))
    (fun a => N.eqb (accounts.user_id a) (transactions.user_id t)) db
  = inr db' ->
  d = signed_amount t ->
  tbl_users db' = tbl_users db
  /\ tbl_transactions db' = tbl_transactions db
  /\ Forall2 (credited t (now s)) (tbl_accounts db) (tbl_accounts db')
  /\ exists ls,
       tbl_activity_logs db' = tbl_activity_logs db ++ ls
       /\ Forall2 (fun on l =>
                     audits l "accounts" UPDATE
                       (Some (accounts_record (fst on)))
                       (Some (accounts_record (snd on))))
            (filter (fun on => N.eqb (accounts.user_id (fst on))
                                     (transactions.user_id t))
                    (combine (tbl_accounts db) (tbl_accounts db')))
            ls.
Proof.
  intros H ->. apply UPDATE_accounts_SET_balance_inr in H.
  destruct H as (Hu & Ht & HF & ls & Hls & HA).
  repeat split; try assumption.
  - revert HF. apply Forall2_impl. intros a a'. unfold credited. simpl.
    rewrite andb_true_r.
    destruct (N.eqb _ _); [| auto].
    intro H. now apply accounts_assign_balance_inr in H.
  - exists ls. split; [assumption |].
    erewrite filter_ext; [exact HA |].
    intro on. simpl. now rewrite andb_true_r.
Qed.

Lemma update_account_balance_inr s NEW OLD db db' :
  update_account_balance s NEW OLD db = inr db' ->
  tbl_users db' = tbl_users db
  /\ tbl_transactions db' = tbl_transactions db
  /\ (if status_is (transactions.status NEW) approved
         && status_is (transactions.status OLD) pending
      then Forall2 (credited NEW (now s)) (tbl_accounts db) (tbl_accounts db')
      else tbl_accounts db' = tbl_accounts db)
  /\ exists ls,
       tbl_activity_logs db' = tbl_activity_logs db ++ ls
       /\ Forall2 (fun on l =>
                     audits l "accounts" UPDATE
                       (Some (accounts_record (fst on)))
                       (Some (accounts_record (snd on))))
            (if status_is (transactions.status NEW) approved
                && status_is (transactions.status OLD) pending
             then filter (fun on => N.eqb (accounts.user_id (fst on))
                                          (transactions.user_id NEW))
                         (combine (tbl_accounts db) (tbl_accounts db'))
             else [])
            ls.
Proof.
  unfold update_account_balance.
  destruct (status_is _ approved && status_is _ pending).
  - destruct (transactions.type NEW) eqn:Ty; simpl; intro H.
    + apply (UPDATE_accounts_for_owner s NEW) in H; [exact H |].
      unfold signed_amount. now rewrite Ty.
    + apply (UPDATE_accounts_for_owner s NEW (- transactions.amount NEW))
        in H; [exact H |].
      unfold signed_amount. now rewrite Ty.
    + apply (UPDATE_accounts_for_owner s NEW (- transactions.amount NEW))
        in H; [exact H |].
      unfold signed_amount. now rewrite Ty.
  - intro H. injection H as <-. repeat split.
    exists []. split; [now rewrite app_nil_r | constructor].
Qed.

(** ** The row triggers of [transactions] *)

(** What one firing of the row triggers does: users and transactions are
    as they were, the accounts are credited when the trigger condition of
    [update_balance_trigger] holds, and the log gains one row for the
    transaction followed by one row per account row updated. *)
Lemma transactions_after_row_inr s op NEW OLD db db' :
  transactions_after_row s op NEW OLD db = inr db' ->
  tbl_users db' = tbl_users db
  /\ tbl_transactions db' = tbl_transactions db
  /\ match op, NEW, OLD with
     | UPDATE, Some new, Some old =>
         if status_is (transactions.status new) approved
            && status_is (transactions.status old) pending
         then Forall2 (credited new (now s))
                (tbl_accounts db) (tbl_accounts db')
         else tbl_accounts db' = tbl_accounts db
     | _, _, _ => tbl_accounts db' = tbl_accounts db
     end
  /\ exists l ls,
       tbl_activity_logs db' = tbl_activity_logs db ++ l :: ls
       /\ audits l "transactions" op
            (option_map transactions_record OLD)
            (option_map transactions_record NEW)
       /\ Forall2 (fun on l =>
                     audits l "accounts" UPDATE
                       (Some (accounts_record (fst on)))
                       (Some (accounts_record (snd on))))
            (match op, NEW, OLD with
             | UPDATE, Some new, Some old =>
                 if status_is (transactions.status new) approved
                    && status_is (transactions.status old) pending
                 then filter (fun on => N.eqb (accounts.user_id (fst on))
                                              (transactions.user_id new))
                        (combine (tbl_accounts db) (tbl_accounts db'))
                 else []
             | _, _, _ => []
             end)
            ls.
Proof.
  unfold transactions_after_row. intro H. inv_bind H.
  apply log_activity_inr in Hm. destruct Hm as (l & -> & Hl & _).
  assert (Hnone : inr (A := pg_error)
                    (set_activity_logs db (tbl_activity_logs db ++ [l]))
                  = inr db' ->
                  tbl_users db' = tbl_users db
                  /\ tbl_transactions db' = tbl_transactions db
                  /\ tbl_accounts db' = tbl_accounts db
                  /\ exists l0 ls,
                       tbl_activity_logs db'
                       = tbl_activity_logs db ++ l0 :: ls
                       /\ audits l0 "transactions" op
                            (option_map transactions_record OLD)
                            (option_map transactions_record NEW)
                       /\ ls = []).
  { intro E. injection E as <-. repeat split; try reflexivity.
    exists l, []. repeat split; try apply Hl. }
  destruct op, NEW as [new |], OLD as [old |];
    try (destruct (Hnone H) as (Hu & Ht & Ha & l0 & ls & Hls & Hl0 & ->);
         repeat split; try assumption;
         exists l0, []; repeat split; try apply Hl0; try assumption;
         constructor).
  destruct (status_is (transactions.status new) approved
            && status_is (transactions.status old) pending) eqn:C.
  - apply update_account_balance_inr in H. rewrite C in H.
    destruct H as (Hu & Ht & Ha & ls & Hls & HA). simpl in *.
    repeat split; try assumption.
    exists l, ls. split; [| split; [exact Hl | exact HA]].
    rewrite Hls. now rewrite <- app_assoc.
  - destruct (Hnone H) as (Hu & Ht & Ha & l0 & ls & Hls & Hl0 & ->).
    repeat split; try assumption.
    exists l0, []. repeat split; try apply Hl0; try assumption. constructor.
Qed.

(** ** What consistency gives *)

Lemma consistent_inv db :
  consistent db = true ->
  unique (map transactions.id (tbl_transactions db)) = true
  /\ unique (map accounts.id (tbl_accounts db)) = true
  /\ unique (map accounts.user_id (tbl_accounts db)) = true
  /\ (forall u, In u (tbl_users db) -> student_id_required u = true)
  /\ (forall t, In t (tbl_transactions db) ->
        users_has db (transactions.user_id t) = true
        /\ Z.abs (transactions.amount t) < 10 ^ 10
        /\ positive_amount t = true)
  /\ (forall a, In a (tbl_accounts db) ->
        users_has db (accounts.user_id a) = true
        /\ (forall b, accounts.balance a = Some b -> Z.abs b < 10 ^ 10)
        /\ valid_balance a = true).
Proof.
  unfold consistent. rewrite !andb_true_iff, !forallb_forall.
  intros (((((((_ & Hs) & Ut) & Ht) & Ua) & Uu) & Ha) & _).
  repeat split; try assumption; auto.
  - apply Ht in H. rewrite !andb_true_iff in H. tauto.
  - apply Ht in H. rewrite !andb_true_iff, Z.ltb_lt in H. tauto.
  - apply Ht in H. rewrite !andb_true_iff in H. tauto.
  - apply Ha in H. rewrite !andb_true_iff in H. tauto.
  - intros b Hb. apply Ha in H. rewrite !andb_true_iff, Hb, Z.ltb_lt in H.
    tauto.
  - apply Ha in H. rewrite !andb_true_iff in H. tauto.
Qed.

(** ** The status-change request on a table with unique ids *)

Lemma transactions_update_policy_eq s db t :
  transactions_update_policy s db t = may_update s db.
Proof.
  unfold transactions_update_policy, transactions_select_policy, may_update.
  destruct (bypassrls s), (exists_user_with_role [admin; staff] s db),
    (is_auth_uid s (transactions.user_id t)); reflexivity.
Qed.

Lemma set_transactions_same db : set_transactions db (tbl_transactions db) = db.
Proof. now destruct db. Qed.

Lemma set_accounts_same db : set_accounts db (tbl_accounts db) = db.
Proof. now destruct db. Qed.

(** The policies of an UPDATE of [transactions] read [users], whose own
    policy reads [users]: under row-level security the statement is
    refused before it runs. *)
Lemma row_security_UPDATE_transactions s :
  row_security s on_transactions [FOR_UPDATE; FOR_SELECT]
  = if bypassrls s then Ok tt else Raise (infinite_recursion "users").
Proof. unfold row_security. destruct (bypassrls s); reflexivity. Qed.

Lemma update_status_request_refused s tid label db :
  bypassrls s = false ->
  update_status_request s tid label db = inl (infinite_recursion "users").
Proof.
  intro B. unfold update_status_request, UPDATE_transactions_SET_status.
  now rewrite row_security_UPDATE_transactions, B.
Qed.

Lemma update_status_request_inr_bypass s tid label db db' :
  update_status_request s tid label db = inr db' -> bypassrls s = true.
Proof.
  destruct (bypassrls s) eqn:B; [reflexivity |].
  now rewrite update_status_request_refused.
Qed.

Lemma may_update_bypass s db : bypassrls s = true -> may_update s db = true.
Proof. unfold may_update. now intros ->. Qed.

(** The request selects the one row with the given id; when the statement
    gets past row-level security, the row is replaced and the row triggers
    fire once. *)
Lemma update_status_request_eq s tid label st db t :
  unique (map transactions.id (tbl_transactions db)) = true ->
  In t (tbl_transactions db) ->
  transactions.id t = tid ->
  positive_amount t = true ->
  transaction_status_in label = Some st ->
  exists l1 l2,
    tbl_transactions db = l1 ++ t :: l2
    /\ update_status_request s tid label db
       = if bypassrls s
         then transactions_after_row s UPDATE
                (Some (set_status t (Some st))) (Some t)
                (set_transactions db (l1 ++ set_status t (Some st) :: l2))
         else Raise (infinite_recursion "users").
Proof.
  intros U Hin Hid Hpos Hst.
  destruct (unique_split transactions.id _ t U Hin) as (l1 & l2 & E & H1 & H2).
  exists l1, l2. split; [exact E |].
  destruct (bypassrls s) eqn:B; [| now apply update_status_request_refused].
  unfold update_status_request, UPDATE_transactions_SET_status,
    to_transaction_status.
  rewrite row_security_UPDATE_transactions, B, Hst, !bind_Ok_l.
  rewrite (update_rows_ext
             (fun r => N.eqb (transactions.id r) tid && may_update s db))
    by (intros; now rewrite transactions_update_policy_eq).
  rewrite (may_update_bypass s db B).
  rewrite E at 1. rewrite update_rows_single.
  - unfold transactions_assign_status.
    change (positive_amount (set_status t (Some st)))
      with (positive_amount t).
    rewrite Hpos. simpl. apply bind_Ok_r.
  - intros x Hx. rewrite <- Hid, (H1 x Hx). reflexivity.
  - intros x Hx. rewrite <- Hid, (H2 x Hx). reflexivity.
  - rewrite Hid, N.eqb_refl. reflexivity.
Qed.

(** No row has the given id: the request changes nothing. *)
Lemma update_status_request_no_row s tid label st db :
  bypassrls s = true ->
  (forall r, In r (tbl_transactions db) ->
             N.eqb (transactions.id r) tid = false) ->
  transaction_status_in label = Some st ->
  update_status_request s tid label db = Ok db.
Proof.
  intros B H Hst.
  unfold update_status_request, UPDATE_transactions_SET_status,
    to_transaction_status.
  rewrite row_security_UPDATE_transactions, B, Hst, !bind_Ok_l.
  rewrite update_rows_untouched.
  - simpl. now rewrite set_transactions_same.
  - intros r Hr. now rewrite (H r Hr).
Qed.

(** A request that succeeds got past row-level security with a label of
    the enum, replaced the selected rows and fired the row triggers. *)
Lemma update_status_request_inr s tid label db db' :
  update_status_request s tid label db = inr db' ->
  bypassrls s = true
  /\ exists st p,
       transaction_status_in label = Some st
       /\ update_rows
            (fun t => N.eqb (transactions.id t) tid
                      && transactions_update_policy s db t)
            (transactions_assign_status (Some st)) (tbl_transactions db)
          = inr p
       /\ for_each_row
            (fun on =>
               transactions_after_row s UPDATE (Some (snd on)) (Some (fst on)))
            (snd p) (set_transactions db (fst p))
          = inr db'.
Proof.
  intro H. split; [now apply update_status_request_inr_bypass in H |].
  unfold update_status_request, UPDATE_transactions_SET_status,
    to_transaction_status in H.
  inv_bind H. clear x Hm. inv_bind H.
  destruct (transaction_status_in label) as [st |]; [| discriminate].
  injection Hm as <-. inv_bind H. eauto.
Qed.

(** ** The UPDATE of [accounts] on a table with unique owners *)

Lemma UPDATE_accounts_no_row s expr WHERE db :
  (forall a, In a (tbl_accounts db) -> WHERE a = false) ->
  UPDATE_accounts_SET_balance (SECURITY_DEFINER s) expr WHERE db = Ok db.
Proof.
  intro H. unfold UPDATE_accounts_SET_balance.
  rewrite row_security_SECURITY_DEFINER, bind_Ok_l.
  rewrite update_rows_untouched.
  - simpl. now rewrite set_accounts_same.
  - intros r Hr. now rewrite (H r Hr).
Qed.

Lemma UPDATE_accounts_one_row s expr uid db a :
  unique (map accounts.user_id (tbl_accounts db)) = true ->
  In a (tbl_accounts db) ->
  accounts.user_id a = uid ->
  exists l1 l2,
    tbl_accounts db = l1 ++ a :: l2
    /\ UPDATE_accounts_SET_balance (SECURITY_DEFINER s) expr
         (fun r => N.eqb (accounts.user_id r) uid) db
       = (a' <- accounts_assign_balance (SECURITY_DEFINER s) expr a ;;
          accounts_after_row (SECURITY_DEFINER s) UPDATE (Some a') (Some a)
            (set_accounts db (l1 ++ a' :: l2))).
Proof.
  intros U Hin Hid.
  destruct (unique_split accounts.user_id _ a U Hin) as (l1 & l2 & E & H1 & H2).
  exists l1, l2. split; [exact E |].
  unfold UPDATE_accounts_SET_balance.
  rewrite row_security_SECURITY_DEFINER, bind_Ok_l.
  rewrite E at 1. rewrite update_rows_single.
  - destruct (accounts_assign_balance _ expr a) as [e | a']; simpl;
      [reflexivity | apply bind_Ok_r].
  - intros x Hx. rewrite <- Hid, (H1 x Hx). reflexivity.
  - intros x Hx. rewrite <- Hid, (H2 x Hx). reflexivity.
  - rewrite Hid, N.eqb_refl. reflexivity.
Qed.

(** ** Rows before and after, side by side *)

Lemma Forall2_combine_In {A B : Type} (P : A -> B -> Prop)
    (l : list A) (l' : list B) (x : A) (y : B) :
  Forall2 P l l' -> In (x, y) (combine l l') -> P x y.
Proof.
  induction 1 as [| a b l l' Hab _ IH]; simpl; [contradiction |].
  intros [E | Hin]; [now injection E as <- <- | auto].
Qed.

Lemma Forall2_same {A : Type} (P : A -> A -> Prop) (l : list A) :
  (forall a, P a a) -> Forall2 P l l.
Proof. intro H. induction l; constructor; auto. Qed.

Lemma update_rows_pair_In {R : Type} (target : R -> bool)
    (assign : R -> result R) (tbl tbl' : list R) (pairs : list (R * R))
    (on : R * R) :
  update_rows target assign tbl = inr (tbl', pairs) ->
  In on pairs ->
  In (fst on) tbl /\ target (fst on) = true /\ assign (fst on) = inr (snd on).
Proof.
  intros H Hin.
  pose proof (update_rows_Forall2 _ _ _ _ _ H) as HF.
  rewrite (update_rows_pairs _ _ _ _ _ H) in Hin.
  apply filter_In in Hin. destruct Hin as [Hin T]. destruct on as [o n].
  simpl in *. split; [eapply in_combine_l; eauto |]. split; [exact T |].
  pose proof (Forall2_combine_In _ _ _ _ _ HF Hin) as P.
  simpl in P. now rewrite T in P.
Qed.

(** ** Approving, step by step *)

(** Under the declared constraints, a status change that gets past
    row-level security writes the new status, logs the update of the row
    and hands over to the trigger condition. *)
Lemma status_change_eq s tid label st db t :
  consistent db = true ->
  bypassrls s = true ->
  In t (tbl_transactions db) ->
  transactions.id t = tid ->
  transaction_status_in label = Some st ->
  exists l1 l2 l,
    tbl_transactions db = l1 ++ t :: l2
    /\ audits l "transactions" UPDATE
         (Some (transactions_record t))
         (Some (transactions_record (set_status t (Some st))))
    /\ update_status_request s tid label db
       = let db1 :=
           set_activity_logs
             (set_transactions db (l1 ++ set_status t (Some st) :: l2))
             (tbl_activity_logs db ++ [l]) in
         if status_is (Some st) approved
            && status_is (transactions.status t) pending
         then update_account_balance s (set_status t (Some st)) t db1
         else Ok db1.
Proof.
  intros C M Hin Hid Hst.
  destruct (consistent_inv db C) as (Ut & _ & _ & _ & Ht & _).
  destruct (Ht t Hin) as (Hu & _ & Hpos).
  destruct (update_status_request_eq s tid label st db t Ut Hin Hid Hpos Hst)
    as (l1 & l2 & E & Eq).
  rewrite M in Eq. rewrite Eq. clear Eq.
  unfold transactions_after_row.
  destruct (log_activity_NEW s "transactions" UPDATE
              (transactions_record (set_status t (Some st)))
              (Some (transactions_record t))
              (set_transactions db (l1 ++ set_status t (Some st) :: l2)))
    as (l & Hl & Al); [exact Hu |].
  exists l1, l2, l. split; [exact E |]. split; [exact Al |].
  simpl option_map. rewrite Hl. reflexivity.
Qed.


(** ** Rows of the table after, rows of the table before *)

Lemma Forall2_In_r {A B : Type} (P : A -> B -> Prop)
    (l : list A) (l' : list B) (y : B) :
  Forall2 P l l' -> In y l' -> exists x, In x l /\ P x y.
Proof.
  induction 1 as [| a b l l' Hab _ IH]; simpl; [contradiction |].
  intros [<- | Hin]; [eauto |].
  destruct (IH Hin) as (x & Hx & Hp). eauto.
Qed.

(** ** The declared constraints are kept *)

Lemma consistent_iff db :
  consistent db = true <->
  unique (map users.id (tbl_users db)) = true
  /\ (forall u, In u (tbl_users db) -> student_id_required u = true)
  /\ unique (map transactions.id (tbl_transactions db)) = true
  /\ (forall t, In t (tbl_transactions db) ->
        users_has db (transactions.user_id t) = true
        /\ references_users db (transactions.approved_by t) = true
        /\ Z.abs (transactions.amount t) < 10 ^ 10
        /\ positive_amount t = true)
  /\ unique (map accounts.id (tbl_accounts db)) = true
  /\ unique (map accounts.user_id (tbl_accounts db)) = true
  /\ (forall a, In a (tbl_accounts db) ->
        users_has db (accounts.user_id a) = true
        /\ (forall b, accounts.balance a = Some b -> Z.abs b < 10 ^ 10)
        /\ valid_balance a = true)
  /\ (forall l, In l (tbl_activity_logs db) ->
        users_has db (activity_logs.user_id l) = true).
Proof.
  unfold consistent. rewrite !andb_true_iff, !forallb_forall.
  split.
  - intros (((((((Uu & Hs) & Ut) & Ht) & Ua) & Uo) & Ha) & Hl).
    repeat split; try assumption; auto.
    + apply Ht in H. rewrite !andb_true_iff in H. tauto.
    + apply Ht in H. rewrite !andb_true_iff in H. tauto.
    + apply Ht in H. rewrite !andb_true_iff, Z.ltb_lt in H. tauto.
    + apply Ht in H. rewrite !andb_true_iff in H. tauto.
    + apply Ha in H. rewrite !andb_true_iff in H. tauto.
    + intros b Hb. apply Ha in H.
      rewrite !andb_true_iff, Hb, Z.ltb_lt in H. tauto.
    + apply Ha in H. rewrite !andb_true_iff in H. tauto.
  - intros (Uu & Hs & Ut & Ht & Ua & Uo & Ha & Hl).
    repeat split; try assumption.
    + intros t Hin. destruct (Ht t Hin) as (H1 & H2 & H3 & H4).
      rewrite !andb_true_iff, Z.ltb_lt. tauto.
    + intros a Hin. destruct (Ha a Hin) as (H1 & H2 & H3).
      rewrite !andb_true_iff. repeat split; try assumption.
      destruct (accounts.balance a) as [b |]; [| reflexivity].
      apply Z.ltb_lt. now apply H2.
Qed.

Lemma Forall2_trans {A : Type} (P : A -> A -> Prop) :
  (forall x y z, P x y -> P y z -> P x z) ->
  forall l1 l2 l3, Forall2 P l1 l2 -> Forall2 P l2 l3 -> Forall2 P l1 l3.
Proof.
  intros T l1 l2 l3 H. revert l3.
  induction H as [| x y l1 l2 Hxy _ IH]; intros l3 H3;
    inversion H3; subst; constructor; eauto.
Qed.

Lemma Forall2_map_eq {A B : Type} (f : A -> B) (P : A -> A -> Prop)
    (l l' : list A) :
  (forall x y, P x y -> f y = f x) -> Forall2 P l l' -> map f l' = map f l.
Proof.
  intros Hf H. induction H as [| x y l l' Hxy _ IH]; simpl;
    [reflexivity | f_equal; auto].
Qed.

Lemma same_but_status_trans t1 t2 t3 :
  same_but_status t1 t2 -> same_but_status t2 t3 -> same_but_status t1 t3.
Proof.
  unfold same_but_status. intros H1 H2. rewrite H2 at 1. rewrite H1.
  reflexivity.
Qed.

Lemma same_but_balance_trans a1 a2 a3 :
  same_but_balance a1 a2 -> same_but_balance a2 a3 -> same_but_balance a1 a3.
Proof.
  intros (I1 & U1 & D1) (I2 & U2 & D2).
  split; [congruence |]. split; [congruence |].
  destruct D2 as [-> | D2]; [exact D1 | now right].
Qed.

Lemma evolves_refl db : evolves db db.
Proof.
  split; [reflexivity |].
  split; [apply Forall2_same; intros [] ; reflexivity |].
  split; [apply Forall2_same; intro; repeat split; now left |].
  exists []. split; [now rewrite app_nil_r | constructor].
Qed.

Lemma evolves_trans db1 db2 db3 :
  evolves db1 db2 -> evolves db2 db3 -> evolves db1 db3.
Proof.
  intros (U1 & T1 & A1 & ls1 & L1 & F1) (U2 & T2 & A2 & ls2 & L2 & F2).
  split; [congruence |].
  split; [eapply Forall2_trans; eauto using same_but_status_trans |].
  split; [eapply Forall2_trans; eauto using same_but_balance_trans |].
  exists (ls1 ++ ls2). split; [rewrite L2, L1; now rewrite app_assoc |].
  apply Forall_app. split; [exact F1 |].
  revert F2. apply Forall_impl. intros l H.
  now rewrite <- (users_has_frame db1 db2).
Qed.

Lemma log_activity_evolves s tbl op NEW OLD db db' :
  log_activity s tbl op NEW OLD db = inr db' -> evolves db db'.
Proof.
  intro H. apply log_activity_inr in H. destruct H as (l & -> & _ & U).
  split; [reflexivity |].
  split; [apply Forall2_same; intros []; reflexivity |].
  split; [apply Forall2_same; intro; repeat split; now left |].
  exists [l]. split; [reflexivity | now constructor].
Qed.

Lemma for_each_row_evolves {R : Type}
    (fire : R -> database -> result database) (rows : list R)
    (db db' : database) :
  (forall r d d', fire r d = inr d' -> evolves d d') ->
  for_each_row fire rows db = inr db' -> evolves db db'.
Proof.
  intro Hfire.
  apply (for_each_row_invariant (fun d => evolves db d));
    [| apply evolves_refl].
  intros r d d' _ Hd Hr. eapply evolves_trans; eauto.
Qed.

Lemma accounts_assign_balance_same_but_balance s expr a a' :
  accounts_assign_balance s expr a = inr a' -> same_but_balance a a'.
Proof.
  unfold accounts_assign_balance. intro H. inv_bind H.
  destruct (valid_balance _) eqn:V; [| discriminate].
  injection H as <-. repeat split. right. split; [exact V |].
  simpl. intros b ->.
  destruct (expr (accounts.balance a)) as [v |]; [| discriminate].
  inv_bind Hm. apply decimal_10_2_inr in Hm0. destruct Hm0 as [-> Hr].
  injection Hm as <-. exact Hr.
Qed.

Lemma UPDATE_accounts_SET_balance_evolves s expr WHERE db db' :
  UPDATE_accounts_SET_balance s expr WHERE db = inr db' -> evolves db db'.
Proof.
  unfold UPDATE_accounts_SET_balance. intro H.
  inv_bind H. clear x Hm. inv_bind H.
  destruct x as [tbl' pairs]. simpl in H.
  apply (evolves_trans _ (set_accounts db tbl')).
  - split; [reflexivity |].
    split; [apply Forall2_same; intros []; reflexivity |].
    split.
    + apply update_rows_Forall2 in Hm. revert Hm. simpl.
      apply Forall2_impl. intros a a'.
      destruct (WHERE a && accounts_write_policy s).
      * apply accounts_assign_balance_same_but_balance.
      * intros ->. repeat split. now left.
    + exists []. split; [simpl; now rewrite app_nil_r | constructor].
  - revert H. apply for_each_row_evolves.
    intros r d d'. apply log_activity_evolves.
Qed.

Lemma update_account_balance_evolves s NEW OLD db db' :
  update_account_balance s NEW OLD db = inr db' -> evolves db db'.
Proof.
  unfold update_account_balance.
  destruct (status_is _ approved && status_is _ pending);
    [| intro H; injection H as <-; apply evolves_refl].
  destruct (transaction_type_eqb _ payment);
    [apply UPDATE_accounts_SET_balance_evolves |].
  destruct (existsb _ _); [apply UPDATE_accounts_SET_balance_evolves |].
  intro H. injection H as <-. apply evolves_refl.
Qed.

Lemma transactions_after_row_evolves s op NEW OLD db db' :
  transactions_after_row s op NEW OLD db = inr db' -> evolves db db'.
Proof.
  unfold transactions_after_row. intro H. inv_bind H.
  apply log_activity_evolves in Hm.
  apply (evolves_trans _ x); [exact Hm |].
  destruct op, NEW as [new |], OLD as [old |];
    try (injection H as <-; apply evolves_refl).
  destruct (status_is _ approved && status_is _ pending);
    [now apply update_account_balance_evolves in H |].
  injection H as <-. apply evolves_refl.
Qed.

Lemma update_status_request_evolves s tid label db db' :
  update_status_request s tid label db = inr db' -> evolves db db'.
Proof.
  intro H. apply update_status_request_inr in H.
  destruct H as (_ & st & [tbl' pairs] & _ & Hm & H). simpl in H.
  apply (evolves_trans _ (set_transactions db tbl')).
  - split; [reflexivity |].
    split.
    + apply update_rows_Forall2 in Hm. revert Hm. simpl.
      apply Forall2_impl. intros t t'.
      destruct (N.eqb _ _ && _).
      * unfold transactions_assign_status.
        destruct (positive_amount _); [| discriminate].
        intro E. injection E as <-. reflexivity.
      * intros ->. destruct t; reflexivity.
    + split; [apply Forall2_same; intro; repeat split; now left |].
      exists []. split; [simpl; now rewrite app_nil_r | constructor].
  - revert H. apply for_each_row_evolves.
    intros r d d'. apply transactions_after_row_evolves.
Qed.

Lemma references_users_frame (db db' : database) (uid : option uuid) :
  tbl_users db' = tbl_users db ->
  references_users db' uid = references_users db uid.
Proof.
  intro H. destruct uid; simpl; [now apply users_has_frame | reflexivity].
Qed.

Lemma consistent_evolves db db' :
  consistent db = true -> evolves db db' -> consistent db' = true.
Proof.
  rewrite !consistent_iff.
  intros (Uu & Hs & Ut & Ht & Ua & Uo & Ha & Hl) (U & T & A & ls & L & F).
  split; [now rewrite U |]. split; [now rewrite U |].
  split.
  { rewrite (Forall2_map_eq transactions.id same_but_status _ _
               (fun x y H => f_equal transactions.id H) T).
    exact Ut. }
  split.
  { intros t' Hin. destruct (Forall2_In_r _ _ _ _ T Hin) as (t & Hi & E).
    destruct (Ht t Hi) as (H1 & H2 & H3 & H4).
    rewrite (users_has_frame db db'), (references_users_frame db db') by exact U.
    rewrite E. simpl. tauto. }
  split.
  { rewrite (Forall2_map_eq accounts.id same_but_balance _ _
               (fun x y H => proj1 H) A).
    exact Ua. }
  split.
  { rewrite (Forall2_map_eq accounts.user_id same_but_balance _ _
               (fun x y H => proj1 (proj2 H)) A).
    exact Uo. }
  split.
  { intros a' Hin. destruct (Forall2_In_r _ _ _ _ A Hin) as (a & Hi & I & O & D).
    destruct (Ha a Hi) as (H1 & H2 & H3).
    rewrite (users_has_frame db db') by exact U. rewrite O.
    split; [exact H1 |].
    destruct D as [-> | [V R]]; [now split | now split]. }
  intros l Hin. rewrite (users_has_frame db db') by exact U.
  rewrite L in Hin. apply in_app_or in Hin. destruct Hin as [Hin | Hin];
    [now apply Hl |].
  rewrite Forall_forall in F. now apply F.
Qed.

Lemma unique_snoc (keys : list uuid) (k : uuid) :
  unique keys = true -> existsb (N.eqb k) keys = false ->
  unique (keys ++ [k]) = true.
Proof.
  induction keys as [| a keys IH]; simpl; intros U E; [reflexivity |].
  apply andb_true_iff in U. destruct U as [Na U].
  apply orb_false_iff in E. destruct E as [Eka E].
  rewrite IH by assumption. rewrite andb_true_r.
  apply negb_true_iff in Na. apply negb_true_iff.
  rewrite existsb_app. apply orb_false_iff. split; [exact Na |].
  simpl. now rewrite N.eqb_sym, Eka.
Qed.

Lemma INSERT_INTO_transactions_consistent s t db db' :
  consistent db = true ->
  INSERT_INTO_transactions s t db = inr db' ->
  consistent db' = true.
Proof.
  intros C H. unfold INSERT_INTO_transactions in H.
  inv_bind H. clear x Hm. inv_bind H.
  apply decimal_10_2_inr in Hm. destruct Hm as [_ Hr].
  destruct (transactions_insert_policy s db t); [| discriminate].
  destruct (positive_amount t) eqn:P; [| discriminate].
  destruct (existsb _ _) eqn:K; [discriminate |].
  destruct (users_has db (transactions.user_id t)) eqn:O; [| discriminate].
  destruct (references_users db _) eqn:B; [| discriminate].
  simpl in H. apply transactions_after_row_evolves in H.
  eapply consistent_evolves; [| exact H].
  apply consistent_iff in C.
  destruct C as (Uu & Hs & Ut & Ht & Ua & Uo & Ha & Hl).
  apply consistent_iff. simpl.
  repeat split; try assumption; try (now apply Ha); try (now apply Hl).
  - rewrite map_app. simpl. now apply unique_snoc.
  - apply in_app_or in H0. destruct H0 as [H0 | [<- | []]];
      [now apply Ht | exact O].
  - apply in_app_or in H0. destruct H0 as [H0 | [<- | []]];
      [now apply Ht | exact B].
  - apply in_app_or in H0. destruct H0 as [H0 | [<- | []]];
      [now apply Ht | exact Hr].
  - apply in_app_or in H0. destruct H0 as [H0 | [<- | []]];
      [now apply Ht | exact P].
Qed.

(** A new transaction that the Transactions page gets stored went through
    the INSERT, issued by a session that bypasses row-level security. *)
Lemma handleNewTransaction_inr s id ty amount descr db db' :
  handleNewTransaction s id ty amount descr db = inr db' ->
  (auth_uid s = None /\ db' = db)
  \/ exists uid,
       auth_uid s = Some uid
       /\ bypassrls s = true
       /\ INSERT_INTO_transactions s
            (transactions.mk id uid ty amount descr (Some pending) None
               (Some (now s))) db
          = inr db'.
Proof.
  unfold handleNewTransaction.
  destruct (auth_uid s) as [uid |]; [| intro H; injection H as <-; now left].
  unfold INSERT_INTO_transactions_RETURNING. intro H. right. exists uid.
  split; [reflexivity |].
  inv_bind H. apply row_security_inr in Hm.
  destruct Hm as [B | Hm]; [| discriminate]. split; [exact B |].
  inv_bind H. rewrite B in H. simpl in H. now injection H as <-.
Qed.

(** Every operation of a sequence keeps the declared constraints. *)
Lemma step_consistent op db db' :
  consistent db = true -> step op db = inr db' -> consistent db' = true.
Proof.
  intro C.
  destruct op as [s id ty amt descr | s id uid ty amt descr by_ | s tid | s tid];
    simpl.
  - intro H. apply handleNewTransaction_inr in H.
    destruct H as [[_ ->] | (uid & _ & _ & H)]; [exact C |].
    revert H. now apply INSERT_INTO_transactions_consistent.
  - now apply INSERT_INTO_transactions_consistent.
  - intro H. apply update_status_request_evolves in H.
    eapply consistent_evolves; eauto.
  - intro H. apply update_status_request_evolves in H.
    eapply consistent_evolves; eauto.
Qed.

Lemma run_consistent ops db :
  consistent db = true -> consistent (run ops db) = true.
Proof.
  revert db. induction ops as [| op ops IH]; simpl; intros db C; [exact C |].
  apply IH. unfold apply_operation.
  destruct (step op db) as [e | db'] eqn:S; [exact C |].
  eapply step_consistent; eauto.
Qed.

(** The approval of a fee or fine larger than the balance of the owner's
    account raises the violation of [valid_balance]. *)
Lemma overdraw_raises_valid_balance s tid db t a b :
  consistent db = true ->
  bypassrls s = true ->
  In t (tbl_transactions db) ->
  transactions.id t = tid ->
  transactions.status t = Some pending ->
  transactions.type t = fee \/ transactions.type t = fine ->
  In a (tbl_accounts db) ->
  accounts.user_id a = transactions.user_id t ->
  accounts.balance a = Some b ->
  b < transactions.amount t ->
  update_status_request s tid "approved" db
  = inl (check_violation "valid_balance").
Proof.
  intros C M Hin Hid Hpend Hty Ha Hown Hbal Hlt.
  destruct (status_change_eq s tid "approved" approved db t C M Hin Hid eq_refl)
    as (l1 & l2 & l & E & _ & Eq).
  rewrite Eq. clear Eq. rewrite Hpend. simpl.
  destruct (consistent_inv db C) as (_ & _ & Uu & _ & Ht & Hacc).
  destruct (Ht t Hin) as (_ & Hamt & Hpos).
  destruct (Hacc a Ha) as (_ & Hrange & Hvalid).
  specialize (Hrange b Hbal).
  unfold valid_balance in Hvalid. rewrite Hbal in Hvalid.
  apply Z.leb_le in Hvalid. apply Z.ltb_lt in Hpos.
  unfold update_account_balance. simpl. rewrite Hpend. simpl.
  assert (Hexpr : forall db1,
            tbl_accounts db1 = tbl_accounts db ->
            UPDATE_accounts_SET_balance (SECURITY_DEFINER s)
              (option_map (fun balance => balance - transactions.amount t))
              (fun r => N.eqb (accounts.user_id r) (transactions.user_id t))
              db1
            = inl (check_violation "valid_balance")).
  { intros db1 E1.
    destruct (UPDATE_accounts_one_row s
                (option_map (fun balance => balance - transactions.amount t))
                (transactions.user_id t) db1 a)
      as (k1 & k2 & _ & Eq); try (rewrite E1; assumption); try assumption.
    rewrite Eq. unfold accounts_assign_balance. rewrite Hbal. simpl.
    unfold decimal_10_2.
    assert (10 ^ 10 = 10000000000) as P by reflexivity. rewrite P in *.
    destruct (Z.ltb_spec (Z.abs (b - transactions.amount t)) 10000000000);
      [| lia].
    simpl. unfold valid_balance. simpl.
    destruct (Z.leb_spec 0 (b - transactions.amount t)); [lia | reflexivity]. }
  destruct Hty as [Ty | Ty]; rewrite Ty; simpl; now apply Hexpr.
Qed.

Lemma student_id_required_iff u :
  student_id_required u = true
  <-> (users.role u = student -> users.student_id u <> None).
Proof.
  unfold student_id_required.
  destruct (users.role u), (users.student_id u); simpl; split;
    try congruence; try (intros _ _; discriminate).
  intro H. exfalso. now apply H.
Qed.

(** ** Inserting a transaction *)

Lemma INSERT_INTO_transactions_inr s t db db' :
  INSERT_INTO_transactions s t db = inr db' ->
  tbl_users db' = tbl_users db
  /\ tbl_transactions db' = tbl_transactions db ++ [t]
  /\ tbl_accounts db' = tbl_accounts db
  /\ exists l,
       tbl_activity_logs db' = tbl_activity_logs db ++ [l]
       /\ audits l "transactions" INSERT None (Some (transactions_record t)).
Proof.
  unfold INSERT_INTO_transactions. intro H.
  inv_bind H. clear x Hm. inv_bind H.
  destruct (negb (transactions_insert_policy s db t)); [discriminate |].
  destruct (negb (positive_amount t)); [discriminate |].
  destruct (existsb _ _); [discriminate |].
  destruct (negb (users_has db (transactions.user_id t))); [discriminate |].
  destruct (negb (references_users db _)); [discriminate |].
  apply transactions_after_row_inr in H.
  destruct H as (Hu & Ht & Ha & l & ls & Hls & Hl & HF).
  inversion HF; subst. simpl in *. repeat split; try assumption.
  exists l. split; assumption.
Qed.

Lemma credited_keeps_balances_non_negative t ts accs accs' :
  Forall2 (credited t ts) accs accs' ->
  (forall a, In a accs -> exists b, accounts.balance a = Some b /\ 0 <= b) ->
  forall a', In a' accs' -> exists b, accounts.balance a' = Some b /\ 0 <= b.
Proof.
  intros F H a' Hin.
  destruct (Forall2_In_r _ _ _ _ F Hin) as (a & Ha & Hc).
  destruct (H a Ha) as (b & Hb & Hpos).
  unfold credited in Hc.
  destruct (N.eqb _ _); [| subst; eauto].
  destruct Hc as [-> V]. unfold valid_balance in V. simpl in *.
  rewrite Hb in *. simpl in *. apply Z.leb_le in V. eauto.
Qed.

Lemma transactions_after_row_keeps_balances_non_negative s op NEW OLD db db' :
  transactions_after_row s op NEW OLD db = inr db' ->
  (forall a, In a (tbl_accounts db) ->
             exists b, accounts.balance a = Some b /\ 0 <= b) ->
  forall a, In a (tbl_accounts db') ->
            exists b, accounts.balance a = Some b /\ 0 <= b.
Proof.
  intros H Hdb. apply transactions_after_row_inr in H.
  destruct H as (_ & _ & Hacc & _).
  destruct op, NEW as [new |], OLD as [old |];
    try (rewrite Hacc; exact Hdb).
  destruct (status_is _ approved && status_is _ pending);
    [| rewrite Hacc; exact Hdb].
  eapply credited_keeps_balances_non_negative; eauto.
Qed.

Lemma step_keeps_balances_non_negative op db db' :
  step op db = inr db' ->
  (forall a, In a (tbl_accounts db) ->
             exists b, accounts.balance a = Some b /\ 0 <= b) ->
  forall a, In a (tbl_accounts db') ->
            exists b, accounts.balance a = Some b /\ 0 <= b.
Proof.
  assert (U : forall s tid label,
            update_status_request s tid label db = inr db' ->
            (forall a, In a (tbl_accounts db) ->
                       exists b, accounts.balance a = Some b /\ 0 <= b) ->
            forall a, In a (tbl_accounts db') ->
                      exists b, accounts.balance a = Some b /\ 0 <= b).
  { intros s tid label H Hdb. apply update_status_request_inr in H.
    destruct H as (_ & st & p & _ & _ & H).
    revert H.
    apply (for_each_row_invariant
             (fun d => forall a, In a (tbl_accounts d) ->
                                 exists b, accounts.balance a = Some b
                                           /\ 0 <= b)); [| exact Hdb].
    intros on d d' _ Hd Hfire.
    eapply transactions_after_row_keeps_balances_non_negative; eauto. }
  destruct op as [s id ty amt descr | s id uid ty amt descr by_ | s tid | s tid];
    simpl; eauto.
  - intros H Hdb. apply handleNewTransaction_inr in H.
    destruct H as [[_ ->] | (uid & _ & _ & H)]; [exact Hdb |].
    apply INSERT_INTO_transactions_inr in H.
    destruct H as (_ & _ & -> & _). exact Hdb.
  - unfold createTransaction. intros H Hdb.
    apply INSERT_INTO_transactions_inr in H.
    destruct H as (_ & _ & -> & _). exact Hdb.
Qed.

(** ** Inserting and deleting rows *)

Lemma INSERT_INTO_accounts_inr s a db db' :
  INSERT_INTO_accounts s a db = inr db' ->
  tbl_users db' = tbl_users db
  /\ tbl_transactions db' = tbl_transactions db
  /\ tbl_accounts db' = tbl_accounts db ++ [a]
  /\ exists l,
       tbl_activity_logs db' = tbl_activity_logs db ++ [l]
       /\ audits l "accounts" INSERT None (Some (accounts_record a)).
Proof.
  unfold INSERT_INTO_accounts. intro H.
  inv_bind H. clear x Hm. inv_bind H.
  destruct (negb (accounts_write_policy s)); [discriminate |].
  destruct (negb (valid_balance a)); [discriminate |].
  destruct (existsb _ _); [discriminate |].
  destruct (existsb _ _); [discriminate |].
  destruct (negb (users_has db (accounts.user_id a))); [discriminate |].
  apply log_activity_inr in H. destruct H as (l & -> & Hl & _).
  repeat split. exists l. split; [reflexivity | exact Hl].
Qed.

Lemma DELETE_FROM_accounts_inr s WHERE db db' :
  DELETE_FROM_accounts s WHERE db = inr db' ->
  tbl_users db' = tbl_users db
  /\ tbl_transactions db' = tbl_transactions db
  /\ tbl_accounts db'
     = filter (fun a => negb (WHERE a && accounts_write_policy s))
         (tbl_accounts db)
  /\ exists ls,
       tbl_activity_logs db' = tbl_activity_logs db ++ ls
       /\ Forall2 (fun old l =>
                     audits l "accounts" DELETE
                       (Some (accounts_record old)) None)
            (filter (fun a => WHERE a && accounts_write_policy s)
               (tbl_accounts db))
            ls.
Proof.
  unfold DELETE_FROM_accounts. intro H. inv_bind H. clear x Hm.
  apply (for_each_row_log s "accounts" DELETE
           (fun _ => None) (fun old => Some (accounts_record old))) in H.
  destruct H as (Hu & Ht & Ha & ls & Hls & HF). simpl in *.
  repeat split; try assumption. exists ls. now split.
Qed.

Lemma DELETE_FROM_transactions_inr s WHERE db db' :
  DELETE_FROM_transactions s WHERE db = inr db' ->
  tbl_users db' = tbl_users db
  /\ tbl_transactions db'
     = filter (fun t => negb (WHERE t && transactions_delete_policy s))
         (tbl_transactions db)
  /\ tbl_accounts db' = tbl_accounts db
  /\ exists ls,
       tbl_activity_logs db' = tbl_activity_logs db ++ ls
       /\ Forall2 (fun old l =>
                     audits l "transactions" DELETE
                       (Some (transactions_record old)) None)
            (filter (fun t => WHERE t && transactions_delete_policy s)
               (tbl_transactions db))
            ls.
Proof.
  unfold DELETE_FROM_transactions. intro H. inv_bind H. clear x Hm.
  revert H.
  generalize (filter (fun t => WHERE t && transactions_delete_policy s)
                (tbl_transactions db)) as gone.
  generalize (filter
                (fun t => negb (WHERE t && transactions_delete_policy s))
                (tbl_transactions db)) as kept.
  intros kept gone H.
  assert (G : forall rows d,
            for_each_row
              (fun old => transactions_after_row s DELETE None (Some old))
              rows d = inr db' ->
            tbl_users db' = tbl_users d
            /\ tbl_transactions db' = tbl_transactions d
            /\ tbl_accounts db' = tbl_accounts d
            /\ exists ls,
                 tbl_activity_logs db' = tbl_activity_logs d ++ ls
                 /\ Forall2 (fun old l =>
                               audits l "transactions" DELETE
                                 (Some (transactions_record old)) None)
                      rows ls).
  { induction rows as [| r rows IH]; simpl; intros d Hd.
    - injection Hd as <-. repeat split. exists []. now rewrite app_nil_r.
    - inv_bind Hd. apply transactions_after_row_inr in Hm.
      destruct Hm as (Hu & Ht & Ha & l & ls0 & Hls0 & Hl & HF0).
      inversion HF0; subst. simpl in *.
      destruct (IH _ Hd) as (Hu' & Ht' & Ha' & ls & Hls & HF).
      repeat split; try congruence.
      exists (l :: ls). split; [| now constructor].
      rewrite Hls, Hls0. now rewrite <- app_assoc. }
  destruct (G _ _ H) as (Hu & Ht & Ha & ls & Hls & HF). simpl in *.
  repeat split; try assumption. exists ls. now split.
Qed.

(** ** Observations on the ledger of the examples *)

(** A status can be written on a settled transaction, so an approved
    transaction can be set back to pending and approved once more: its
    amount is then added a second time. *)
Lemma reopened_transaction_is_credited_again :
  exists db1 db2 db3,
    update_status_request as_service 10 "approved" ledger = inr db1
    /\ update_status_request as_service 10 "pending" db1 = inr db2
    /\ update_status_request as_service 10 "approved" db2 = inr db3
    /\ map accounts.balance (tbl_accounts ledger) = [Some 5000; Some 0]
    /\ map accounts.balance (tbl_accounts db1) = [Some 15000; Some 0]
    /\ map accounts.balance (tbl_accounts db3) = [Some 25000; Some 0].
Proof.
  do 3 eexists.
  split; [vm_compute; reflexivity |].
  split; [vm_compute; reflexivity |].
  split; [vm_compute; reflexivity |].
  repeat split.
Qed.

(** The request of a signed-in admin is refused: the UPDATE policy reads
    [users], whose policy "Admins can view all users" reads [users]. *)
Lemma status_change_by_a_signed_in_admin_is_refused :
  handleStatusChange as_ama 10 "approved" (mk_page [tuition] [], ledger)
  = (mk_page [tuition] [infinite_recursion "users"], ledger).
Proof. reflexivity. Qed.

(** The day at the ledger as the pages send it: each of the three requests
    is refused, and the ledger is as it was. *)
Lemma day_sent_by_the_pages_changes_nothing :
  map (fun op => step op ledger) ledger_day
  = [inl (infinite_recursion "users"); inl (infinite_recursion "users");
     inl (infinite_recursion "users")]
  /\ run ledger_day ledger = ledger.
Proof. split; reflexivity. Qed.

(** A status outside the enumeration is refused by the column type. *)
Lemma unknown_status_is_refused :
  update_status_request as_service 10 "cancelled" ledger
  = inl (invalid_text_representation "cancelled").
Proof. reflexivity. Qed.

(** In a DELETE trigger [NEW] is NULL, so the log row takes [auth.uid()]
    as its user; a session without one cannot delete a row. *)
Lemma delete_without_auth_uid_is_refused :
  DELETE_FROM_transactions as_service
    (fun t => N.eqb (transactions.id t) 13) ledger
  = inl (not_null_violation "user_id").
Proof. reflexivity. Qed.

Lemma delete_is_logged_under_the_session_user :
  exists db' l,
    DELETE_FROM_transactions as_owner
      (fun t => N.eqb (transactions.id t) 13) ledger = inr db'
    /\ tbl_activity_logs db' = [l]
    /\ activity_logs.user_id l = 1%N
    /\ activity_logs.action l = "transactions_DELETE"
    /\ ~ In refund (tbl_transactions db').
Proof.
  do 2 eexists. split; [vm_compute; reflexivity |].
  split; [reflexivity |]. split; [reflexivity |]. split; [reflexivity |].
  simpl. intros [H | [H | [H | [H | []]]]]; discriminate.
Qed.

(** * The claims *)

(** C1.  When the status of a transaction goes from pending to approved,
    the balance of every account of its owner changes by exactly [+amount]
    for a payment and by exactly [-amount] for a fee or a fine (a NULL
    balance stays NULL), and the balance of every other account is as it
    was.  The three kinds are all there are, so there is no other case.
    (A request that succeeds got past row-level security: it came with the
    service role or from the owner of the tables.) *)
Theorem approval_applies_the_amount_of_the_kind s tid db db' t t' :
  consistent db = true ->
  In t (tbl_transactions db) ->
  transactions.id t = tid ->
  transactions.status t = Some pending ->
  update_status_request s tid "approved" db = inr db' ->
  In t' (tbl_transactions db') ->
  transactions.id t' = tid ->
  transactions.status t' = Some approved ->
  Forall2
    (fun a a' =>
       accounts.id a' = accounts.id a
       /\ accounts.user_id a' = accounts.user_id a
       /\ accounts.balance a' =
          if N.eqb (accounts.user_id a) (transactions.user_id t)
          then option_map
                 (fun balance =>
                    match transactions.type t with
                    | payment => balance + transactions.amount t
                    | fee | fine => balance - transactions.amount t
                    end)
                 (accounts.balance a)
          else accounts.balance a)
    (tbl_accounts db) (tbl_accounts db').
Proof.
  intros C Hin Hid Hpend Hreq Hin' Hid' Happ.
  destruct (consistent_inv db C) as (Ut & _ & _ & _ & Ht & _).
  destruct (Ht t Hin) as (_ & _ & Hpos).
  destruct (update_status_request_eq s tid "approved" approved db t
              Ut Hin Hid Hpos eq_refl) as (l1 & l2 & E & Eq).
  rewrite Eq in Hreq. clear Eq.
  destruct (bypassrls s); [| discriminate].
  apply transactions_after_row_inr in Hreq.
  destruct Hreq as (_ & _ & Hacc & _).
  simpl in Hacc. rewrite Hpend in Hacc. simpl in Hacc.
  revert Hacc. apply Forall2_impl. intros a a'. unfold credited. simpl.
  destruct (N.eqb (accounts.user_id a) (transactions.user_id t)).
  - intros [-> _]. simpl. repeat split.
    unfold signed_amount. simpl.
    destruct (accounts.balance a), (transactions.type t); reflexivity.
  - intros ->. repeat split.
Qed.

Lemma approval_applies_the_amount_of_the_kind_witness :
  exists db',
    update_status_request as_service 10 "approved" ledger = inr db'
    /\ Forall2
         (fun a a' =>
            accounts.id a' = accounts.id a
            /\ accounts.user_id a' = accounts.user_id a
            /\ accounts.balance a' =
               if N.eqb (accounts.user_id a) (transactions.user_id tuition)
               then option_map
                      (fun balance =>
                         match transactions.type tuition with
                         | payment => balance + transactions.amount tuition
                         | fee | fine => balance - transactions.amount tuition
                         end)
                      (accounts.balance a)
               else accounts.balance a)
         (tbl_accounts ledger) (tbl_accounts db').
Proof.
  eexists. split; [vm_compute; reflexivity |].
  apply (approval_applies_the_amount_of_the_kind as_service 10 ledger _ tuition
           (set_status tuition (Some approved))).
  - reflexivity.
  - simpl. auto.
  - reflexivity.
  - reflexivity.
  - vm_compute. reflexivity.
  - simpl. auto.
  - reflexivity.
  - reflexivity.
Defined.

(** C2, as the code has it.  The specification expects a status change
    of a transaction that is not pending to fail with InvalidTransition and
    to leave the status alone.  In the ledger of the examples the refund is
    approved; the request to reject it, sent with the service role, raises
    no error and the stored row ends up rejected. *)
Lemma approved_refund_is_rejected_on_request :
  consistent ledger = true
  /\ In refund (tbl_transactions ledger)
  /\ transactions.status refund = Some approved
  /\ match update_status_request as_service 13 "rejected" ledger with
     | inl _ => False
     | inr db' =>
         In (set_status refund (Some rejected)) (tbl_transactions db')
         /\ ~ In refund (tbl_transactions db')
     end.
Proof.
  split; [reflexivity |]. split; [simpl; auto 6 |]. split; [reflexivity |].
  vm_compute. split; [auto 6 |].
  intros [H | [H | [H | [H | [H | []]]]]]; discriminate.
Qed.

(** C2, amended.  For a transaction whose status is not pending, a request
    to set a status of the enumeration that gets past row-level security
    (the service role, the owner of the tables) raises no error: the stored
    status becomes the requested one, and every account row is unchanged. *)
Theorem status_change_of_a_settled_transaction s tid newStatus st db t :
  consistent db = true ->
  bypassrls s = true ->
  In t (tbl_transactions db) ->
  transactions.id t = tid ->
  transactions.status t <> Some pending ->
  transaction_status_in newStatus = Some st ->
  exists db',
    update_status_request s tid newStatus db = inr db'
    /\ tbl_accounts db' = tbl_accounts db
    /\ In (set_status t (Some st)) (tbl_transactions db').
Proof.
  intros C B Hin Hid Hnp Hst.
  destruct (status_change_eq s tid newStatus st db t C B Hin Hid Hst)
    as (l1 & l2 & l & E & _ & Eq).
  rewrite Eq. clear Eq.
  assert (status_is (transactions.status t) pending = false) as ->.
  { destruct (status_is _ pending) eqn:S; [| reflexivity].
    apply status_is_eq in S. contradiction. }
  rewrite andb_false_r. eexists. split; [reflexivity |].
  split; [reflexivity |]. simpl. apply in_or_app. right. now left.
Qed.

Lemma status_change_of_a_settled_transaction_witness :
  exists db',
    update_status_request as_service 13 "pending" ledger = inr db'
    /\ tbl_accounts db' = tbl_accounts ledger
    /\ In (set_status refund (Some pending)) (tbl_transactions db').
Proof.
  apply (status_change_of_a_settled_transaction as_service 13 "pending"
           pending ledger refund).
  - reflexivity.
  - reflexivity.
  - simpl. auto 6.
  - reflexivity.
  - discriminate.
  - reflexivity.
Defined.

(** C3.  The approval of a pending fee or fine whose amount exceeds the
    balance of the owner's account fails, whichever session sends it: the
    page logs the error, and the database, hence the balance, is the one
    before the request.  When the statement gets past row-level security,
    the error is the violation of the CHECK [valid_balance] (the database's
    form of InsufficientFunds), raised by the UPDATE of the trigger
    function; a request under row-level security is refused before it
    runs. *)
Theorem fee_or_fine_above_the_balance_is_refused s tid db t a b pg :
  consistent db = true ->
  In t (tbl_transactions db) ->
  transactions.id t = tid ->
  transactions.status t = Some pending ->
  transactions.type t = fee \/ transactions.type t = fine ->
  In a (tbl_accounts db) ->
  accounts.user_id a = transactions.user_id t ->
  accounts.balance a = Some b ->
  b < transactions.amount t ->
  let error := if bypassrls s then check_violation "valid_balance"
               else infinite_recursion "users" in
  update_status_request s tid "approved" db = inl error
  /\ handleStatusChange s tid "approved" (pg, db)
     = (mk_page (page_transactions pg) (console_error pg ++ [error]), db).
Proof.
  intros C Hin Hid Hpend Hty Ha Hown Hbal Hlt error.
  assert (E : update_status_request s tid "approved" db = inl error).
  { unfold error. destruct (bypassrls s) eqn:B.
    - now apply (overdraw_raises_valid_balance s tid db t a b).
    - now apply update_status_request_refused. }
  split; [exact E |].
  unfold handleStatusChange. now rewrite E.
Qed.

Lemma fee_or_fine_above_the_balance_is_refused_witness :
  update_status_request as_service 12 "approved" ledger
  = inl (check_violation "valid_balance")
  /\ handleStatusChange as_service 12 "approved"
       (mk_page [late_fine] [], ledger)
     = (mk_page [late_fine] [check_violation "valid_balance"], ledger).
Proof.
  apply (fee_or_fine_above_the_balance_is_refused as_service 12 ledger
           late_fine kofi_account 5000 (mk_page [late_fine] [])).
  - reflexivity.
  - simpl. auto.
  - reflexivity.
  - reflexivity.
  - right. reflexivity.
  - simpl. auto.
  - reflexivity.
  - reflexivity.
  - simpl. lia.
Defined.

(** C4.  Once an approval has been applied, applying it again to the same
    transaction leaves every account as the first approval left it.  A
    second request that gets past row-level security succeeds: the row is
    already approved, the trigger condition [OLD.status = 'pending'] is
    false and no balance is updated.  (A second request under row-level
    security is refused and rolled back.) *)
Theorem second_approval_changes_no_balance s1 s2 tid db db1 t :
  consistent db = true ->
  In t (tbl_transactions db) ->
  transactions.id t = tid ->
  update_status_request s1 tid "approved" db = inr db1 ->
  tbl_accounts (apply_operation db1 (approve s2 tid)) = tbl_accounts db1
  /\ (bypassrls s2 = true ->
      exists db2,
        update_status_request s2 tid "approved" db1 = inr db2
        /\ tbl_accounts db2 = tbl_accounts db1).
Proof.
  intros C Hin Hid H1.
  cut (bypassrls s2 = true ->
       exists db2,
         update_status_request s2 tid "approved" db1 = inr db2
         /\ tbl_accounts db2 = tbl_accounts db1).
  { intro H. split; [| exact H].
    unfold apply_operation. simpl.
    destruct (bypassrls s2) eqn:B2.
    - destruct (H eq_refl) as (db2 & -> & E). exact E.
    - now rewrite update_status_request_refused. }
  intro B2.
  pose proof (update_status_request_inr_bypass _ _ _ _ _ H1) as M.
  destruct (consistent_inv db C) as (Ut & _ & _ & _ & Ht & _).
  destruct (Ht t Hin) as (Hu & _ & Hpos).
  destruct (update_status_request_eq s1 tid "approved" approved db t
              Ut Hin Hid Hpos eq_refl) as (l1 & l2 & E & Eq).
  rewrite M in Eq. rewrite Eq in H1. clear Eq.
  apply transactions_after_row_inr in H1.
  destruct H1 as (Hu1 & Ht1 & _). simpl in Hu1, Ht1.
  assert (U1 : unique (map transactions.id (tbl_transactions db1)) = true).
  { rewrite Ht1. rewrite E in Ut. rewrite map_app in *. exact Ut. }
  assert (In1 : In (set_status t (Some approved)) (tbl_transactions db1)).
  { rewrite Ht1. apply in_or_app. right. now left. }
  destruct (update_status_request_eq s2 tid "approved" approved db1
              (set_status t (Some approved)) U1 In1 Hid Hpos eq_refl)
    as (k1 & k2 & E2 & Eq2).
  rewrite Eq2, B2. clear Eq2.
  unfold transactions_after_row.
  destruct (log_activity_NEW s2 "transactions" UPDATE
              (transactions_record
                 (set_status (set_status t (Some approved)) (Some approved)))
              (Some (transactions_record (set_status t (Some approved))))
              (set_transactions db1
                 (k1 ++ set_status (set_status t (Some approved))
                          (Some approved) :: k2)))
    as (l & Hl & _).
  { rewrite (users_has_frame db); [exact Hu | exact Hu1]. }
  simpl option_map. rewrite Hl. simpl.
  eexists. split; reflexivity.
Qed.

Lemma second_approval_changes_no_balance_witness :
  exists db1,
    update_status_request as_service 10 "approved" ledger = inr db1
    /\ map accounts.balance (tbl_accounts db1) = [Some 15000; Some 0]
    /\ tbl_accounts (apply_operation db1 (approve as_ama 10))
       = tbl_accounts db1
    /\ exists db2,
         update_status_request as_owner 10 "approved" db1 = inr db2
         /\ tbl_accounts db2 = tbl_accounts db1.
Proof.
  eexists.
  assert (H : update_status_request as_service 10 "approved" ledger = inr _)
    by (vm_compute; reflexivity).
  split; [exact H |]. split; [reflexivity |].
  split.
  - exact (proj1 (second_approval_changes_no_balance as_service as_ama 10
                    ledger _ tuition eq_refl (or_introl eq_refl) eq_refl H)).
  - exact (proj2 (second_approval_changes_no_balance as_service as_owner 10
                    ledger _ tuition eq_refl (or_introl eq_refl) eq_refl H)
             eq_refl).
Defined.

(** C5.  A transition from pending to rejected changes no balance: a
    request that writes the status 'rejected' leaves every account row as
    it was, whatever the status of the transaction was before. *)
Theorem rejection_changes_no_balance s tid db db' :
  update_status_request s tid "rejected" db = inr db' ->
  tbl_accounts db' = tbl_accounts db.
Proof.
  intros H. apply update_status_request_inr in H.
  destruct H as (_ & st & [tbl' pairs] & Hst & Hm & H).
  rewrite transaction_status_in_rejected in Hst. injection Hst as <-.
  simpl in H. revert H.
  apply (for_each_row_invariant
           (fun d => tbl_accounts d = tbl_accounts db)); [| reflexivity].
  intros on d d' Hon Hd Hfire.
  apply (update_rows_pair_In _ _ _ _ _ _ Hm) in Hon.
  destruct Hon as (_ & _ & Has).
  unfold transactions_assign_status in Has.
  destruct (positive_amount _); [| discriminate].
  injection Has as Has.
  apply transactions_after_row_inr in Hfire.
  destruct Hfire as (_ & _ & Hacc & _).
  rewrite <- Has in Hacc. simpl in Hacc. congruence.
Qed.

Lemma rejection_changes_no_balance_witness :
  exists db',
    update_status_request as_service 11 "rejected" ledger = inr db'
    /\ In (set_status lab_fee (Some rejected)) (tbl_transactions db')
    /\ tbl_accounts db' = tbl_accounts ledger.
Proof.
  eexists. split; [vm_compute; reflexivity |].
  split; [simpl; auto |].
  apply (rejection_changes_no_balance as_service 11 ledger).
  vm_compute. reflexivity.
Defined.

(** C6.  From a ledger whose balances are not negative, any sequence of
    transaction creations (on the page or through the store), approvals
    and rejections, by any sessions, leads to a ledger whose balances are
    not negative.  When the ledger started from a database that satisfies
    the declared constraints, an approval that would take a balance below
    zero is rejected and, being rolled back, leaves the ledger as it was:
    it raises the violation of [valid_balance] when it gets past row-level
    security, and is refused before it runs otherwise. *)
Theorem balances_stay_non_negative ops db :
  (forall a, In a (tbl_accounts db) ->
             exists b, accounts.balance a = Some b /\ 0 <= b) ->
  (forall a, In a (tbl_accounts (run ops db)) ->
             exists b, accounts.balance a = Some b /\ 0 <= b)
  /\ (forall s tid t a b,
        consistent db = true ->
        In t (tbl_transactions (run ops db)) ->
        transactions.id t = tid ->
        transactions.status t = Some pending ->
        transactions.type t = fee \/ transactions.type t = fine ->
        In a (tbl_accounts (run ops db)) ->
        accounts.user_id a = transactions.user_id t ->
        accounts.balance a = Some b ->
        b - transactions.amount t < 0 ->
        step (approve s tid) (run ops db)
        = inl (if bypassrls s then check_violation "valid_balance"
               else infinite_recursion "users")
        /\ run (ops ++ [approve s tid]) db = run ops db).
Proof.
  intro Hdb. split.
  - revert db Hdb. induction ops as [| op ops IH]; simpl; intros db Hdb.
    + exact Hdb.
    + apply IH. unfold apply_operation.
      destruct (step op db) as [e | db'] eqn:S; [exact Hdb |].
      eapply step_keeps_balances_non_negative; eauto.
  - intros s tid t a b C Hin Hid Hpend Hty Ha Hown Hbal Hlt.
    assert (E : step (approve s tid) (run ops db)
                = inl (if bypassrls s then check_violation "valid_balance"
                       else infinite_recursion "users")).
    { simpl. destruct (bypassrls s) eqn:B.
      - eapply overdraw_raises_valid_balance;
          eauto using run_consistent. lia.
      - now apply update_status_request_refused. }
    split; [exact E |].
    unfold run. rewrite fold_left_app. simpl.
    unfold apply_operation at 1. fold (run ops db). now rewrite E.
Qed.

Lemma balances_stay_non_negative_witness :
  map accounts.balance (tbl_accounts (run service_day ledger))
  = [Some 15000; Some 0]
  /\ (forall a, In a (tbl_accounts (run service_day ledger)) ->
                exists b, accounts.balance a = Some b /\ 0 <= b)
  /\ step (approve as_service 12) (run service_day ledger)
     = inl (check_violation "valid_balance")
  /\ run (service_day ++ [approve as_service 12]) ledger
     = run service_day ledger.
Proof.
  split; [reflexivity |].
  destruct (balances_stay_non_negative service_day ledger) as [H1 H2].
  - simpl. intros a [<- | [<- | []]]; simpl; eexists; split;
      try reflexivity; lia.
  - split; [exact H1 |].
    apply (H2 as_service 12%N late_fine
             (set_balance kofi_account (Some 15000) (Some 1003)) 15000).
    + reflexivity.
    + vm_compute. auto 8.
    + reflexivity.
    + reflexivity.
    + right. reflexivity.
    + vm_compute. auto.
    + reflexivity.
    + reflexivity.
    + simpl. lia.
Defined.

(** C7.  Every operation on a row of [transactions] or [accounts] appends
    exactly one row to [activity_logs], whose [old_data] and [new_data] are
    the row as it was in the table before the statement and as it is in
    the table after it (NULL where there is no such row):
    - the INSERT of a transaction, as the store sends it and as the
      statement of the Transactions page contains it;
    - the UPDATE of a transaction's status, as the page sends it; the
      update of the owner's account made by the trigger function is a row
      operation of its own and is logged as such, after the transaction;
    - the UPDATE of account balances, as the trigger function issues it;
    - the DELETE of transactions, the INSERT and the DELETE of accounts,
      as the owner of the tables can issue them. *)
Theorem every_row_operation_is_logged_once s db db' :
  (forall t,
     INSERT_INTO_transactions s t db = inr db' ->
     tbl_transactions db' = tbl_transactions db ++ [t]
     /\ exists l,
          tbl_activity_logs db' = tbl_activity_logs db ++ [l]
          /\ audits l "transactions" INSERT
               None (Some (transactions_record t)))
  /\ (forall tid label t,
        consistent db = true ->
        In t (tbl_transactions db) ->
        transactions.id t = tid ->
        update_status_request s tid label db = inr db' ->
        exists st l ls,
          transaction_status_in label = Some st
          /\ In (set_status t (Some st)) (tbl_transactions db')
          /\ tbl_activity_logs db' = tbl_activity_logs db ++ l :: ls
          /\ audits l "transactions" UPDATE
               (Some (transactions_record t))
               (Some (transactions_record (set_status t (Some st))))
          /\ Forall2 (fun on la =>
                        audits la "accounts" UPDATE
                          (Some (accounts_record (fst on)))
                          (Some (accounts_record (snd on))))
               (if status_is (Some st) approved
                   && status_is (transactions.status t) pending
                then filter (fun on => N.eqb (accounts.user_id (fst on))
                                             (transactions.user_id t))
                       (combine (tbl_accounts db) (tbl_accounts db'))
                else [])
               ls
          /\ (status_is (Some st) approved
              && status_is (transactions.status t) pending = false ->
              tbl_accounts db' = tbl_accounts db))
  /\ (forall WHERE,
        DELETE_FROM_transactions s WHERE db = inr db' ->
        tbl_transactions db'
        = filter (fun t => negb (WHERE t && transactions_delete_policy s))
            (tbl_transactions db)
        /\ exists ls,
             tbl_activity_logs db' = tbl_activity_logs db ++ ls
             /\ Forall2 (fun old l =>
                           audits l "transactions" DELETE
                             (Some (transactions_record old)) None)
                  (filter (fun t => WHERE t && transactions_delete_policy s)
                     (tbl_transactions db))
                  ls)
  /\ (forall a,
        INSERT_INTO_accounts s a db = inr db' ->
        tbl_accounts db' = tbl_accounts db ++ [a]
        /\ exists l,
             tbl_activity_logs db' = tbl_activity_logs db ++ [l]
             /\ audits l "accounts" INSERT None (Some (accounts_record a)))
  /\ (forall expr WHERE,
        UPDATE_accounts_SET_balance s expr WHERE db = inr db' ->
        exists ls,
          tbl_activity_logs db' = tbl_activity_logs db ++ ls
          /\ Forall2 (fun on l =>
                        audits l "accounts" UPDATE
                          (Some (accounts_record (fst on)))
                          (Some (accounts_record (snd on))))
               (filter (fun on => WHERE (fst on) && accounts_write_policy s)
                  (combine (tbl_accounts db) (tbl_accounts db')))
               ls)
  /\ (forall WHERE,
        DELETE_FROM_accounts s WHERE db = inr db' ->
        tbl_accounts db'
        = filter (fun a => negb (WHERE a && accounts_write_policy s))
            (tbl_accounts db)
        /\ exists ls,
             tbl_activity_logs db' = tbl_activity_logs db ++ ls
             /\ Forall2 (fun old l =>
                           audits l "accounts" DELETE
                             (Some (accounts_record old)) None)
                  (filter (fun a => WHERE a && accounts_write_policy s)
                     (tbl_accounts db))
                  ls).
Proof.
  split; [| split; [| split; [| split; [| split]]]].
  - intros t H. apply INSERT_INTO_transactions_inr in H. tauto.
  - intros tid label t C Hin Hid H.
    destruct (update_status_request_inr _ _ _ _ _ H)
      as (M & st & _ & Hst & _).
    destruct (consistent_inv db C) as (Ut & _ & _ & _ & Ht & _).
    destruct (Ht t Hin) as (_ & _ & Hpos).
    destruct (update_status_request_eq s tid label st db t
                Ut Hin Hid Hpos Hst) as (l1 & l2 & E & Eq).
    rewrite M in Eq. rewrite Eq in H. clear Eq.
    apply transactions_after_row_inr in H.
    destruct H as (_ & Htx & Hacc & l & ls & Hls & Hl & HF).
    simpl in Htx, Hacc, Hls, Hl, HF.
    exists st, l, ls. split; [exact Hst |].
    split; [rewrite Htx; apply in_or_app; right; now left |].
    split; [exact Hls |]. split; [exact Hl |]. split; [exact HF |].
    intro Cnd. simpl in Cnd. rewrite Cnd in Hacc. exact Hacc.
  - intros WHERE H. apply DELETE_FROM_transactions_inr in H. tauto.
  - intros a H. apply INSERT_INTO_accounts_inr in H. tauto.
  - intros expr WHERE H. apply UPDATE_accounts_SET_balance_inr in H. tauto.
  - intros WHERE H. apply DELETE_FROM_accounts_inr in H. tauto.
Qed.

Lemma every_row_operation_is_logged_once_witness :
  (exists db' l la,
     update_status_request as_service 10 "approved" ledger = inr db'
     /\ tbl_activity_logs db' = [l; la]
     /\ audits l "transactions" UPDATE
          (Some (transactions_record tuition))
          (Some (transactions_record (set_status tuition (Some approved))))
     /\ audits la "accounts" UPDATE
          (Some (accounts_record kofi_account))
          (Some (accounts_record
                   (set_balance kofi_account (Some 15000) (Some 1003)))))
  /\ (exists db' l,
        INSERT_INTO_transactions as_kofi library_card ledger = inr db'
        /\ tbl_transactions db' = tbl_transactions ledger ++ [library_card]
        /\ tbl_activity_logs db' = [l]
        /\ audits l "transactions" INSERT
             None (Some (transactions_record library_card)))
  /\ (exists db' l,
        DELETE_FROM_transactions as_owner
          (fun t => N.eqb (transactions.id t) 13) ledger = inr db'
        /\ tbl_transactions db' = [tuition; lab_fee; late_fine; deposit]
        /\ tbl_activity_logs db' = [l]
        /\ audits l "transactions" DELETE
             (Some (transactions_record refund)) None).
Proof.
  split; [| split].
  - eexists.
    assert (H : update_status_request as_service 10 "approved" ledger = inr _)
      by (vm_compute; reflexivity).
    destruct (proj1 (proj2 (every_row_operation_is_logged_once
                              as_service ledger _))
                10%N "approved" tuition eq_refl (or_introl eq_refl)
                eq_refl H)
      as (st & l & ls & Hst & _ & Hlogs & Hl & HF & _).
    injection Hst as <-. simpl in HF.
    inversion HF as [| on la ons las Hla Hrest]; subst.
    inversion Hrest; subst.
    exists l, la. repeat split; try apply Hl; try apply Hla; assumption.
  - eexists.
    assert (H : INSERT_INTO_transactions as_kofi library_card ledger = inr _)
      by (vm_compute; reflexivity).
    destruct (proj1 (every_row_operation_is_logged_once as_kofi ledger _)
                library_card H) as (Htx & l & Hl & Al).
    exists l. repeat split; try apply Al; assumption.
  - eexists.
    assert (H : DELETE_FROM_transactions as_owner
                  (fun t => N.eqb (transactions.id t) 13) ledger = inr _)
      by (vm_compute; reflexivity).
    destruct (proj1 (proj2 (proj2 (every_row_operation_is_logged_once
                                     as_owner ledger _))) _ H)
      as (Htx & ls & Hls & HF).
    simpl in HF. inversion HF as [| old l olds ls' Al Hrest]; subst.
    inversion Hrest; subst.
    exists l. repeat split; try apply Al; assumption.
Defined.

(** C8, as the code has it.  The specification expects that no admin or
    member of staff has a [student_id].  Esi is a member of staff with a
    [student_id]; her row passes [student_id_required] and the ledger she
    is in satisfies every declared constraint. *)
Lemma staff_row_with_a_student_id_is_accepted :
  users.role esi = staff
  /\ users.student_id esi = Some "S-0003"
  /\ student_id_required esi = true
  /\ In esi (tbl_users ledger)
  /\ consistent ledger = true.
Proof. repeat split; simpl; auto. Qed.

(** C8, amended.  Every user whose role is student has a [student_id];
    the constraint says nothing about the [student_id] of an admin or a
    member of staff, who may have one or not. *)
Theorem every_student_has_a_student_id db u :
  consistent db = true ->
  In u (tbl_users db) ->
  users.role u = student ->
  exists sid, users.student_id u = Some sid.
Proof.
  intros C Hin Hrole.
  destruct (consistent_inv db C) as (_ & _ & _ & Hs & _).
  apply Hs in Hin. rewrite student_id_required_iff in Hin.
  specialize (Hin Hrole).
  destruct (users.student_id u) as [sid |]; [eauto | contradiction].
Qed.

Lemma every_student_has_a_student_id_witness :
  exists sid, users.student_id kofi = Some sid.
Proof.
  apply (every_student_has_a_student_id ledger kofi).
  - reflexivity.
  - simpl. auto.
  - reflexivity.
Defined.

(** C9.  The approval of a pending transaction whose owner has no row in
    [accounts], once past row-level security, succeeds: no error is
    raised, the transaction is approved, and the table of accounts is as
    it was, the UPDATE of the trigger function having found no row. *)
Theorem approval_without_an_account_succeeds s tid db t :
  consistent db = true ->
  bypassrls s = true ->
  In t (tbl_transactions db) ->
  transactions.id t = tid ->
  transactions.status t = Some pending ->
  (forall a, In a (tbl_accounts db) ->
             accounts.user_id a <> transactions.user_id t) ->
  exists db',
    update_status_request s tid "approved" db = inr db'
    /\ In (set_status t (Some approved)) (tbl_transactions db')
    /\ tbl_accounts db' = tbl_accounts db.
Proof.
  intros C M Hin Hid Hpend Hnone.
  destruct (status_change_eq s tid "approved" approved db t C M Hin Hid eq_refl)
    as (l1 & l2 & l & E & _ & Eq).
  rewrite Eq. clear Eq. rewrite Hpend. simpl.
  eexists. split.
  - unfold update_account_balance. simpl. rewrite Hpend. simpl.
    assert (Hno : forall a,
              In a (tbl_accounts db) ->
              N.eqb (accounts.user_id a) (transactions.user_id t) = false)
      by (intros a Ha; apply N.eqb_neq; auto).
    destruct (transactions.type t); simpl;
      apply UPDATE_accounts_no_row; exact Hno.
  - split; [| reflexivity]. simpl. apply in_or_app. right. now left.
Qed.

Lemma approval_without_an_account_succeeds_witness :
  exists db',
    update_status_request as_service 14 "approved" ledger = inr db'
    /\ In (set_status deposit (Some approved)) (tbl_transactions db')
    /\ tbl_accounts db' = tbl_accounts ledger.
Proof.
  apply (approval_without_an_account_succeeds as_service 14 ledger deposit).
  - reflexivity.
  - reflexivity.
  - simpl. auto 6.
  - reflexivity.
  - reflexivity.
  - simpl. intros a [<- | [<- | []]]; simpl; discriminate.
Defined.

(** C10.  The approval of one transaction keeps the [id], [user_id] and
    [created_at] of every account row, leaves every row of another owner
    exactly as it was, and changes at most one row: only [balance] and
    [last_updated] of the account of the transaction's owner can differ. *)
Theorem approval_touches_one_account_at_most s tid db db' t :
  consistent db = true ->
  In t (tbl_transactions db) ->
  transactions.id t = tid ->
  update_status_request s tid "approved" db = inr db' ->
  Forall2
    (fun a a' =>
       accounts.id a' = accounts.id a
       /\ accounts.user_id a' = accounts.user_id a
       /\ accounts.created_at a' = accounts.created_at a
       /\ (accounts.user_id a <> transactions.user_id t -> a' = a))
    (tbl_accounts db) (tbl_accounts db')
  /\ (forall a1 a1' a2 a2',
        In (a1, a1') (combine (tbl_accounts db) (tbl_accounts db')) ->
        In (a2, a2') (combine (tbl_accounts db) (tbl_accounts db')) ->
        a1' <> a1 -> a2' <> a2 -> a1 = a2).
Proof.
  intros C Hin Hid H.
  destruct (consistent_inv db C) as (Ut & _ & Uu & _ & Ht & _).
  destruct (Ht t Hin) as (_ & _ & Hpos).
  assert (F : Forall2
                (fun a a' =>
                   accounts.id a' = accounts.id a
                   /\ accounts.user_id a' = accounts.user_id a
                   /\ accounts.created_at a' = accounts.created_at a
                   /\ (accounts.user_id a <> transactions.user_id t -> a' = a))
                (tbl_accounts db) (tbl_accounts db')).
  { destruct (update_status_request_eq s tid "approved" approved db t
                Ut Hin Hid Hpos eq_refl) as (l1 & l2 & E & Eq).
    rewrite Eq in H. clear Eq.
    destruct (bypassrls s); [| discriminate].
    apply transactions_after_row_inr in H.
    destruct H as (_ & _ & Hacc & _). simpl in Hacc.
    destruct (status_is (transactions.status t) pending).
    - revert Hacc. apply Forall2_impl. intros a a'. unfold credited. simpl.
      destruct (N.eqb_spec (accounts.user_id a) (transactions.user_id t)).
      + intros [-> _]. simpl. repeat split. intro. contradiction.
      + intros ->. repeat split.
    - rewrite Hacc. apply Forall2_same. repeat split. }
  split; [exact F |].
  intros a1 a1' a2 a2' H1 H2 N1 N2.
  pose proof (Forall2_combine_In _ _ _ _ _ F H1) as (_ & _ & _ & K1).
  pose proof (Forall2_combine_In _ _ _ _ _ F H2) as (_ & _ & _ & K2).
  apply (unique_injective accounts.user_id (tbl_accounts db)); auto.
  - eapply in_combine_l; eauto.
  - eapply in_combine_l; eauto.
  - destruct (N.eq_dec (accounts.user_id a1) (transactions.user_id t)) as [E1 |];
      [| now apply K1 in n].
    destruct (N.eq_dec (accounts.user_id a2) (transactions.user_id t)) as [E2 |];
      [| now apply K2 in n].
    congruence.
Qed.

Lemma approval_touches_one_account_at_most_witness :
  exists db',
    update_status_request as_service 10 "approved" ledger = inr db'
    /\ Forall2
         (fun a a' =>
            accounts.id a' = accounts.id a
            /\ accounts.user_id a' = accounts.user_id a
            /\ accounts.created_at a' = accounts.created_at a
            /\ (accounts.user_id a <> transactions.user_id tuition -> a' = a))
         (tbl_accounts ledger) (tbl_accounts db')
    /\ (forall a1 a1' a2 a2',
          In (a1, a1') (combine (tbl_accounts ledger) (tbl_accounts db')) ->
          In (a2, a2') (combine (tbl_accounts ledger) (tbl_accounts db')) ->
          a1' <> a1 -> a2' <> a2 -> a1 = a2).
Proof.
  eexists. split; [vm_compute; reflexivity |].
  apply (approval_touches_one_account_at_most as_service 10 ledger _ tuition).
  - reflexivity.
  - simpl. auto.
  - reflexivity.
  - vm_compute. reflexivity.
Defined.

(** * Further properties of the code *)

(** ** Helper lemmas *)

Lemma step_appends_to_the_log op db db' :
  step op db = inr db' ->
  exists ls, tbl_activity_logs db' = tbl_activity_logs db ++ ls.
Proof.
  destruct op as [s id ty amt descr | s id uid ty amt descr by_ | s tid | s tid];
    simpl; intro H.
  - apply handleNewTransaction_inr in H.
    destruct H as [[_ ->] | (uid & _ & _ & H)];
      [exists []; now rewrite app_nil_r |].
    apply INSERT_INTO_transactions_inr in H.
    destruct H as (_ & _ & _ & l & Hl & _). eauto.
  - apply INSERT_INTO_transactions_inr in H.
    destruct H as (_ & _ & _ & l & Hl & _). eauto.
  - apply update_status_request_evolves in H.
    destruct H as (_ & _ & _ & ls & Hls & _). eauto.
  - apply update_status_request_evolves in H.
    destruct H as (_ & _ & _ & ls & Hls & _). eauto.
Qed.

(** ** The status change: what it keeps, what it records *)

(** X1.  Every sequence of creations, approvals and rejections, failed
    ones included, leads from a database that satisfies the declared
    constraints (primary keys, UNIQUE, FOREIGN KEY, CHECK, column ranges)
    to one that satisfies them. *)
Theorem operations_keep_the_declared_constraints ops db :
  consistent db = true -> consistent (run ops db) = true.
Proof. apply run_consistent. Qed.

Lemma operations_keep_the_declared_constraints_witness :
  consistent (run ledger_day ledger) = true
  /\ consistent (run service_day ledger) = true
  /\ List.length (tbl_activity_logs (run service_day ledger)) = 4%nat.
Proof.
  split; [| split; [| reflexivity]].
  - apply (operations_keep_the_declared_constraints ledger_day ledger).
    reflexivity.
  - apply (operations_keep_the_declared_constraints service_day ledger).
    reflexivity.
Defined.

(** X2.  A status-change request that succeeds keeps the users, adds and
    removes no transaction, and changes no column of a transaction other
    than [status]: owner, kind, amount, description and creation time stay,
    and [approved_by] is not filled in. *)
Theorem status_change_writes_only_the_status s tid label db db' :
  update_status_request s tid label db = inr db' ->
  tbl_users db' = tbl_users db
  /\ Forall2
       (fun t t' =>
          transactions.id t' = transactions.id t
          /\ transactions.user_id t' = transactions.user_id t
          /\ transactions.type t' = transactions.type t
          /\ transactions.amount t' = transactions.amount t
          /\ transactions.description t' = transactions.description t
          /\ transactions.approved_by t' = transactions.approved_by t
          /\ transactions.created_at t' = transactions.created_at t)
       (tbl_transactions db) (tbl_transactions db').
Proof.
  intro H. apply update_status_request_evolves in H.
  destruct H as (U & T & _). split; [exact U |].
  revert T. apply Forall2_impl. intros t t' E.
  unfold same_but_status in E. rewrite E. simpl. repeat split.
Qed.

Lemma status_change_writes_only_the_status_witness :
  exists db',
    update_status_request as_service 10 "approved" ledger = inr db'
    /\ tbl_users db' = tbl_users ledger
    /\ Forall2
         (fun t t' =>
            transactions.id t' = transactions.id t
            /\ transactions.user_id t' = transactions.user_id t
            /\ transactions.type t' = transactions.type t
            /\ transactions.amount t' = transactions.amount t
            /\ transactions.description t' = transactions.description t
            /\ transactions.approved_by t' = transactions.approved_by t
            /\ transactions.created_at t' = transactions.created_at t)
         (tbl_transactions ledger) (tbl_transactions db').
Proof.
  eexists. split; [vm_compute; reflexivity |].
  apply (status_change_writes_only_the_status as_service 10 "approved"
           ledger).
  vm_compute. reflexivity.
Defined.

(** X3.  The activity log is append-only under the operations of the
    application: after any sequence of creations, approvals and rejections
    the log starts with the rows it had, in their order and unchanged. *)
Theorem activity_log_only_grows ops db :
  exists ls,
    tbl_activity_logs (run ops db) = tbl_activity_logs db ++ ls.
Proof.
  revert db. induction ops as [| op ops IH]; intro db.
  - exists []. simpl. now rewrite app_nil_r.
  - change (run (op :: ops) db) with (run ops (apply_operation db op)).
    destruct (IH (apply_operation db op)) as (l2 & H2).
    assert (exists l1, tbl_activity_logs (apply_operation db op)
                       = tbl_activity_logs db ++ l1) as (l1 & H1).
    { unfold apply_operation.
      destruct (step op db) as [e | db'] eqn:S;
        [exists []; now rewrite app_nil_r |].
      now apply (step_appends_to_the_log op). }
    exists (l1 ++ l2). now rewrite H2, H1, app_assoc.
Qed.

Lemma log_activity_NEW_row s tbl op r OLD db db' :
  log_activity s tbl op (Some r) OLD db = inr db' ->
  db' = set_activity_logs db
          (tbl_activity_logs db ++
           [activity_logs.mk (record_user_id r)
              (tbl ++ "_" ++ TG_OP_text op)%string
              (activity_logs.mk_details tbl (TG_OP_text op)
                 (Some (record_id r)) (Some r) OLD)
              (Some (now s))]).
Proof.
  unfold log_activity, INSERT_INTO_activity_logs. simpl.
  destruct (users_has db (record_user_id r)); [| discriminate].
  intro H. now injection H as <-.
Qed.

Lemma for_each_row_log_users {R : Type} s tbl op (NEW : R -> record)
    (OLD : R -> option record) (rows : list R) (db db' : database) :
  for_each_row (fun r => log_activity s tbl op (Some (NEW r)) (OLD r)) rows db
  = inr db' ->
  exists ls,
    tbl_activity_logs db' = tbl_activity_logs db ++ ls
    /\ Forall2 (fun r l => activity_logs.user_id l = record_user_id (NEW r))
         rows ls.
Proof.
  revert db. induction rows as [| r rows IH]; simpl; intros db H.
  - injection H as <-. exists []. split; [now rewrite app_nil_r | constructor].
  - inv_bind H. apply log_activity_NEW_row in Hm. subst x.
    destruct (IH _ H) as (ls & Hls & HF). simpl in Hls.
    eexists (_ :: ls). split; [rewrite Hls; now rewrite <- app_assoc |].
    constructor; [reflexivity | exact HF].
Qed.

Lemma Forall2_Forall_r {A B : Type} (P : A -> B -> Prop) (Q : B -> Prop)
    (l : list A) (l' : list B) :
  (forall x y, In x l -> P x y -> Q y) -> Forall2 P l l' -> Forall Q l'.
Proof.
  intros H F. induction F as [| x y l l' Hxy _ IH]; constructor.
  - apply (H x); [now left | exact Hxy].
  - apply IH. intros a b Ha. apply H. now right.
Qed.

(** The log rows of the UPDATE the trigger function issues are filed
    under the owner of the accounts it selects. *)
Lemma UPDATE_accounts_log_users s expr uid db db' :
  UPDATE_accounts_SET_balance s expr
    (fun a => N.eqb (accounts.user_id a) uid) db = inr db' ->
  exists ls,
    tbl_activity_logs db' = tbl_activity_logs db ++ ls
    /\ Forall (fun la => activity_logs.user_id la = uid) ls.
Proof.
  unfold UPDATE_accounts_SET_balance. intro H.
  inv_bind H. clear x Hm. inv_bind H.
  destruct x as [tbl' pairs]. simpl in H.
  apply (for_each_row_log_users s "accounts" UPDATE
           (fun on => accounts_record (snd on))
           (fun on => Some (accounts_record (fst on)))) in H.
  destruct H as (ls & Hls & HF). exists ls. split; [exact Hls |].
  revert HF. apply Forall2_Forall_r. intros on la Hon ->. simpl.
  destruct (update_rows_pair_In _ _ _ _ _ _ Hm Hon) as (_ & T & A).
  apply accounts_assign_balance_inr in A. destruct A as [-> _]. simpl.
  apply andb_true_iff in T. destruct T as [T _]. now apply N.eqb_eq.
Qed.

Lemma update_account_balance_log_users s NEW OLD db db' :
  update_account_balance s NEW OLD db = inr db' ->
  exists ls,
    tbl_activity_logs db' = tbl_activity_logs db ++ ls
    /\ Forall (fun la => activity_logs.user_id la = transactions.user_id NEW)
         ls.
Proof.
  unfold update_account_balance.
  destruct (status_is _ approved && status_is _ pending);
    [| intro H; injection H as <-; exists []; split;
       [now rewrite app_nil_r | constructor]].
  destruct (transaction_type_eqb _ payment);
    [apply UPDATE_accounts_log_users |].
  destruct (existsb _ _); [apply UPDATE_accounts_log_users |].
  intro H. injection H as <-. exists [].
  split; [now rewrite app_nil_r | constructor].
Qed.

(** The log rows of a status change and the user they are filed under. *)
Lemma status_change_log_users s tid label db db' t :
  consistent db = true ->
  In t (tbl_transactions db) ->
  transactions.id t = tid ->
  update_status_request s tid label db = inr db' ->
  exists l ls,
    tbl_activity_logs db' = tbl_activity_logs db ++ l :: ls
    /\ activity_logs.user_id l = transactions.user_id t
    /\ activity_logs.record_id (activity_logs.details l) = Some tid
    /\ activity_logs.created_at l = Some (now s)
    /\ Forall (fun la => activity_logs.user_id la = transactions.user_id t) ls.
Proof.
  intros C Hin Hid H.
  destruct (update_status_request_inr _ _ _ _ _ H) as (M & st & _ & Hst & _).
  destruct (consistent_inv db C) as (Ut & _ & _ & _ & Ht & _).
  destruct (Ht t Hin) as (Hu & _ & Hpos).
  destruct (update_status_request_eq s tid label st db t Ut Hin Hid Hpos Hst)
    as (k1 & k2 & _ & Eq).
  rewrite M in Eq. rewrite Eq in H. clear Eq.
  unfold transactions_after_row in H. inv_bind H.
  apply log_activity_NEW_row in Hm. subst x. simpl in H.
  eexists.
  match type of H with (if ?c then _ else _) = _ => destruct c end.
  - apply update_account_balance_log_users in H.
    destruct H as (ls & Hls & HF). simpl in Hls, HF.
    exists ls. split; [rewrite Hls; now rewrite <- app_assoc |].
    split; [reflexivity |]. split; [simpl; now rewrite Hid |].
    split; [reflexivity | exact HF].
  - injection H as <-. exists []. simpl.
    split; [reflexivity |]. split; [reflexivity |].
    split; [now rewrite Hid |]. split; [reflexivity | constructor].
Qed.

(** X4.  The log rows written for the status change of a transaction, the
    one for the transaction and the one for the account it credits, are
    filed under the owner of the transaction, whoever made the change: the
    approver appears neither in the log nor in the transaction. *)
Theorem status_change_is_logged_under_the_owner s tid label db db' t :
  consistent db = true ->
  In t (tbl_transactions db) ->
  transactions.id t = tid ->
  update_status_request s tid label db = inr db' ->
  exists l ls,
    tbl_activity_logs db' = tbl_activity_logs db ++ l :: ls
    /\ activity_logs.user_id l = transactions.user_id t
    /\ activity_logs.record_id (activity_logs.details l) = Some tid
    /\ activity_logs.created_at l = Some (now s)
    /\ Forall (fun la => activity_logs.user_id la = transactions.user_id t) ls.
Proof. apply status_change_log_users. Qed.

Lemma status_change_is_logged_under_the_owner_witness :
  exists db' l ls,
    update_status_request as_owner 10 "approved" ledger = inr db'
    /\ tbl_activity_logs db' = tbl_activity_logs ledger ++ l :: ls
    /\ activity_logs.user_id l = transactions.user_id tuition
    /\ activity_logs.record_id (activity_logs.details l) = Some 10%N
    /\ activity_logs.created_at l = Some (now as_owner)
    /\ Forall (fun la => activity_logs.user_id la
                         = transactions.user_id tuition) ls.
Proof.
  eexists.
  assert (H : update_status_request as_owner 10 "approved" ledger = inr _)
    by (vm_compute; reflexivity).
  destruct (status_change_is_logged_under_the_owner as_owner 10 "approved"
              ledger _ tuition eq_refl (or_introl eq_refl) eq_refl H)
    as (l & ls & H1 & H2 & H3 & H4 & H5).
  exists l, ls. repeat split; assumption.
Defined.

(** X5.  Under row-level security, which is how every signed-in user
    reaches the database, admins and staff included, a status change is
    refused with the error 42P17 (infinite recursion detected in policy for
    relation users): the UPDATE policy of [transactions] reads [users],
    and the policy "Admins can view all users" of [users] reads [users]
    itself.  The database is as it was; the page logs the error and keeps
    the rows it shows. *)
Theorem status_change_under_row_level_security_is_refused
    s tid newStatus st pg db :
  bypassrls s = false ->
  transaction_status_in newStatus = Some st ->
  update_status_request s tid newStatus db = inl (infinite_recursion "users")
  /\ handleStatusChange s tid newStatus (pg, db)
     = (mk_page (page_transactions pg)
          (console_error pg ++ [infinite_recursion "users"]),
        db).
Proof.
  intros B _.
  pose proof (update_status_request_refused s tid newStatus db B) as E.
  split; [exact E |]. unfold handleStatusChange. now rewrite E.
Qed.

Lemma status_change_under_row_level_security_is_refused_witness :
  exists_user_with_role [admin] as_ama ledger = true
  /\ update_status_request as_ama 11 "approved" ledger
     = inl (infinite_recursion "users")
  /\ handleStatusChange as_ama 11 "approved"
       (mk_page [tuition; lab_fee] [], ledger)
     = (mk_page [tuition; lab_fee] [infinite_recursion "users"], ledger).
Proof.
  split; [reflexivity |].
  apply (status_change_under_row_level_security_is_refused
           as_ama 11 "approved" approved (mk_page [tuition; lab_fee] [])
           ledger); reflexivity.
Defined.

(** ** Approving against the balance of the account *)

Lemma UPDATE_accounts_at s expr uid db a k1 k2 :
  tbl_accounts db = k1 ++ a :: k2 ->
  (forall x, In x k1 -> N.eqb (accounts.user_id x) uid = false) ->
  (forall x, In x k2 -> N.eqb (accounts.user_id x) uid = false) ->
  accounts.user_id a = uid ->
  UPDATE_accounts_SET_balance (SECURITY_DEFINER s) expr
    (fun r => N.eqb (accounts.user_id r) uid) db
  = (a' <- accounts_assign_balance (SECURITY_DEFINER s) expr a ;;
     accounts_after_row (SECURITY_DEFINER s) UPDATE (Some a') (Some a)
       (set_accounts db (k1 ++ a' :: k2))).
Proof.
  intros E H1 H2 Hid. unfold UPDATE_accounts_SET_balance.
  rewrite row_security_SECURITY_DEFINER, bind_Ok_l.
  rewrite E at 1. rewrite update_rows_single.
  - destruct (accounts_assign_balance _ expr a) as [e | a']; simpl;
      [reflexivity | apply bind_Ok_r].
  - intros x Hx. now rewrite (H1 x Hx).
  - intros x Hx. now rewrite (H2 x Hx).
  - now rewrite Hid, N.eqb_refl.
Qed.

(** The approval of a pending transaction whose owner has an account with
    a balance: the outcome is decided by the balance that would result. *)
Lemma approval_outcome s tid db t a b :
  consistent db = true ->
  bypassrls s = true ->
  In t (tbl_transactions db) ->
  transactions.id t = tid ->
  transactions.status t = Some pending ->
  In a (tbl_accounts db) ->
  accounts.user_id a = transactions.user_id t ->
  accounts.balance a = Some b ->
  exists l1 l2 k1 k2,
    tbl_transactions db = l1 ++ t :: l2
    /\ tbl_accounts db = k1 ++ a :: k2
    /\ (0 <= b + signed_amount t < 10 ^ 10 ->
        exists db',
          update_status_request s tid "approved" db = inr db'
          /\ tbl_users db' = tbl_users db
          /\ tbl_transactions db'
             = l1 ++ set_status t (Some approved) :: l2
          /\ tbl_accounts db'
             = k1 ++ set_balance a (Some (b + signed_amount t))
                       (Some (now s)) :: k2)
    /\ (10 ^ 10 <= b + signed_amount t ->
        update_status_request s tid "approved" db
        = inl numeric_value_out_of_range).
Proof.
  intros C M Hin Hid Hpend Ha Hown Hbal.
  destruct (status_change_eq s tid "approved" approved db t C M Hin Hid eq_refl)
    as (l1 & l2 & l & E & _ & Eq).
  rewrite Hpend in Eq. simpl in Eq.
  destruct (consistent_inv db C) as (_ & _ & Uu & _ & _ & Hacc).
  destruct (Hacc a Ha) as (Hua & _ & _).
  destruct (unique_split accounts.user_id _ a Uu Ha) as (k1 & k2 & Ek & K1 & K2).
  exists l1, l2, k1, k2. split; [exact E |]. split; [exact Ek |].
  rewrite Eq. clear Eq.
  assert (P : 10 ^ 10 = 10000000000) by reflexivity.
  assert (K : forall d db1,
            tbl_accounts db1 = tbl_accounts db ->
            tbl_users db1 = tbl_users db ->
            (0 <= b + d < 10 ^ 10 ->
             exists db',
               UPDATE_accounts_SET_balance (SECURITY_DEFINER s)
                 (option_map (fun balance => balance + d))
                 (fun r => N.eqb (accounts.user_id r) (transactions.user_id t))
                 db1 = inr db'
               /\ tbl_users db' = tbl_users db1
               /\ tbl_transactions db' = tbl_transactions db1
               /\ tbl_accounts db'
                  = k1 ++ set_balance a (Some (b + d)) (Some (now s)) :: k2)
            /\ (10 ^ 10 <= b + d ->
                UPDATE_accounts_SET_balance (SECURITY_DEFINER s)
                  (option_map (fun balance => balance + d))
                  (fun r => N.eqb (accounts.user_id r) (transactions.user_id t))
                  db1 = inl numeric_value_out_of_range)).
  { intros d db1 E1 U1.
    rewrite (UPDATE_accounts_at s _ (transactions.user_id t) db1 a k1 k2);
      try assumption.
    2: { now rewrite E1. }
    2: { intros x Hx. rewrite <- Hown. now apply K1. }
    2: { intros x Hx. rewrite <- Hown. now apply K2. }
    unfold accounts_assign_balance. rewrite Hbal. simpl.
    unfold decimal_10_2. rewrite P. split.
    - intros [Lo Hi].
      destruct (Z.ltb_spec (Z.abs (b + d)) 10000000000); [| lia].
      simpl. unfold valid_balance. simpl.
      destruct (Z.leb_spec 0 (b + d)); [| lia].
      unfold accounts_after_row.
      destruct (log_activity_NEW (SECURITY_DEFINER s) "accounts" UPDATE
                  (accounts_record
                     (set_balance a (Some (b + d)) (Some (now s))))
                  (Some (accounts_record a))
                  (set_accounts db1
                     (k1 ++ set_balance a (Some (b + d)) (Some (now s)) :: k2)))
        as (la & Hla & _).
      { simpl. rewrite (users_has_frame db); [exact Hua | exact U1]. }
      simpl option_map. unfold bind, Ok. rewrite Hla.
      eexists. split; [reflexivity |].
      repeat split.
    - intro Hi.
      destruct (Z.ltb_spec (Z.abs (b + d)) 10000000000); [lia | reflexivity]. }
  unfold update_account_balance. simpl. rewrite Hpend. simpl.
  unfold signed_amount.
  destruct (transactions.type t); simpl.
  - destruct (K (transactions.amount t)
                (set_activity_logs
                   (set_transactions db
                      (l1 ++ set_status t (Some approved) :: l2))
                   (tbl_activity_logs db ++ [l])) eq_refl eq_refl)
      as [Kok Kov].
    split; [| exact Kov].
    intro B. destruct (Kok B) as (db' & H1 & H2 & H3 & H4).
    exists db'. repeat split; assumption.
  - destruct (K (- transactions.amount t)
                (set_activity_logs
                   (set_transactions db
                      (l1 ++ set_status t (Some approved) :: l2))
                   (tbl_activity_logs db ++ [l])) eq_refl eq_refl)
      as [Kok Kov].
    split; [| exact Kov].
    intro B. destruct (Kok B) as (db' & H1 & H2 & H3 & H4).
    exists db'. repeat split; assumption.
  - destruct (K (- transactions.amount t)
                (set_activity_logs
                   (set_transactions db
                      (l1 ++ set_status t (Some approved) :: l2))
                   (tbl_activity_logs db ++ [l])) eq_refl eq_refl)
      as [Kok Kov].
    split; [| exact Kov].
    intro B. destruct (Kok B) as (db' & H1 & H2 & H3 & H4).
    exists db'. repeat split; assumption.
Qed.

(** X6.  The approval of a pending transaction whose owner has an account,
    once past row-level security (the service role, the owner of the
    tables), succeeds whenever the resulting balance is between 0 and
    99999999.99:
    the transaction is stored as approved and the account carries exactly
    the old balance plus the amount (payment) or minus the amount (fee,
    fine), stamped with the time of the request.  A fee equal to the
    balance is accepted and leaves 0. *)
Theorem approval_within_the_bounds_succeeds s tid db t a b :
  consistent db = true ->
  bypassrls s = true ->
  In t (tbl_transactions db) ->
  transactions.id t = tid ->
  transactions.status t = Some pending ->
  In a (tbl_accounts db) ->
  accounts.user_id a = transactions.user_id t ->
  accounts.balance a = Some b ->
  0 <= b + signed_amount t < 10 ^ 10 ->
  exists db',
    update_status_request s tid "approved" db = inr db'
    /\ In (set_status t (Some approved)) (tbl_transactions db')
    /\ In (set_balance a (Some (b + signed_amount t)) (Some (now s)))
          (tbl_accounts db').
Proof.
  intros C M Hin Hid Hpend Ha Hown Hbal B.
  destruct (approval_outcome s tid db t a b C M Hin Hid Hpend Ha Hown Hbal)
    as (l1 & l2 & k1 & k2 & _ & _ & Hok & _).
  destruct (Hok B) as (db' & H & _ & Ht & Hacc).
  exists db'. split; [exact H |].
  rewrite Ht, Hacc. split; apply in_or_app; right; now left.
Qed.

Lemma approval_within_the_bounds_succeeds_witness :
  exists db',
    update_status_request as_service 11 "approved" ledger = inr db'
    /\ In (set_status lab_fee (Some approved)) (tbl_transactions db')
    /\ In (set_balance kofi_account (Some (5000 + signed_amount lab_fee))
             (Some (now as_service)))
          (tbl_accounts db').
Proof.
  apply (approval_within_the_bounds_succeeds as_service 11 ledger lab_fee
           kofi_account 5000).
  - reflexivity.
  - reflexivity.
  - simpl. auto.
  - reflexivity.
  - reflexivity.
  - simpl. auto.
  - reflexivity.
  - reflexivity.
  - vm_compute. split; [discriminate | reflexivity].
Defined.

(** X7.  The approval of a payment that would take the balance of the
    owner's account to 100000000.00 or more is refused once it is past
    row-level security: the assignment to
    the [decimal(10,2)] column raises [numeric_value_out_of_range], and the
    page keeps the database as it was and shows the error. *)
Theorem approval_above_the_column_range_is_refused s tid db t a b pg :
  consistent db = true ->
  bypassrls s = true ->
  In t (tbl_transactions db) ->
  transactions.id t = tid ->
  transactions.status t = Some pending ->
  In a (tbl_accounts db) ->
  accounts.user_id a = transactions.user_id t ->
  accounts.balance a = Some b ->
  10 ^ 10 <= b + signed_amount t ->
  handleStatusChange s tid "approved" (pg, db)
  = (mk_page (page_transactions pg)
       (console_error pg ++ [numeric_value_out_of_range]),
     db).
Proof.
  intros C M Hin Hid Hpend Ha Hown Hbal B.
  destruct (approval_outcome s tid db t a b C M Hin Hid Hpend Ha Hown Hbal)
    as (l1 & l2 & k1 & k2 & _ & _ & _ & Hov).
  unfold handleStatusChange. now rewrite (Hov B).
Qed.

Lemma approval_above_the_column_range_is_refused_witness :
  handleStatusChange as_service 10 "approved"
    (mk_page [tuition] [], rich_ledger)
  = (mk_page [tuition] [numeric_value_out_of_range], rich_ledger).
Proof.
  apply (approval_above_the_column_range_is_refused as_service 10 rich_ledger
           tuition rich_account 9999995000 (mk_page [tuition] [])).
  - reflexivity.
  - reflexivity.
  - simpl. auto.
  - reflexivity.
  - reflexivity.
  - simpl. auto.
  - reflexivity.
  - reflexivity.
  - vm_compute. discriminate.
Defined.

(** X8.  With the service role or as the owner of the tables, an approved
    transaction can be set back to pending and approved again, and is then
    applied a second time: the first request changes no account, the
    second adds the signed amount to the balance the account has by
    then. *)
Theorem reopened_transaction_is_applied_again s1 s2 tid db t a b :
  consistent db = true ->
  bypassrls s1 = true ->
  bypassrls s2 = true ->
  In t (tbl_transactions db) ->
  transactions.id t = tid ->
  transactions.status t = Some approved ->
  In a (tbl_accounts db) ->
  accounts.user_id a = transactions.user_id t ->
  accounts.balance a = Some b ->
  0 <= b + signed_amount t < 10 ^ 10 ->
  exists db1 db2,
    update_status_request s1 tid "pending" db = inr db1
    /\ tbl_accounts db1 = tbl_accounts db
    /\ update_status_request s2 tid "approved" db1 = inr db2
    /\ In (set_balance a (Some (b + signed_amount t)) (Some (now s2)))
          (tbl_accounts db2).
Proof.
  intros C M1 M2 Hin Hid Happ Ha Hown Hbal B.
  destruct (status_change_eq s1 tid "pending" pending db t C M1 Hin Hid eq_refl)
    as (l1 & l2 & l & E & _ & Eq).
  simpl in Eq.
  set (db1 := set_activity_logs
                (set_transactions db (l1 ++ set_status t (Some pending) :: l2))
                (tbl_activity_logs db ++ [l])) in *.
  assert (C1 : consistent db1 = true).
  { apply (consistent_evolves db); [exact C |].
    now apply (update_status_request_evolves s1 tid "pending"). }
  assert (Hin1 : In (set_status t (Some pending)) (tbl_transactions db1))
    by (simpl; apply in_or_app; right; now left).
  destruct (approval_outcome s2 tid db1 (set_status t (Some pending)) a b
              C1 M2 Hin1 Hid eq_refl Ha Hown Hbal)
    as (j1 & j2 & k1 & k2 & _ & _ & Hok & _).
  destruct (Hok B) as (db2 & H2 & _ & _ & Hacc).
  exists db1, db2. split; [exact Eq |]. split; [reflexivity |].
  split; [exact H2 |]. rewrite Hacc. apply in_or_app. right. now left.
Qed.

Lemma reopened_transaction_is_applied_again_witness :
  exists db1 db2,
    update_status_request as_service 13 "pending" ledger = inr db1
    /\ tbl_accounts db1 = tbl_accounts ledger
    /\ update_status_request as_owner 13 "approved" db1 = inr db2
    /\ In (set_balance kofi_account (Some (5000 + signed_amount refund))
             (Some (now as_owner)))
          (tbl_accounts db2).
Proof.
  apply (reopened_transaction_is_applied_again as_service as_owner 13 ledger
           refund kofi_account 5000).
  - reflexivity.
  - reflexivity.
  - reflexivity.
  - simpl. auto 6.
  - reflexivity.
  - reflexivity.
  - simpl. auto.
  - reflexivity.
  - reflexivity.
  - vm_compute. split; [discriminate | reflexivity].
Defined.

(** ** Filing a transaction *)

Lemma existsb_key_true_or {R : Type} (key : R -> uuid) (k : uuid)
    (tbl : list R) :
  (forall x, In x tbl -> key x <> k) ->
  existsb (N.eqb k) (map key tbl) = false.
Proof.
  induction tbl as [| r tbl IH]; simpl; intro H; [reflexivity |].
  rewrite IH by auto. rewrite orb_false_r. apply N.eqb_neq.
  intro E. now apply (H r (or_introl eq_refl)).
Qed.

Lemma decimal_10_2_fits v : Z.abs v < 10 ^ 10 -> decimal_10_2 v = Ok v.
Proof.
  intro H. unfold decimal_10_2.
  destruct (Z.ltb_spec (Z.abs v) (10 ^ 10)); [reflexivity | lia].
Qed.

Lemma row_security_INSERT_transactions s :
  row_security s on_transactions [FOR_INSERT] = Ok tt.
Proof. now apply row_security_plain. Qed.

(** The policies of an INSERT that reads the new row back include the
    SELECT policies, which read [users]. *)
Lemma row_security_INSERT_RETURNING_transactions s :
  row_security s on_transactions [FOR_INSERT; FOR_SELECT]
  = if bypassrls s then Ok tt else Raise (infinite_recursion "users").
Proof. unfold row_security. destruct (bypassrls s); reflexivity. Qed.

Lemma transactions_insert_policy_own s db t :
  auth_uid s = Some (transactions.user_id t) ->
  transactions_insert_policy s db t = true.
Proof.
  intro A. unfold transactions_insert_policy, is_auth_uid.
  now rewrite A, N.eqb_refl, orb_true_r.
Qed.

(** The insert of a row that passes the INSERT policy goes through when
    the amount is positive and fits the column, the owner and the approver
    are known and the id is not taken. *)
Lemma INSERT_INTO_transactions_ok s t db :
  transactions_insert_policy s db t = true ->
  0 < transactions.amount t < 10 ^ 10 ->
  users_has db (transactions.user_id t) = true ->
  references_users db (transactions.approved_by t) = true ->
  (forall x, In x (tbl_transactions db) ->
             transactions.id x <> transactions.id t) ->
  exists db',
    INSERT_INTO_transactions s t db = inr db'
    /\ tbl_users db' = tbl_users db
    /\ tbl_transactions db' = tbl_transactions db ++ [t]
    /\ tbl_accounts db' = tbl_accounts db.
Proof.
  intros P [Lo Hi] U Rf F.
  unfold INSERT_INTO_transactions.
  rewrite row_security_INSERT_transactions, bind_Ok_l.
  rewrite decimal_10_2_fits, bind_Ok_l by lia.
  rewrite P. simpl negb. cbv iota.
  unfold positive_amount.
  destruct (Z.ltb_spec 0 (transactions.amount t)); [| lia]. simpl negb.
  cbv iota.
  rewrite (existsb_key_true_or transactions.id _ _ F), U, Rf.
  simpl negb. cbv iota.
  unfold transactions_after_row.
  destruct (log_activity_NEW s "transactions" INSERT
              (transactions_record t) None
              (set_transactions db (tbl_transactions db ++ [t])))
    as (l & Hl & _); [exact U |].
  simpl option_map. rewrite Hl. simpl.
  eexists. split; [reflexivity |]. repeat split.
Qed.

(** What an INSERT that goes through has checked. *)
Lemma INSERT_INTO_transactions_checked s t db db' :
  INSERT_INTO_transactions s t db = inr db' ->
  transactions_insert_policy s db t = true
  /\ 0 < transactions.amount t < 10 ^ 10
  /\ users_has db (transactions.user_id t) = true
  /\ references_users db (transactions.approved_by t) = true
  /\ (forall x, In x (tbl_transactions db) ->
                transactions.id x <> transactions.id t).
Proof.
  unfold INSERT_INTO_transactions. intro H.
  inv_bind H. clear x Hm. inv_bind H.
  apply decimal_10_2_inr in Hm. destruct Hm as [_ Hr].
  destruct (transactions_insert_policy s db t); [| discriminate].
  simpl in H. unfold positive_amount in H.
  destruct (Z.ltb_spec 0 (transactions.amount t)); [| discriminate].
  simpl in H.
  destruct (existsb _ _) eqn:K; [discriminate |].
  destruct (users_has db (transactions.user_id t)); [| discriminate].
  destruct (references_users db (transactions.approved_by t));
    [| discriminate].
  split; [reflexivity |]. split; [lia |].
  split; [reflexivity |]. split; [reflexivity |].
  intros r Hin E.
  pose proof (existsb_key_false transactions.id _ _ K r Hin) as Ne.
  rewrite E, N.eqb_refl in Ne. discriminate.
Qed.

(** X9.  Through the store a signed-in user files a transaction for
    themselves, and it is accepted exactly when the amount is positive and
    below 100000000.00, the user and the approver named in the row, if
    any, have a row in [users], and the id drawn for the row is not taken.
    The INSERT policy reads no table, so the request passes row-level
    security. *)
Theorem filed_transaction_is_accepted_iff
    s id ty amount descr approved_by db uid :
  auth_uid s = Some uid ->
  (exists db',
     createTransaction s id uid ty amount descr approved_by db = inr db')
  <-> (0 < amount < 10 ^ 10
       /\ users_has db uid = true
       /\ references_users db approved_by = true
       /\ forall t, In t (tbl_transactions db) -> transactions.id t <> id).
Proof.
  intro A. unfold createTransaction. split.
  - intros (db' & H). apply INSERT_INTO_transactions_checked in H.
    simpl in H. tauto.
  - intros (B & U & Rf & F).
    destruct (INSERT_INTO_transactions_ok s
                (transactions.mk id uid ty amount descr (Some pending)
                   approved_by (Some (now s))) db)
      as (db' & H & _); eauto.
    now apply transactions_insert_policy_own.
Qed.

Lemma filed_transaction_is_accepted_iff_witness :
  (exists db',
     createTransaction as_kofi 15 2 fee 250 "library card" None ledger
     = inr db')
  <-> (0 < 250 < 10 ^ 10
       /\ users_has ledger 2 = true
       /\ references_users ledger None = true
       /\ forall t, In t (tbl_transactions ledger) -> transactions.id t <> 15%N).
Proof.
  apply (filed_transaction_is_accepted_iff as_kofi 15 fee 250 "library card"
           None ledger 2).
  reflexivity.
Defined.

(** X10.  A transaction filed through the store that is accepted is stored
    after the others as a pending row, whatever its kind; users and
    accounts are as they were: filing a payment, a fee or a fine changes
    no balance. *)
Theorem filed_transaction_is_pending_and_changes_no_balance
    s id user_id ty amount descr approved_by db db' :
  createTransaction s id user_id ty amount descr approved_by db = inr db' ->
  tbl_transactions db'
  = tbl_transactions db ++
    [transactions.mk id user_id ty amount descr (Some pending) approved_by
       (Some (now s))]
  /\ tbl_accounts db' = tbl_accounts db
  /\ tbl_users db' = tbl_users db.
Proof.
  unfold createTransaction. intro H.
  apply INSERT_INTO_transactions_inr in H. tauto.
Qed.

Lemma filed_transaction_is_pending_and_changes_no_balance_witness :
  exists db',
    createTransaction as_kofi 15 2 fee 250 "library card" None ledger
    = inr db'
    /\ tbl_transactions db' = tbl_transactions ledger ++ [library_card]
    /\ tbl_accounts db' = tbl_accounts ledger
    /\ tbl_users db' = tbl_users ledger.
Proof.
  eexists. split; [vm_compute; reflexivity |].
  apply (filed_transaction_is_pending_and_changes_no_balance as_kofi 15 2 fee
           250 "library card" None ledger).
  vm_compute. reflexivity.
Defined.

(** X11.  An amount that is zero or negative, filed through the store by a
    signed-in user for themselves, is refused by the CHECK
    [positive_amount], whatever the kind. *)
Theorem non_positive_amount_is_refused
    s id ty amount descr approved_by db uid :
  auth_uid s = Some uid ->
  - 10 ^ 10 < amount <= 0 ->
  createTransaction s id uid ty amount descr approved_by db
  = inl (check_violation "positive_amount").
Proof.
  intros A [Lo Hi]. unfold createTransaction, INSERT_INTO_transactions.
  rewrite row_security_INSERT_transactions, bind_Ok_l.
  rewrite decimal_10_2_fits, bind_Ok_l by (simpl transactions.amount; lia).
  rewrite transactions_insert_policy_own by exact A.
  unfold positive_amount. simpl.
  destruct (Z.ltb_spec 0 amount); [lia | reflexivity].
Qed.

Lemma non_positive_amount_is_refused_witness :
  createTransaction as_kofi 15 2 payment 0 "nothing" None ledger
  = inl (check_violation "positive_amount").
Proof.
  apply (non_positive_amount_is_refused as_kofi 15 payment 0 "nothing" None
           ledger 2).
  - reflexivity.
  - vm_compute. split; [reflexivity | discriminate].
Defined.

(** X12.  Through the store nobody files a transaction for another user:
    the only INSERT policy asks [user_id = auth.uid()], so the request of
    an admin or a member of staff for a student is refused like anyone
    else's. *)
Theorem transaction_for_another_user_is_refused
    s id user_id ty amount descr approved_by db :
  bypassrls s = false ->
  auth_uid s <> Some user_id ->
  Z.abs amount < 10 ^ 10 ->
  createTransaction s id user_id ty amount descr approved_by db
  = inl (insufficient_privilege "transactions").
Proof.
  intros B A R. unfold createTransaction, INSERT_INTO_transactions.
  rewrite row_security_INSERT_transactions, bind_Ok_l.
  rewrite decimal_10_2_fits by exact R.
  unfold transactions_insert_policy, is_auth_uid. simpl. rewrite B. simpl.
  destruct (auth_uid s) as [me |]; [| reflexivity].
  destruct (N.eqb_spec user_id me); [| reflexivity].
  subst. contradiction.
Qed.

Lemma transaction_for_another_user_is_refused_witness :
  createTransaction as_ama 15 2 fee 250 "library card" None ledger
  = inl (insufficient_privilege "transactions").
Proof.
  apply (transaction_for_another_user_is_refused as_ama 15 2 fee 250
           "library card" None ledger).
  - reflexivity.
  - discriminate.
  - vm_compute. reflexivity.
Defined.

(** X13.  Filing and approving compose: when a signed-in user with an
    account files a transaction through the store and the approval is then
    made with the service role or as the owner of the tables, the account
    ends with exactly the old balance plus the amount (payment) or minus
    the amount (fee, fine), provided that balance is between 0 and
    99999999.99. *)
Theorem filed_then_approved_reaches_the_balance
    s1 s2 id ty amount descr db uid a b :
  consistent db = true ->
  auth_uid s1 = Some uid ->
  users_has db uid = true ->
  (forall t, In t (tbl_transactions db) -> transactions.id t <> id) ->
  bypassrls s2 = true ->
  In a (tbl_accounts db) ->
  accounts.user_id a = uid ->
  accounts.balance a = Some b ->
  0 < amount < 10 ^ 10 ->
  0 <= b + match ty with payment => amount | fee | fine => - amount end
    < 10 ^ 10 ->
  In (set_balance a
        (Some (b + match ty with
                   | payment => amount
                   | fee | fine => - amount
                   end))
        (Some (now s2)))
     (tbl_accounts
        (run [file s1 id uid ty amount descr None; approve s2 id] db)).
Proof.
  intros C A U F M Ha Hown Hbal Hamt B.
  destruct (INSERT_INTO_transactions_ok s1
              (transactions.mk id uid ty amount descr (Some pending) None
                 (Some (now s1))) db)
    as (db1 & H1 & U1 & T1 & A1); try assumption; try reflexivity.
  { now apply transactions_insert_policy_own. }
  assert (C1 : consistent db1 = true)
    by (eapply INSERT_INTO_transactions_consistent; [exact C | exact H1]).
  assert (Hin : In (transactions.mk id uid ty amount descr (Some pending)
                      None (Some (now s1))) (tbl_transactions db1))
    by (rewrite T1; apply in_or_app; right; now left).
  assert (Ha1 : In a (tbl_accounts db1)) by now rewrite A1.
  destruct (approval_outcome s2 id db1 _ a b C1 M Hin eq_refl eq_refl
              Ha1 Hown Hbal)
    as (j1 & j2 & k1 & k2 & _ & _ & Hok & _).
  destruct (Hok B) as (db2 & H2 & _ & _ & Hacc).
  unfold run. simpl. unfold apply_operation at 2. simpl.
  unfold createTransaction. rewrite H1.
  unfold apply_operation. simpl. rewrite H2, Hacc.
  apply in_or_app. right. now left.
Qed.

Lemma filed_then_approved_reaches_the_balance_witness :
  In (set_balance kofi_account (Some (5000 + - 250)) (Some (now as_service)))
     (tbl_accounts
        (run [file as_kofi 15 2 fee 250 "library card" None;
              approve as_service 15]
           ledger)).
Proof.
  apply (filed_then_approved_reaches_the_balance as_kofi as_service 15 fee 250
           "library card" ledger 2 kofi_account 5000).
  - reflexivity.
  - reflexivity.
  - reflexivity.
  - simpl. intros t [<- | [<- | [<- | [<- | [<- | []]]]]]; discriminate.
  - reflexivity.
  - simpl. auto.
  - reflexivity.
  - reflexivity.
  - vm_compute. split; reflexivity.
  - vm_compute. split; [discriminate | reflexivity].
Defined.

(** X28.  On the Transactions page the new transaction is inserted and
    read back in one statement, so the SELECT policies of [transactions]
    are part of it; they read [users].  Under row-level security, which is
    how every signed-in user reaches the database, the statement is
    refused with the error 42P17 and nothing is stored, although the same
    row filed through the store is accepted. *)
Theorem page_new_transaction_under_row_level_security_is_refused
    s id ty amount descr db uid :
  bypassrls s = false ->
  auth_uid s = Some uid ->
  handleNewTransaction s id ty amount descr db
  = inl (infinite_recursion "users")
  /\ apply_operation db (create s id ty amount descr) = db.
Proof.
  intros B A.
  assert (E : handleNewTransaction s id ty amount descr db
              = inl (infinite_recursion "users")).
  { unfold handleNewTransaction, INSERT_INTO_transactions_RETURNING.
    now rewrite A, row_security_INSERT_RETURNING_transactions, B. }
  split; [exact E |]. unfold apply_operation. simpl. now rewrite E.
Qed.

Lemma page_new_transaction_under_row_level_security_is_refused_witness :
  (exists db',
     createTransaction as_kofi 15 2 fee 250 "library card" None ledger
     = inr db')
  /\ handleNewTransaction as_kofi 15 fee 250 "library card" ledger
     = inl (infinite_recursion "users")
  /\ apply_operation ledger (create as_kofi 15 fee 250 "library card")
     = ledger.
Proof.
  split; [eexists; vm_compute; reflexivity |].
  apply (page_new_transaction_under_row_level_security_is_refused as_kofi 15
           fee 250 "library card" ledger 2); reflexivity.
Defined.

(** ** Reading *)

Lemma filter_all {A : Type} (f : A -> bool) (l : list A) :
  (forall x, In x l -> f x = true) -> filter f l = l.
Proof.
  induction l as [| a l IH]; simpl; intro H; [reflexivity |].
  rewrite (H a (or_introl eq_refl)), IH by auto. reflexivity.
Qed.

Lemma filter_none {A : Type} (f : A -> bool) (l : list A) :
  (forall x, In x l -> f x = false) -> filter f l = [].
Proof.
  induction l as [| a l IH]; simpl; intro H; [reflexivity |].
  rewrite (H a (or_introl eq_refl)), IH by auto. reflexivity.
Qed.

(** A unique key selects the one row that has it. *)
Lemma filter_unique_key {R : Type} (key : R -> uuid) (tbl : list R) (r : R) :
  unique (map key tbl) = true -> In r tbl ->
  filter (fun x => N.eqb (key x) (key r)) tbl = [r].
Proof.
  intros U Hin.
  destruct (unique_split key tbl r U Hin) as (l1 & l2 & -> & H1 & H2).
  rewrite filter_app. simpl. rewrite N.eqb_refl.
  now rewrite (filter_none _ l1 H1), (filter_none _ l2 H2).
Qed.

Lemma may_update_false s db :
  may_update s db = false ->
  bypassrls s = false /\ exists_user_with_role [admin; staff] s db = false.
Proof. unfold may_update. apply orb_false_iff. Qed.

(** [created_at DESC] can always be met. *)
Lemma created_at_DESC_b_true x y :
  created_at_DESC_b x y = true -> created_at_DESC x y.
Proof.
  destruct x, y; simpl; try easy. apply Z.leb_le.
Qed.

Lemma created_at_DESC_b_false x y :
  created_at_DESC_b x y = false -> created_at_DESC y x.
Proof.
  destruct x, y; simpl; try easy. intro H. apply Z.leb_gt in H. lia.
Qed.

Lemma created_at_DESC_trans x y z :
  created_at_DESC x y -> created_at_DESC y z -> created_at_DESC x z.
Proof. destruct x, y, z; simpl; try easy. lia. Qed.

Lemma insert_created_at_DESC_perm t l :
  Permutation (t :: l) (insert_created_at_DESC t l).
Proof.
  induction l as [| u l IH]; simpl; [reflexivity |].
  destruct (created_at_DESC_b _ _); [reflexivity |].
  rewrite perm_swap. now constructor.
Qed.

Lemma insert_created_at_DESC_sorted t l :
  StronglySorted
    (fun t u => created_at_DESC (transactions.created_at t)
                  (transactions.created_at u)) l ->
  StronglySorted
    (fun t u => created_at_DESC (transactions.created_at t)
                  (transactions.created_at u))
    (insert_created_at_DESC t l).
Proof.
  induction 1 as [| u l Hs IH Hu]; simpl.
  - constructor; constructor.
  - destruct (created_at_DESC_b _ _) eqn:E.
    + apply created_at_DESC_b_true in E.
      constructor; [now constructor |].
      constructor; [exact E |].
      revert Hu. apply Forall_impl. intro w.
      now apply created_at_DESC_trans.
    + apply created_at_DESC_b_false in E.
      constructor; [exact IH |].
      apply (Permutation_Forall (insert_created_at_DESC_perm t l)).
      now constructor.
Qed.

Lemma sort_created_at_DESC_ordered rows :
  ORDER_BY_created_at_DESC rows (sort_created_at_DESC rows).
Proof.
  split.
  - induction rows as [| t rows IH]; simpl; [constructor |].
    rewrite <- insert_created_at_DESC_perm. now constructor.
  - induction rows as [| t rows IH]; simpl; [constructor |].
    now apply insert_created_at_DESC_sorted.
Qed.

(** Every SELECT policy of the migration has a sub-select on [users]:
    under row-level security no SELECT runs, and past it every row that
    satisfies the condition is returned. *)
Lemma SELECT_FROM_users_refused s WHERE db :
  bypassrls s = false ->
  SELECT_FROM_users s WHERE db = inl (infinite_recursion "users").
Proof. intro B. unfold SELECT_FROM_users, row_security. now rewrite B. Qed.

Lemma SELECT_FROM_transactions_refused s WHERE db :
  bypassrls s = false ->
  SELECT_FROM_transactions s WHERE db = inl (infinite_recursion "users").
Proof.
  intro B. unfold SELECT_FROM_transactions, row_security. now rewrite B.
Qed.

Lemma SELECT_FROM_accounts_refused s WHERE db :
  bypassrls s = false ->
  SELECT_FROM_accounts s WHERE db = inl (infinite_recursion "users").
Proof. intro B. unfold SELECT_FROM_accounts, row_security. now rewrite B. Qed.

Lemma SELECT_FROM_activity_logs_refused s WHERE db :
  bypassrls s = false ->
  SELECT_FROM_activity_logs s WHERE db = inl (infinite_recursion "users").
Proof.
  intro B. unfold SELECT_FROM_activity_logs, row_security. now rewrite B.
Qed.

Lemma SELECT_FROM_users_bypass s WHERE db :
  bypassrls s = true ->
  SELECT_FROM_users s WHERE db = inr (filter WHERE (tbl_users db)).
Proof.
  intro B. unfold SELECT_FROM_users, row_security. rewrite B, bind_Ok_l.
  unfold Ok. f_equal. apply filter_ext. intro. apply andb_true_r.
Qed.

Lemma SELECT_FROM_transactions_bypass s WHERE db :
  bypassrls s = true ->
  SELECT_FROM_transactions s WHERE db
  = inr (filter WHERE (tbl_transactions db)).
Proof.
  intro B. unfold SELECT_FROM_transactions, row_security.
  rewrite B, bind_Ok_l.
  unfold Ok. f_equal. apply filter_ext. intro. apply andb_true_r.
Qed.

Lemma SELECT_FROM_accounts_bypass s WHERE db :
  bypassrls s = true ->
  SELECT_FROM_accounts s WHERE db = inr (filter WHERE (tbl_accounts db)).
Proof.
  intro B. unfold SELECT_FROM_accounts, row_security. rewrite B, bind_Ok_l.
  unfold Ok. f_equal. apply filter_ext. intro. apply andb_true_r.
Qed.

Lemma fetchData_query_refused s uid userDetails filter db :
  bypassrls s = false ->
  fetchData_query s uid userDetails filter db
  = inl (infinite_recursion "users").
Proof. intro B. unfold fetchData_query, row_security. now rewrite B. Qed.

(** What the query of the Transactions page selects. *)
Lemma fetchData_query_inr s uid userDetails filter db rows :
  fetchData_query s uid userDetails filter db = inr rows ->
  bypassrls s = true
  /\ forall t, In t rows ->
       In t (tbl_transactions db)
       /\ (is_admin_or_staff userDetails = false ->
           transactions.user_id t = uid)
       /\ (forall st, transaction_status_in filter = Some st ->
                      transactions.status t = Some st).
Proof.
  intro H.
  destruct (bypassrls s) eqn:B;
    [| now rewrite fetchData_query_refused in H].
  split; [reflexivity |]. intros t Hin.
  unfold fetchData_query in H.
  rewrite row_security_bypass, bind_Ok_l in H by exact B. cbv zeta in H.
  destruct (String.eqb_spec filter "all") as [-> | Nall].
  - rewrite SELECT_FROM_transactions_bypass in H by exact B.
    injection H as <-. apply filter_In in Hin. destruct Hin as [Hin O].
    repeat split; try assumption.
    + intro A. rewrite A in O. now apply N.eqb_eq.
    + intros st Hst. discriminate.
  - destruct (transaction_status_in filter) as [st |]; [| discriminate].
    rewrite SELECT_FROM_transactions_bypass in H by exact B.
    injection H as <-. apply filter_In in Hin. destruct Hin as [Hin P].
    rewrite !andb_true_iff in P. destruct P as [O S].
    repeat split; try assumption.
    + intro A. rewrite A in O. now apply N.eqb_eq.
    + intros st' E. injection E as <-. now apply status_is_eq.
Qed.

(** X14.  To a session that is neither admin nor staff the Transactions
    page lists only transactions of the signed-in user, whatever role the
    page believes the user to have: either the query fails and the list is
    kept, or every row listed is a stored transaction of that user. *)
Theorem transactions_page_lists_only_own_rows s db v v' uid :
  auth_uid s = Some uid ->
  may_update s db = false ->
  fetchData s db v v' ->
  view_transactions v' = view_transactions v
  \/ forall t, In t (view_transactions v') ->
               In t (tbl_transactions db) /\ transactions.user_id t = uid.
Proof.
  intros A M H. unfold fetchData in H. rewrite A in H.
  destruct (may_update_false s db M) as [B E].
  rewrite (fetchData_query_refused s uid _ _ db B) in H.
  left. now rewrite H.
Qed.

Lemma transactions_page_lists_only_own_rows_witness :
  view_transactions (mk_transactions_view (Some ama) [tuition] "all" false)
  = view_transactions (mk_transactions_view (Some ama) [tuition] "all" true)
  \/ forall t,
       In t (view_transactions
               (mk_transactions_view (Some ama) [tuition] "all" false)) ->
       In t (tbl_transactions ledger) /\ transactions.user_id t = 2%N.
Proof.
  apply (transactions_page_lists_only_own_rows as_kofi ledger
           (mk_transactions_view (Some ama) [tuition] "all" true)
           (mk_transactions_view (Some ama) [tuition] "all" false) 2).
  - reflexivity.
  - reflexivity.
  - reflexivity.
Defined.

(** X15.  When the query of the Transactions page gets past row-level
    security and a status is chosen in the filter, every transaction the
    page lists after fetching has that status. *)
Theorem transactions_page_filter_keeps_one_status s db v v' uid st :
  auth_uid s = Some uid ->
  bypassrls s = true ->
  transaction_status_in (view_filter v) = Some st ->
  fetchData s db v v' ->
  forall t, In t (view_transactions v') -> transactions.status t = Some st.
Proof.
  intros A B F H. unfold fetchData in H. rewrite A in H.
  destruct (fetchData_query s uid _ _ db) as [e | rows] eqn:Q.
  - unfold fetchData_query in Q.
    rewrite row_security_bypass, bind_Ok_l in Q by exact B. cbv zeta in Q.
    destruct (String.eqb_spec (view_filter v) "all") as [E | _];
      [rewrite E in F; discriminate |].
    rewrite F, SELECT_FROM_transactions_bypass in Q by exact B.
    discriminate.
  - destruct H as (out & [P _] & ->). simpl. intros t Hin.
    apply (Permutation_in _ (Permutation_sym P)) in Hin.
    destruct (fetchData_query_inr _ _ _ _ _ _ Q) as [_ K].
    destruct (K t Hin) as (_ & _ & H4). now apply H4.
Qed.

Lemma transactions_page_filter_keeps_one_status_witness :
  transaction_status_in "approved" = Some approved
  /\ forall t,
       In t (view_transactions
               (mk_transactions_view (Some ama) [refund] "approved" false)) ->
       transactions.status t = Some approved.
Proof.
  split; [reflexivity |].
  apply (transactions_page_filter_keeps_one_status as_owner ledger
           (mk_transactions_view (Some ama) [] "approved" true)
           (mk_transactions_view (Some ama) [refund] "approved" false)
           1 approved).
  - reflexivity.
  - reflexivity.
  - reflexivity.
  - simpl. exists [refund]. split; [| reflexivity].
    split; [apply Permutation_refl | repeat constructor].
Defined.

(** X16.  When the query gets past row-level security, the page knows the
    user as admin or staff and the filter is on 'all', the Transactions
    page lists every stored transaction, each once. *)
Theorem transactions_page_of_staff_lists_everything s db v v' uid :
  auth_uid s = Some uid ->
  bypassrls s = true ->
  is_admin_or_staff (view_userDetails v) = true ->
  view_filter v = "all" ->
  fetchData s db v v' ->
  Permutation (tbl_transactions db) (view_transactions v').
Proof.
  intros A B R F H. unfold fetchData in H. rewrite A in H.
  unfold fetchData_query in H.
  rewrite row_security_bypass, bind_Ok_l in H by exact B. cbv zeta in H.
  rewrite F, R in H. simpl in H.
  rewrite SELECT_FROM_transactions_bypass in H by exact B.
  destruct H as (out & [P _] & ->). simpl.
  rewrite filter_all in P; [exact P | reflexivity].
Qed.

Lemma transactions_page_of_staff_lists_everything_witness :
  Permutation (tbl_transactions ledger)
    (view_transactions
       (mk_transactions_view (Some ama) (tbl_transactions ledger) "all"
          false)).
Proof.
  apply (transactions_page_of_staff_lists_everything as_owner ledger
           (mk_transactions_view (Some ama) [] "all" true)
           (mk_transactions_view (Some ama) (tbl_transactions ledger) "all"
              false) 1).
  - reflexivity.
  - reflexivity.
  - reflexivity.
  - reflexivity.
  - simpl. exists (tbl_transactions ledger). split; [| reflexivity].
    split; [apply Permutation_refl | repeat constructor].
Defined.

(** X17.  The query is built with the user details the page had before
    the fetch.  On the first fetch there are none: when the queries get
    past row-level security, the page then lists only transactions of the
    signed-in user, also to an admin, and learns the user's row, so that
    the list of all transactions takes a second fetch. *)
Theorem first_fetch_lists_only_own_rows s db v v' uid u :
  consistent db = true ->
  auth_uid s = Some uid ->
  bypassrls s = true ->
  In u (tbl_users db) ->
  users.id u = uid ->
  view_userDetails v = None ->
  view_filter v = "all" ->
  fetchData s db v v' ->
  view_userDetails v' = Some u
  /\ forall t, In t (view_transactions v') -> transactions.user_id t = uid.
Proof.
  intros C A B Hu Hid D F H. unfold fetchData in H. rewrite A in H.
  assert (S : SELECT_FROM_users s (fun x => N.eqb (users.id x) uid) db
              = inr [u]).
  { rewrite SELECT_FROM_users_bypass by exact B. f_equal.
    apply consistent_iff in C. destruct C as (Uu & _).
    rewrite <- Hid. now apply (filter_unique_key users.id). }
  rewrite S in H. simpl in H.
  destruct (fetchData_query s uid _ _ db) as [e | rows] eqn:Q.
  - unfold fetchData_query in Q.
    rewrite row_security_bypass, bind_Ok_l in Q by exact B. cbv zeta in Q.
    rewrite F, SELECT_FROM_transactions_bypass in Q by exact B.
    discriminate.
  - destruct H as (out & [P _] & ->). simpl. split; [reflexivity |].
    intros t Hin. apply (Permutation_in _ (Permutation_sym P)) in Hin.
    destruct (fetchData_query_inr _ _ _ _ _ _ Q) as [_ K].
    destruct (K t Hin) as (_ & H3 & _).
    apply H3. now rewrite D.
Qed.

Lemma first_fetch_lists_only_own_rows_witness :
  view_userDetails (mk_transactions_view (Some ama) [] "all" false) = Some ama
  /\ forall t,
       In t (view_transactions (mk_transactions_view (Some ama) [] "all" false)) ->
       transactions.user_id t = 1%N.
Proof.
  apply (first_fetch_lists_only_own_rows as_owner ledger
           (mk_transactions_view None [] "all" true)
           (mk_transactions_view (Some ama) [] "all" false) 1 ama).
  - reflexivity.
  - reflexivity.
  - reflexivity.
  - simpl. auto.
  - reflexivity.
  - reflexivity.
  - reflexivity.
  - simpl. exists []. split; [| reflexivity].
    split; [apply Permutation_refl | constructor].
Defined.

(** The fetches of the pages and of the store always come to an end. *)
Lemma fetchData_returns s db v : exists v', fetchData s db v v'.
Proof.
  unfold fetchData. destruct (auth_uid s) as [uid |]; [| eauto].
  destruct (fetchData_query s uid _ _ db) as [e | rows]; [eauto |].
  eexists. exists (sort_created_at_DESC rows).
  split; [apply sort_created_at_DESC_ordered | reflexivity].
Qed.

Lemma fetchDashboardData_returns s db v : exists v', fetchDashboardData s db v v'.
Proof.
  unfold fetchDashboardData. destruct (auth_uid s) as [uid |]; [| eauto].
  destruct (SELECT_FROM_transactions s _ db) as [e | rows]; [eauto |].
  eexists. exists (sort_created_at_DESC rows).
  split; [apply sort_created_at_DESC_ordered | reflexivity].
Qed.

Lemma fetchTransactions_returns s db st : exists st', fetchTransactions s db st st'.
Proof.
  unfold fetchTransactions.
  destruct (SELECT_FROM_transactions s _ db) as [e | rows]; [eauto |].
  eexists. exists (sort_created_at_DESC rows).
  split; [apply sort_created_at_DESC_ordered | reflexivity].
Qed.

Lemma In_firstn {A : Type} (n : nat) (l : list A) (x : A) :
  In x (firstn n l) -> In x l.
Proof.
  revert l. induction n as [| n IH]; intros [| a l]; simpl; try easy.
  intros [-> | H]; [now left | right; auto].
Qed.

(** The account of a user, as a query past row-level security selects
    it. *)
Lemma SELECT_own_account s db uid a :
  consistent db = true ->
  bypassrls s = true ->
  In a (tbl_accounts db) ->
  accounts.user_id a = uid ->
  SELECT_FROM_accounts s (fun x => N.eqb (accounts.user_id x) uid) db
  = inr [a].
Proof.
  intros C B Ha Hid. rewrite SELECT_FROM_accounts_bypass by exact B. f_equal.
  destruct (consistent_inv db C) as (_ & _ & Uu & _).
  rewrite <- Hid. now apply (filter_unique_key accounts.user_id).
Qed.

Lemma dashboard_shows_own_account_aux s db v v' uid :
  consistent db = true ->
  auth_uid s = Some uid ->
  bypassrls s = true ->
  fetchDashboardData s db v v' ->
  forall a, In a (tbl_accounts db) -> accounts.user_id a = uid ->
            dashboard_account v' = Some a.
Proof.
  intros C A B H a Ha Hid. unfold fetchDashboardData in H. rewrite A in H.
  rewrite (SELECT_own_account s db uid a C B Ha Hid) in H.
  rewrite SELECT_FROM_transactions_bypass in H by exact B.
  destruct H as (sorted & _ & ->). reflexivity.
Qed.

(** X18.  Under row-level security, which is how every signed-in user
    reaches the database, [fetchAccount] of the store fails for everyone,
    also for a student with exactly one account: the SELECT policies of
    [accounts] read [users], the query is refused with 42P17, and the
    state keeps the account it had and carries the error message. *)
Theorem store_fetch_of_the_account_is_refused s db st :
  bypassrls s = false ->
  fetchAccount s db st
  = mk_AppState (state_transactions st) (state_account st) false
      (Some "Failed to fetch account").
Proof.
  intro B. unfold fetchAccount.
  now rewrite SELECT_FROM_accounts_refused.
Qed.

Lemma store_fetch_of_the_account_is_refused_witness :
  filter (fun a => N.eqb (accounts.user_id a) 2) (tbl_accounts ledger)
  = [kofi_account]
  /\ fetchAccount as_kofi ledger (mk_AppState [] None true None)
     = mk_AppState [] None false (Some "Failed to fetch account").
Proof.
  split; [reflexivity |].
  apply (store_fetch_of_the_account_is_refused as_kofi ledger
           (mk_AppState [] None true None)).
  reflexivity.
Defined.

(** X19.  For an admin or a member of staff, who may see every account,
    [fetchAccount] of the store fails whenever the table does not hold
    exactly one account: [.single()] refuses the result, the state keeps
    the account it had and carries the error message. *)
Theorem store_fails_to_fetch_an_account_for_staff s db st :
  exists_user_with_role [admin; staff] s db = true ->
  List.length (tbl_accounts db) <> 1%nat ->
  fetchAccount s db st
  = mk_AppState (state_transactions st) (state_account st) false
      (Some "Failed to fetch account").
Proof.
  intros E L. unfold fetchAccount.
  destruct (bypassrls s) eqn:B.
  - rewrite SELECT_FROM_accounts_bypass by exact B.
    rewrite filter_all by reflexivity.
    destruct (tbl_accounts db) as [| a [| b l]]; simpl in *;
      [reflexivity | contradiction | reflexivity].
  - now rewrite SELECT_FROM_accounts_refused.
Qed.

Lemma store_fails_to_fetch_an_account_for_staff_witness :
  fetchAccount as_ama ledger (mk_AppState [] None true None)
  = mk_AppState [] None false (Some "Failed to fetch account").
Proof.
  apply (store_fails_to_fetch_an_account_for_staff as_ama ledger
           (mk_AppState [] None true None)).
  - reflexivity.
  - simpl. discriminate.
Defined.

(** X20.  When its queries get past row-level security, the Dashboard
    shows at most five transactions, all of them stored transactions of
    the signed-in user, and as account the user's own account when there
    is one, the account it showed before otherwise. *)
Theorem dashboard_shows_the_own_account_and_five_own_rows s db v v' uid :
  consistent db = true ->
  auth_uid s = Some uid ->
  bypassrls s = true ->
  fetchDashboardData s db v v' ->
  (List.length (dashboard_transactions v') <= 5)%nat
  /\ (forall t, In t (dashboard_transactions v') ->
                In t (tbl_transactions db) /\ transactions.user_id t = uid)
  /\ (forall a, In a (tbl_accounts db) -> accounts.user_id a = uid ->
                dashboard_account v' = Some a)
  /\ ((forall a, In a (tbl_accounts db) -> accounts.user_id a <> uid) ->
      dashboard_account v' = dashboard_account v).
Proof.
  intros C A B H.
  pose proof (dashboard_shows_own_account_aux s db v v' uid C A B H) as Own.
  unfold fetchDashboardData in H. rewrite A in H.
  rewrite SELECT_FROM_transactions_bypass in H by exact B.
  destruct H as (sorted & [P _] & ->).
  cbn [dashboard_transactions dashboard_account].
  split; [apply firstn_le_length |].
  split.
  - intros t Hin. apply In_firstn in Hin.
    apply (Permutation_in _ (Permutation_sym P)) in Hin.
    apply filter_In in Hin. destruct Hin as [Hin Q].
    split; [exact Hin | now apply N.eqb_eq].
  - split; [exact Own |].
    intro Hnone. rewrite SELECT_FROM_accounts_bypass by exact B.
    rewrite filter_none; [reflexivity |].
    intros a Ha. apply N.eqb_neq. auto.
Qed.

Lemma dashboard_shows_the_own_account_and_five_own_rows_witness :
  exists v',
    fetchDashboardData (mk_session (Some 2%N) true 1006) ledger
      (mk_dashboard_view None [] None true) v'
    /\ (List.length (dashboard_transactions v') <= 5)%nat
    /\ (forall t, In t (dashboard_transactions v') ->
                  In t (tbl_transactions ledger)
                  /\ transactions.user_id t = 2%N)
    /\ (forall a, In a (tbl_accounts ledger) -> accounts.user_id a = 2%N ->
                  dashboard_account v' = Some a)
    /\ ((forall a, In a (tbl_accounts ledger) -> accounts.user_id a <> 2%N) ->
        dashboard_account v' = dashboard_account
                                 (mk_dashboard_view None [] None true)).
Proof.
  destruct (fetchDashboardData_returns (mk_session (Some 2%N) true 1006)
              ledger (mk_dashboard_view None [] None true)) as (v' & H).
  exists v'. split; [exact H |].
  apply (dashboard_shows_the_own_account_and_five_own_rows
           (mk_session (Some 2%N) true 1006) ledger
           (mk_dashboard_view None [] None true) v' 2).
  - reflexivity.
  - reflexivity.
  - reflexivity.
  - exact H.
Defined.

(** X21.  What an approval writes is what a Dashboard reads: after the
    approval of a pending transaction whose resulting balance is between 0
    and 99999999.99, a Dashboard opened for the owner, its queries past
    row-level security like the approval, shows the account with the old
    balance plus the signed amount. *)
Theorem dashboard_shows_the_balance_after_approval s so tid db t a b :
  consistent db = true ->
  bypassrls s = true ->
  In t (tbl_transactions db) ->
  transactions.id t = tid ->
  transactions.status t = Some pending ->
  In a (tbl_accounts db) ->
  accounts.user_id a = transactions.user_id t ->
  accounts.balance a = Some b ->
  0 <= b + signed_amount t < 10 ^ 10 ->
  auth_uid so = Some (transactions.user_id t) ->
  bypassrls so = true ->
  exists db',
    update_status_request s tid "approved" db = inr db'
    /\ forall v v',
         fetchDashboardData so db' v v' ->
         dashboard_account v'
         = Some (set_balance a (Some (b + signed_amount t)) (Some (now s))).
Proof.
  intros C M Hin Hid Hpend Ha Hown Hbal B A Bo.
  destruct (approval_outcome s tid db t a b C M Hin Hid Hpend Ha Hown Hbal)
    as (l1 & l2 & k1 & k2 & _ & _ & Hok & _).
  destruct (Hok B) as (db' & H & _ & _ & Hacc).
  exists db'. split; [exact H |].
  assert (C' : consistent db' = true).
  { apply (consistent_evolves db); [exact C |].
    now apply (update_status_request_evolves s tid "approved"). }
  intros v v' F.
  apply (dashboard_shows_own_account_aux so db' v v'
           (transactions.user_id t) C' A Bo F).
  - rewrite Hacc. apply in_or_app. right. now left.
  - exact Hown.
Qed.

Lemma dashboard_shows_the_balance_after_approval_witness :
  exists db',
    update_status_request as_service 10 "approved" ledger = inr db'
    /\ forall v v',
         fetchDashboardData (mk_session (Some 2%N) true 1006) db' v v' ->
         dashboard_account v'
         = Some (set_balance kofi_account
                   (Some (5000 + signed_amount tuition))
                   (Some (now as_service))).
Proof.
  apply (dashboard_shows_the_balance_after_approval as_service
           (mk_session (Some 2%N) true 1006) 10 ledger tuition kofi_account
           5000).
  - reflexivity.
  - reflexivity.
  - simpl. auto.
  - reflexivity.
  - reflexivity.
  - simpl. auto.
  - reflexivity.
  - reflexivity.
  - vm_compute. split; [discriminate | reflexivity].
  - reflexivity.
  - reflexivity.
Defined.

(** ** The buttons of the Transactions page *)

(** X22.  After a status change that one of its buttons requested and
    that raised no error, the Transactions page offers no action on the
    rows of that transaction any more. *)
Theorem page_offers_no_action_after_a_status_change
    s tid newStatus userDetails t0 pg db pg' db' :
  In newStatus (row_actions userDetails t0) ->
  handleStatusChange s tid newStatus (pg, db) = (pg', db') ->
  console_error pg' = console_error pg ->
  forall t, In t (page_transactions pg') -> transactions.id t = tid ->
            row_actions userDetails t = [].
Proof.
  intros Hact H Hc t Hin Hid.
  assert (L : transaction_status_in newStatus = Some approved
              \/ transaction_status_in newStatus = Some rejected).
  { unfold row_actions in Hact.
    destruct (is_admin_or_staff userDetails && _); [| contradiction].
    destruct Hact as [<- | [<- | []]]; auto. }
  unfold handleStatusChange in H.
  destruct (update_status_request s tid newStatus db) as [e | d];
    injection H as <- <-.
  - simpl in Hc. apply (f_equal (@List.length _)) in Hc.
    rewrite length_app in Hc. simpl in Hc. lia.
  - simpl in Hin. apply in_map_iff in Hin. destruct Hin as (t1 & E & _).
    destruct (N.eqb_spec (transactions.id t1) tid) as [_ | Ne];
      [| subst; contradiction].
    unfold row_actions. rewrite <- E.
    destruct L as [-> | ->]; simpl; now rewrite andb_false_r.
Qed.

Lemma page_offers_no_action_after_a_status_change_witness :
  In "approved" (row_actions (Some ama) tuition)
  /\ console_error
       (fst (handleStatusChange as_owner 10 "approved"
               (mk_page [tuition; lab_fee] [], ledger))) = []
  /\ forall t,
       In t (page_transactions
               (fst (handleStatusChange as_owner 10 "approved"
                       (mk_page [tuition; lab_fee] [], ledger)))) ->
       transactions.id t = 10%N ->
       row_actions (Some ama) t = [].
Proof.
  split; [simpl; auto |]. split; [reflexivity |].
  apply (page_offers_no_action_after_a_status_change as_owner 10 "approved"
           (Some ama) tuition (mk_page [tuition; lab_fee] []) ledger
           _ (snd (handleStatusChange as_owner 10 "approved"
                     (mk_page [tuition; lab_fee] [], ledger)))).
  - simpl. auto.
  - vm_compute. reflexivity.
  - vm_compute. reflexivity.
Defined.

(** ** Reading under row-level security *)

(** X23.  Under row-level security, which is how every signed-in user
    reaches the database, no SELECT on [users], [transactions],
    [accounts] or [activity_logs] returns a row, whatever its condition
    and whoever asks, an admin included: each table has a SELECT policy
    with a sub-select on [users], and the policy "Admins can view all
    users" of [users] has one on [users] itself, so the query is refused
    with the error 42P17 (infinite recursion detected in policy for
    relation users). *)
Theorem every_select_under_row_level_security_is_refused s db :
  bypassrls s = false ->
  (forall WHERE,
     SELECT_FROM_users s WHERE db = inl (infinite_recursion "users"))
  /\ (forall WHERE,
        SELECT_FROM_transactions s WHERE db
        = inl (infinite_recursion "users"))
  /\ (forall WHERE,
        SELECT_FROM_accounts s WHERE db = inl (infinite_recursion "users"))
  /\ (forall WHERE,
        SELECT_FROM_activity_logs s WHERE db
        = inl (infinite_recursion "users")).
Proof.
  intro B. repeat split; intro WHERE.
  - now apply SELECT_FROM_users_refused.
  - now apply SELECT_FROM_transactions_refused.
  - now apply SELECT_FROM_accounts_refused.
  - now apply SELECT_FROM_activity_logs_refused.
Qed.

Lemma every_select_under_row_level_security_is_refused_witness :
  exists_user_with_role [admin] as_ama ledger = true
  /\ SELECT_FROM_users as_ama (fun u => N.eqb (users.id u) 1) ledger
     = inl (infinite_recursion "users")
  /\ SELECT_FROM_transactions as_kofi
       (fun t => N.eqb (transactions.user_id t) 2) ledger
     = inl (infinite_recursion "users").
Proof.
  split; [reflexivity |].
  split.
  - apply (every_select_under_row_level_security_is_refused as_ama ledger).
    reflexivity.
  - apply (every_select_under_row_level_security_is_refused as_kofi ledger).
    reflexivity.
Defined.

(** X29.  Under row-level security the Transactions page learns nothing
    from a fetch: the query for the user's row brings no data, the query
    for the transactions fails, and the page keeps the user details and
    the rows it had and stops loading.  On the first fetch it therefore
    stays without rows and, not knowing the user as admin or staff,
    without the Actions column. *)
Theorem transactions_page_fetch_under_row_level_security s db v v' uid :
  bypassrls s = false ->
  auth_uid s = Some uid ->
  fetchData s db v v' ->
  v' = mk_transactions_view (view_userDetails v) (view_transactions v)
         (view_filter v) false.
Proof.
  intros B A H. unfold fetchData in H. rewrite A in H.
  rewrite (fetchData_query_refused s uid _ _ db B) in H.
  now rewrite SELECT_FROM_users_refused in H.
Qed.

Lemma transactions_page_fetch_under_row_level_security_witness :
  exists v',
    fetchData as_ama ledger (mk_transactions_view None [] "all" true) v'
    /\ v' = mk_transactions_view None [] "all" false
    /\ forall t, row_actions (view_userDetails v') t = [].
Proof.
  destruct (fetchData_returns as_ama ledger
              (mk_transactions_view None [] "all" true)) as (v' & H).
  exists v'. split; [exact H |].
  assert (E : v' = mk_transactions_view None [] "all" false).
  { apply (transactions_page_fetch_under_row_level_security as_ama ledger
             (mk_transactions_view None [] "all" true) v' 1).
    - reflexivity.
    - reflexivity.
    - exact H. }
  split; [exact E |]. rewrite E. reflexivity.
Defined.

(** X30.  Under row-level security the Dashboard learns nothing either:
    its three queries bring no data, the page reads [data] only, so the
    account, the rows and the user details stay as they were and the page
    stops loading without any error shown. *)
Theorem dashboard_fetch_under_row_level_security s db v v' uid :
  bypassrls s = false ->
  auth_uid s = Some uid ->
  fetchDashboardData s db v v' ->
  v' = mk_dashboard_view (dashboard_account v) (dashboard_transactions v)
         (dashboard_userDetails v) false.
Proof.
  intros B A H. unfold fetchDashboardData in H. rewrite A in H.
  rewrite SELECT_FROM_transactions_refused in H by exact B.
  now rewrite SELECT_FROM_accounts_refused, SELECT_FROM_users_refused in H.
Qed.

Lemma dashboard_fetch_under_row_level_security_witness :
  In kofi_account (tbl_accounts ledger)
  /\ forall v',
       fetchDashboardData as_kofi ledger
         (mk_dashboard_view None [] None true) v' ->
       v' = mk_dashboard_view None [] None false.
Proof.
  split; [simpl; auto |]. intros v' H.
  apply (dashboard_fetch_under_row_level_security as_kofi ledger
           (mk_dashboard_view None [] None true) v' 2).
  - reflexivity.
  - reflexivity.
  - exact H.
Defined.

(** X27.  Under row-level security [fetchTransactions] of the store fails
    for everyone: the state keeps the rows and the account it had, stops
    loading and carries the error 'Failed to fetch transactions'. *)
Theorem store_fetch_of_the_transactions_is_refused s db st st' :
  bypassrls s = false ->
  fetchTransactions s db st st' ->
  st' = mk_AppState (state_transactions st) (state_account st) false
          (Some "Failed to fetch transactions").
Proof.
  intros B H. unfold fetchTransactions in H.
  now rewrite SELECT_FROM_transactions_refused in H.
Qed.

Lemma store_fetch_of_the_transactions_is_refused_witness :
  In deposit (tbl_transactions ledger)
  /\ forall st',
       fetchTransactions (mk_session (Some 4%N) false 1005) ledger
         (mk_AppState [] None true None) st' ->
       st' = mk_AppState [] None false (Some "Failed to fetch transactions").
Proof.
  split; [simpl; auto 6 |]. intros st' H.
  apply (store_fetch_of_the_transactions_is_refused
           (mk_session (Some 4%N) false 1005) ledger
           (mk_AppState [] None true None) st').
  - reflexivity.
  - exact H.
Defined.

(** ** The Settings page *)

(** X24.  A setting update that gets past row-level security (the service
    role, the owner of the tables), with a value that is not null,
    replaces the value of the rows with the given id and nothing else:
    every other row and every other column, [updated_at] included, is as
    it was, and the page shows the same change with the success
    message. *)
Theorem setting_update_past_row_level_security {V : Type}
    (is_json_null : V -> bool) s settingId newValue db pg tbl :
  bypassrls s = true ->
  is_json_null newValue = false ->
  handleSettingUpdate V is_json_null s settingId newValue db (pg, tbl)
  = (mk_settings_view
       (map (fun r => if N.eqb (settings.id r) settingId
                      then set_value V r newValue else r)
            (view_settings pg))
       false "" "Settings updated successfully",
     map (fun r => if N.eqb (settings.id r) settingId
                   then set_value V r newValue else r)
         tbl).
Proof.
  intros B N. unfold handleSettingUpdate, UPDATE_settings_SET_value.
  rewrite row_security_bypass, bind_Ok_l by exact B.
  unfold settings_policy. rewrite B, N. simpl orb.
  assert (E : forall l,
            update_rows (fun r : settings.row V =>
                           N.eqb (settings.id r) settingId && true)
              (fun r => Ok (set_value V r newValue)) l
            = Ok (map (fun r => if N.eqb (settings.id r) settingId
                                then set_value V r newValue else r) l,
                  map (fun r => (r, set_value V r newValue))
                    (filter (fun r => N.eqb (settings.id r) settingId) l))).
  { induction l as [| r l IH]; simpl; [reflexivity |].
    rewrite IH, andb_true_r.
    destruct (N.eqb (settings.id r) settingId); reflexivity. }
  rewrite E. reflexivity.
Qed.

Lemma setting_update_past_row_level_security_witness :
  handleSettingUpdate bool (fun _ => false) as_owner 31 true ledger
    (mk_settings_view
       [settings.mk 30 "allow_signup" true None None;
        settings.mk 31 "maintenance_mode" false None None]
       false "" "",
     [settings.mk 30 "allow_signup" true None None;
      settings.mk 31 "maintenance_mode" false None None])
  = (mk_settings_view
       [settings.mk 30 "allow_signup" true None None;
        settings.mk 31 "maintenance_mode" true None None]
       false "" "Settings updated successfully",
     [settings.mk 30 "allow_signup" true None None;
      settings.mk 31 "maintenance_mode" true None None]).
Proof.
  apply (setting_update_past_row_level_security (fun _ : bool => false)
           as_owner 31 true ledger
           (mk_settings_view
              [settings.mk 30 "allow_signup" true None None;
               settings.mk 31 "maintenance_mode" false None None]
              false "" "")
           [settings.mk 30 "allow_signup" true None None;
            settings.mk 31 "maintenance_mode" false None None]);
    reflexivity.
Defined.

(** X25.  Under row-level security, which is how every signed-in user
    reaches the database, a setting update is refused for everyone, an
    admin included, whatever the value: the policy "Only admins can manage
    settings" reads [users].  The table and the rows shown are as they
    were and the page shows the failure message. *)
Theorem setting_update_under_row_level_security_is_refused {V : Type}
    (is_json_null : V -> bool) s settingId newValue db pg tbl :
  bypassrls s = false ->
  handleSettingUpdate V is_json_null s settingId newValue db (pg, tbl)
  = (mk_settings_view (view_settings pg) false "Failed to update settings" "",
     tbl).
Proof.
  intro B. unfold handleSettingUpdate, UPDATE_settings_SET_value, row_security.
  now rewrite B.
Qed.

Lemma setting_update_under_row_level_security_is_refused_witness :
  settings_policy as_ama ledger = true
  /\ handleSettingUpdate bool (fun _ => false) as_ama 31 true ledger
       (mk_settings_view [settings.mk 31 "maintenance_mode" false None None]
          false "" "",
        [settings.mk 31 "maintenance_mode" false None None])
     = (mk_settings_view [settings.mk 31 "maintenance_mode" false None None]
          false "Failed to update settings" "",
        [settings.mk 31 "maintenance_mode" false None None]).
Proof.
  split; [reflexivity |].
  apply (setting_update_under_row_level_security_is_refused
           (fun _ : bool => false) as_ama 31 true ledger
           (mk_settings_view
              [settings.mk 31 "maintenance_mode" false None None] false "" "")
           [settings.mk 31 "maintenance_mode" false None None]).
  reflexivity.
Defined.

Lemma update_rows_raises {R : Type} (target : R -> bool) (e : pg_error)
    (tbl : list R) (r : R) :
  In r tbl -> target r = true ->
  update_rows target (fun _ => Raise e) tbl = inl e.
Proof.
  induction tbl as [| a tbl IH]; simpl; [contradiction |].
  intros [-> | Hin] T.
  - now rewrite T.
  - destruct (target a); [reflexivity |]. now rewrite IH.
Qed.

(** X26.  A setting update by an admin with a value that reaches the
    database as NULL is refused by NOT NULL when the setting exists: the
    stored rows and the rows shown are as they were and the page shows the
    failure message. *)
Theorem setting_update_to_null_is_refused {V : Type}
    (is_json_null : V -> bool) s settingId newValue db pg tbl r :
  settings_policy s db = true ->
  is_json_null newValue = true ->
  In r tbl ->
  settings.id r = settingId ->
  handleSettingUpdate V is_json_null s settingId newValue db (pg, tbl)
  = (mk_settings_view (view_settings pg) false "Failed to update settings" "",
     tbl).
Proof.
  intros P N Hin Hid. unfold handleSettingUpdate, UPDATE_settings_SET_value.
  destruct (bypassrls s) eqn:B.
  - rewrite row_security_bypass, bind_Ok_l by exact B.
    rewrite P, N.
    rewrite (update_rows_raises _ _ tbl r Hin); [reflexivity |].
    now rewrite Hid, N.eqb_refl.
  - unfold row_security. now rewrite B.
Qed.

Lemma setting_update_to_null_is_refused_witness :
  handleSettingUpdate (option Z)
    (fun v => match v with None => true | Some _ => false end)
    as_ama 32 None ledger
    (mk_settings_view [settings.mk 32 "late_fee" (Some 500) None None]
       false "" "",
     [settings.mk 32 "late_fee" (Some 500) None None])
  = (mk_settings_view [settings.mk 32 "late_fee" (Some 500) None None]
       false "Failed to update settings" "",
     [settings.mk 32 "late_fee" (Some 500) None None]).
Proof.
  apply (setting_update_to_null_is_refused
           (fun v : option Z => match v with None => true | Some _ => false end)
           as_ama 32 None ledger
           (mk_settings_view [settings.mk 32 "late_fee" (Some 500) None None]
              false "" "")
           [settings.mk 32 "late_fee" (Some 500) None None]
           (settings.mk 32 "late_fee" (Some 500) None None)).
  - reflexivity.
  - reflexivity.
  - simpl. auto.
  - reflexivity.
Defined.
